(** * GearGrid backend: request handlers over a relational store

    A shallow embedding of the Express handlers of the GearGrid backend
    (the server entry file, [routes/carBuilds.js], [routes/follows.js] and
    [middleware/ensureAuthenticated.js]) and of the part of the JavaScript
    runtime and of the SQL driver they rely on.

    - Module [JS]: request-body values and the operators the handlers
      apply to them ([!], [||], [??], [===], [<], [parseInt]).
    - The store: tables, statements, the driver's [execute] and [query],
      transactions, as a state-and-exception monad over a connection.
    - The handlers, one definition per route, statement by statement. What
      the deployment decides (engine failures, insert ids, token
      verification, the file system) is a [platform] the handlers take.
    - Further routes: deleting and fetching a build, the follow status, the
      profile view, the update of an event registration and the name parts
      of the registration details.
    - The properties: creation and update of composite entities
      (registrations with cars, builds with gallery and mods), review
      validation and ownership, follow edges, profile update; then what
      the further routes do, and how the routes compose (create then
      delete or fetch, update then fetch, follow then unfollow). *)

From Stdlib Require Import ZArith QArith List String Ascii Bool Lia.
Import ListNotations.
Local Open Scope string_scope.
Local Open Scope Z_scope.

(* ================================================================== *)
(** ** JavaScript values *)
(* ================================================================== *)

Module JS.

(** A Number. A finite double is represented by the rational it denotes, so
    comparisons are exact. *)
Inductive number : Type :=
| NaN
| Inf (negative : bool)
| Fin (q : Q).

(** The scalar values a parsed JSON body, a route parameter or a bound SQL
    parameter can hold. [JUndefined] is an absent property. *)
Inductive jsval : Type :=
| JUndefined
| JNull
| JBool (b : bool)
| JNum (x : number)
| JStr (s : string).

Definition num (z : Z) : jsval := JNum (Fin (inject_Z z)).

Definition Qltb (x y : Q) : bool := negb (Qle_bool y x).

(** [!v] is [negb (truthy v)]. *)
Definition truthy (v : jsval) : bool :=
  match v with
  | JUndefined | JNull => false
  | JBool b => b
  | JNum NaN => false
  | JNum (Inf _) => true
  | JNum (Fin q) => negb (Qeq_bool q 0)
  | JStr s => negb (String.eqb s "")
  end.

(** [a || b] *)
Definition or (a b : jsval) : jsval := if truthy a then a else b.

(** [a ?? b] *)
Definition nullish (a b : jsval) : jsval :=
  match a with
  | JUndefined | JNull => b
  | _ => a
  end.

Definition is_undefined (v : jsval) : bool :=
  match v with JUndefined => true | _ => false end.

Definition number_eq (x y : number) : bool :=
  match x, y with
  | Fin p, Fin q => Qeq_bool p q
  | Inf a, Inf b => Bool.eqb a b
  | _, _ => false
  end.

(** [a === b] *)
Definition strict_eq (a b : jsval) : bool :=
  match a, b with
  | JUndefined, JUndefined => true
  | JNull, JNull => true
  | JBool x, JBool y => Bool.eqb x y
  | JNum x, JNum y => number_eq x y
  | JStr x, JStr y => String.eqb x y
  | _, _ => false
  end.

(** *** Numeric strings *)

Definition is_space (c : ascii) : bool :=
  let n := nat_of_ascii c in
  orb (Nat.eqb n 32) (andb (Nat.leb 9 n) (Nat.leb n 13)).

Definition digit_of (radix : Z) (c : ascii) : option Z :=
  let n := Z.of_nat (nat_of_ascii c) in
  let d :=
    if andb (48 <=? n) (n <=? 57) then Some (n - 48)
    else if andb (97 <=? n) (n <=? 122) then Some (n - 87)
    else if andb (65 <=? n) (n <=? 90) then Some (n - 55)
    else None in
  match d with
  | Some k => if k <? radix then Some k else None
  | None => None
  end.

(** The longest prefix of digits of [s] in [radix]: its value read after
    [acc], how many digits it has, and what follows it. *)
Fixpoint digits (radix : Z) (s : list ascii) (acc : Z) (len : nat)
  : Z * nat * list ascii :=
  match s with
  | c :: rest =>
      match digit_of radix c with
      | Some d => digits radix rest (acc * radix + d) (S len)
      | None => (acc, len, s)
      end
  | [] => (acc, len, s)
  end.

Fixpoint drop_spaces (s : list ascii) : list ascii :=
  match s with
  | c :: rest => if is_space c then drop_spaces rest else s
  | [] => []
  end.

(** [String.prototype.trim] on ASCII text: it strips the white space and
    the line terminators of ASCII. The white space beyond ASCII that
    JavaScript strips as well (U+00A0, U+FEFF, U+2028 and so on) is left in
    place here. *)
Definition trim_chars (s : list ascii) : list ascii :=
  rev (drop_spaces (rev (drop_spaces s))).

Definition trim (s : string) : string :=
  string_of_list_ascii (trim_chars (list_ascii_of_string s)).

Definition signed (negative : bool) (z : Z) : Z := if negative then - z else z.

(** [m * 10 ^ e] *)
Definition scale10 (m e : Z) : Q :=
  if 0 <=? e then inject_Z (m * 10 ^ e)
  else Qmake m (Z.to_pos (10 ^ (- e))).

Definition take_sign (s : list ascii) : bool * list ascii :=
  match s with
  | c :: rest =>
      if Ascii.eqb c "-" then (true, rest)
      else if Ascii.eqb c "+" then (false, rest)
      else (false, s)
  | [] => (false, s)
  end.

(** The exponent part of a decimal literal, which must end the string. *)
Definition exponent (s : list ascii) : option Z :=
  match s with
  | [] => Some 0
  | c :: rest =>
      if orb (Ascii.eqb c "e") (Ascii.eqb c "E") then
        let (neg, ds) := take_sign rest in
        match digits 10 ds 0 0 with
        | (_, O, _) => None
        | (e, _, []) => Some (signed neg e)
        | _ => None
        end
      else None
  end.

(** [StrUnsignedDecimalLiteral] without [Infinity]. *)
Definition unsigned_decimal (s : list ascii) : option Q :=
  let '(ip, ilen, after_int) := digits 10 s 0 0 in
  let '(m, flen, after_frac, has_digit) :=
    match after_int with
    | "."%char :: fs =>
        let '(m, flen, r) := digits 10 fs ip 0 in
        (m, flen, r, negb (andb (Nat.eqb ilen 0) (Nat.eqb flen 0)))
    | _ => (ip, O, after_int, negb (Nat.eqb ilen 0))
    end in
  if has_digit then
    match exponent after_frac with
    | Some e => Some (scale10 m (e - Z.of_nat flen))
    | None => None
    end
  else None.

Definition radix_literal (radix : Z) (s : list ascii) : number :=
  match digits radix s 0 0 with
  | (_, O, _) => NaN
  | (v, _, []) => Fin (inject_Z v)
  | _ => NaN
  end.

(** [StringToNumber]: the value of a [StringNumericLiteral] over ASCII, [NaN]
    when the string is none. The mathematical value of the literal is kept
    as it is written, where JavaScript rounds it to the nearest double: for
    a literal within rounding distance of a bound, a comparison with the
    bound can come out differently here. *)
Definition StringToNumber (s : string) : number :=
  match trim_chars (list_ascii_of_string s) with
  | [] => Fin 0
  | "0"%char :: "x"%char :: r | "0"%char :: "X"%char :: r => radix_literal 16 r
  | "0"%char :: "o"%char :: r | "0"%char :: "O"%char :: r => radix_literal 8 r
  | "0"%char :: "b"%char :: r | "0"%char :: "B"%char :: r => radix_literal 2 r
  | t =>
      let (neg, u) := take_sign t in
      if String.eqb (string_of_list_ascii u) "Infinity" then Inf neg
      else match unsigned_decimal u with
           | Some q => Fin (if neg then Qopp q else q)
           | None => NaN
           end
  end.

Definition ToNumber (v : jsval) : number :=
  match v with
  | JUndefined => NaN
  | JNull => Fin 0
  | JBool b => Fin (if b then 1 else 0)
  | JNum x => x
  | JStr s => StringToNumber s
  end.

Definition number_lt (x y : number) : bool :=
  match x, y with
  | NaN, _ | _, NaN => false
  | Inf a, Inf b => andb a (negb b)
  | Inf a, Fin _ => a
  | Fin _, Inf b => negb b
  | Fin p, Fin q => Qltb p q
  end.

Fixpoint chars_lt (a b : list ascii) : bool :=
  match a, b with
  | _, [] => false
  | [], _ :: _ => true
  | x :: a', y :: b' =>
      let m := nat_of_ascii x in
      let n := nat_of_ascii y in
      if Nat.ltb m n then true
      else if Nat.ltb n m then false
      else chars_lt a' b'
  end.

(** [a < b]: two strings compare by code units, anything else as numbers,
    and a comparison with [NaN] is false. *)
Definition lt (a b : jsval) : bool :=
  match a, b with
  | JStr x, JStr y => chars_lt (list_ascii_of_string x) (list_ascii_of_string y)
  | _, _ => number_lt (ToNumber a) (ToNumber b)
  end.

(** [a > b] *)
Definition gt (a b : jsval) : bool := lt b a.

(** *** parseInt *)

Definition parseIntChars (s : list ascii) : number :=
  let (neg, t) := take_sign (drop_spaces s) in
  let (radix, ds) :=
    match t with
    | c0 :: c1 :: r =>
        if andb (Ascii.eqb c0 "0") (orb (Ascii.eqb c1 "x") (Ascii.eqb c1 "X"))
        then (16, r)
        else (10, t)
    | _ => (10, t)
    end in
  match digits radix ds 0 0 with
  | (_, O, _) => NaN
  | (v, _, _) => Fin (inject_Z (signed neg v))
  end.

(** [parseInt(v)] reads the integer that starts the string form of [v]. For
    a number printed in positional notation (zero, and magnitudes from 1e-6
    up to 1e21) that is the number truncated towards zero. *)
Definition parseInt (v : jsval) : number :=
  match v with
  | JStr s => parseIntChars (list_ascii_of_string s)
  | JNum (Fin q) => Fin (inject_Z (Z.quot (Qnum q) (Zpos (Qden q))))
  | _ => NaN
  end.

(** *** Printing integers *)

Definition digit_char (d : Z) : ascii := ascii_of_nat (Z.to_nat (48 + d)).

Fixpoint decimal_digits (fuel : nat) (n : Z) (acc : list ascii) : list ascii :=
  match fuel with
  | O => acc
  | S fuel' =>
      let acc' := digit_char (n mod 10) :: acc in
      if n <? 10 then acc' else decimal_digits fuel' (n / 10) acc'
  end.

(** [String(n)] for an integer [n]. *)
Definition decimal (n : Z) : string :=
  let a := Z.abs n in
  let ds := decimal_digits (S (Z.to_nat (Z.log2 a))) a [] in
  string_of_list_ascii (if n <? 0 then "-"%char :: ds else ds).

End JS.

Import JS.

(* ================================================================== *)
(** ** The relational store and the SQL driver *)
(* ================================================================== *)

(** A thrown JavaScript error: [error.code] and [error.message]. *)
Record exn : Type := { code : option string; message : string }.

Definition Error (msg : string) : exn := {| code := None; message := msg |}.

(** What [execute] throws before anything is sent when a bound parameter is
    [undefined]. *)
Definition bind_undefined : exn :=
  Error "Bind parameters must not contain undefined. To pass SQL NULL specify JS null".

(** Property access on [null], spreading or iterating a non-iterable. *)
Definition TypeError : exn := Error "TypeError".

Definition dup_entry (key : string) : exn :=
  {| code := Some "ER_DUP_ENTRY";
     message := "Duplicate entry for key '" ++ key ++ "'" |}.

Definition wrong_value : exn :=
  {| code := Some "ER_TRUNCATED_WRONG_VALUE_FOR_FIELD";
     message := "Incorrect integer value" |}.

(** *** Rows

    An id column holds an integer. Any other column holds the value that
    was bound to it, [JNull] being NULL. *)

Record registration : Type := {
  reg_id : Z;
  reg_event_id : jsval;
  reg_user_id : jsval;
  reg_name : string;
  reg_email : jsval;
  reg_phone : jsval }.

Record car : Type := {
  car_registration_id : Z;
  car_make : jsval;
  car_model : jsval;
  car_year : jsval;
  car_color : jsval;
  car_mileage : jsval;
  car_modifications : jsval }.

Record review : Type := {
  rev_id : Z;
  rev_business_id : Z;
  rev_user_id : Z;
  rev_rating : jsval;
  rev_comment : jsval }.

Record build : Type := {
  b_id : Z;
  b_user_id : Z;
  b_ownership_status : jsval;
  b_car_name : jsval;
  b_model : jsval;
  b_description : jsval;
  b_body_style : jsval;
  b_cover_image : jsval;
  b_cover_image2 : jsval }.

Record gallery_image : Type := { g_build_id : Z; g_image_url : string }.

Record build_mod : Type := {
  m_build_id : Z;
  m_category : jsval;
  m_sub_category : jsval;
  m_mod_name : jsval;
  m_mod_note : jsval;
  m_image_url : jsval }.

Record user : Type := {
  u_id : Z;
  u_display_name : jsval;
  u_bio : jsval;
  u_avatar_url : jsval }.

(** The tables the handlers write. [follows] holds (follower_id, followed_id). *)
Record db : Type := {
  event_registrations : list registration;
  registered_cars : list car;
  business_reviews : list review;
  builds : list build;
  build_gallery : list gallery_image;
  build_mods : list build_mod;
  follows : list (Z * Z);
  users : list user }.

Definition empty_db : db :=
  {| event_registrations := []; registered_cars := []; business_reviews := [];
     builds := []; build_gallery := []; build_mods := []; follows := [];
     users := [] |}.

Definition set_event_registrations (d : db) (x : list registration) : db :=
  {| event_registrations := x; registered_cars := registered_cars d;
     business_reviews := business_reviews d; builds := builds d;
     build_gallery := build_gallery d; build_mods := build_mods d;
     follows := follows d; users := users d |}.

Definition set_registered_cars (d : db) (x : list car) : db :=
  {| event_registrations := event_registrations d; registered_cars := x;
     business_reviews := business_reviews d; builds := builds d;
     build_gallery := build_gallery d; build_mods := build_mods d;
     follows := follows d; users := users d |}.

Definition set_business_reviews (d : db) (x : list review) : db :=
  {| event_registrations := event_registrations d;
     registered_cars := registered_cars d; business_reviews := x;
     builds := builds d; build_gallery := build_gallery d;
     build_mods := build_mods d; follows := follows d; users := users d |}.

Definition set_builds (d : db) (x : list build) : db :=
  {| event_registrations := event_registrations d;
     registered_cars := registered_cars d;
     business_reviews := business_reviews d; builds := x;
     build_gallery := build_gallery d; build_mods := build_mods d;
     follows := follows d; users := users d |}.

Definition set_build_gallery (d : db) (x : list gallery_image) : db :=
  {| event_registrations := event_registrations d;
     registered_cars := registered_cars d;
     business_reviews := business_reviews d; builds := builds d;
     build_gallery := x; build_mods := build_mods d; follows := follows d;
     users := users d |}.

Definition set_build_mods (d : db) (x : list build_mod) : db :=
  {| event_registrations := event_registrations d;
     registered_cars := registered_cars d;
     business_reviews := business_reviews d; builds := builds d;
     build_gallery := build_gallery d; build_mods := x; follows := follows d;
     users := users d |}.

Definition set_follows (d : db) (x : list (Z * Z)) : db :=
  {| event_registrations := event_registrations d;
     registered_cars := registered_cars d;
     business_reviews := business_reviews d; builds := builds d;
     build_gallery := build_gallery d; build_mods := build_mods d;
     follows := x; users := users d |}.

Definition set_users (d : db) (x : list user) : db :=
  {| event_registrations := event_registrations d;
     registered_cars := registered_cars d;
     business_reviews := business_reviews d; builds := builds d;
     build_gallery := build_gallery d; build_mods := build_mods d;
     follows := follows d; users := x |}.

(** *** Statements *)

Inductive column : Type := display_name | bio | avatar_url.

(** A value that [conn.query] writes into the text of a statement: a
    scalar as a literal, an array as a list of literals, an object as a
    list of [`key` = value] pairs. Where the statement expects one value, an
    object or an array therefore changes what the statement says. Such a
    value stands here as its JSON text. *)
Inductive bound_value : Type :=
| Scalar (v : jsval)
| Composite (json : string).

Definition scalar (v : bound_value) : option jsval :=
  match v with Scalar x => Some x | Composite _ => None end.

(** [a ?? b] and [a || b] on such a value: an object or an array is
    neither nullish nor falsy. *)
Definition value_nullish (a : bound_value) (b : jsval) : bound_value :=
  match a with Scalar v => Scalar (nullish v b) | Composite _ => a end.

Definition value_or (a : bound_value) (b : jsval) : bound_value :=
  match a with Scalar v => Scalar (or v b) | Composite _ => a end.

(** One constructor per SQL text of the handlers, with its bound parameters
    in the order of the placeholders. *)
Inductive statement : Type :=
| BeginTransaction
| Commit
| InsertRegistration (event_id user_id name email phone : jsval)
| InsertCar (registration_id : Z)
    (make model year color mileage modifications : jsval)
| SelectReviewIds (business_id : Z) (user_id : jsval)
| InsertReview (business_id : Z) (user_id rating comment : jsval)
| SelectReviewJoined (review_id : Z)
| SelectReviewOwner (review_id : Z)
| UpdateReview (rating comment : jsval) (review_id : Z)
| InsertBuild (user_id : Z)
    (ownership car_name model description body_style cover1 cover2 : jsval)
| InsertGallery (build_id : Z) (image_url : string)
| InsertGalleryRows (rows : list (Z * string))
| InsertMod (build_id : Z) (category sub_category mod_name image_url mod_note : jsval)
| InsertModNote (build_id : Z) (category sub_category mod_name mod_note image_url : jsval)
| SelectBuildOwner (build_id : Z)
| UpdateBuildFields (ownership car_name model body_style description : bound_value)
    (build_id : Z)
| UpdateBuildCovers (cover1 cover2 : bound_value) (build_id : Z)
| DeleteGalleryNotIn (build_id : Z) (keep : list bound_value)
| DeleteMods (build_id : Z)
| InsertFollow (follower_id : Z) (followed_id : jsval)
| DeleteFollow (follower_id followed_id : Z)
| SelectAvatar (user_id : string)
| UpdateUser (sets : list (column * jsval)) (user_id : string)
| SelectUser (user_id : string).

(** The bound parameters that come from the request and that [execute]
    looks at before it sends a prepared statement. The two UPDATE
    statements of a build update and its DELETE of gallery rows are written
    out by [query], which looks at none; the user id of the three
    statements of the profile update is the text of the URL segment. *)
Definition params (s : statement) : list jsval :=
  match s with
  | InsertRegistration e u n m p => [e; u; n; m; p]
  | InsertCar _ a b c d e f => [a; b; c; d; e; f]
  | SelectReviewIds _ u => [u]
  | InsertReview _ u r c => [u; r; c]
  | UpdateReview r c _ => [r; c]
  | InsertBuild _ a b c d e f g => [a; b; c; d; e; f; g]
  | InsertMod _ a b c d e => [a; b; c; d; e]
  | InsertModNote _ a b c d e => [a; b; c; d; e]
  | InsertFollow _ g => [g]
  | UpdateUser sets _ => map snd sets
  | _ => []
  end.

(** The file operations of the profile handler. *)
Inductive io_op : Type := Mkdir | Unlink (path : string) | WriteFile (path : string).

(** The payload of a verified session token. *)
Record principal : Type := { p_id : Z; p_username : string }.

(** What the deployment fixes and the repository does not: which statements
    the engine refuses beyond the uniqueness rules below, the identifier it
    reports for an insert, what an id column makes of a bound value that
    spells no id (a fraction, a boolean, other text) when it stores it
    ([converts], nothing when the value is refused) and when it compares
    it with a stored id ([matches]), the build rows an UPDATE of the builds
    leaves when one of the values written into it is an object or an array
    ([assigns]: the pairs of an object join the SET list, so that the
    statement may assign columns the handler does not name, the owner and
    the id among them), whether [image_url NOT IN (...)] holds of a
    reference for a list without NULL that holds a number, a boolean, an
    object or an array ([excludes]), which session tokens verify and for
    whom, and which file operations fail. *)
Record platform : Type := {
  rejects : db -> statement -> option exn;
  insert_id : db -> statement -> Z;
  converts : jsval -> option Z;
  matches : jsval -> Z -> bool;
  assigns : db -> statement -> list build;
  excludes : list bound_value -> string -> bool;
  jwt_verify : string -> option principal;
  io_fails : io_op -> option exn }.

(** *** Column conversions and constraints *)

(** The id a bound value spells: an integral number, or a string that
    writes an integer in decimal. An id column takes such a value as that
    integer. *)
Definition id_of (v : jsval) : option Z :=
  match v with
  | JNum (Fin q) =>
      if Qnum q mod Zpos (Qden q) =? 0 then Some (Qnum q / Zpos (Qden q))
      else None
  | JStr s =>
      let (neg, ds) := take_sign (list_ascii_of_string s) in
      match digits 10 ds 0 0 with
      | (_, O, _) => None
      | (v, _, []) => Some (signed neg v)
      | _ => None
      end
  | _ => None
  end.

(** SQL [=] on two bound values of one column: [NULL] equals nothing. *)
Definition sql_eq (a b : jsval) : bool :=
  match a with
  | JNull | JUndefined => false
  | _ => strict_eq a b
  end.

(** Modelled from the spec: the schema is not in the repository. "At most
    one registration per (event, email) pair (enforced by a uniqueness
    constraint)"; the key carries the name the handler looks for in the
    engine's message. *)
Definition event_email_taken (event_id email : jsval) (d : db) : bool :=
  existsb (fun r => andb (sql_eq (reg_event_id r) event_id)
                         (sql_eq (reg_email r) email))
          (event_registrations d).

Definition event_email_key : string := "event_registrations.event_id_email_unique".

(** Modelled from the spec: the schema is not in the repository. "At most
    one edge per ordered pair (duplicate insert must surface as a domain
    'already following' error)". *)
Definition edge_exists (follower followed : Z) (d : db) : bool :=
  existsb (fun e => andb (fst e =? follower) (snd e =? followed)) (follows d).

(** *** Connections *)

(** A connection: the rows as its statements see them, and the rows to
    return to on rollback while a transaction is open. *)
Record conn : Type := { cur : db; saved : option db }.

Definition M (A : Type) : Type := conn -> conn * (exn + A).

Definition ret {A} (a : A) : M A := fun c => (c, inr a).

Definition throw {A} (e : exn) : M A := fun c => (c, inl e).

Definition bind {A B} (m : M A) (k : A -> M B) : M B :=
  fun c =>
    match m c with
    | (c', inr a) => k a c'
    | (c', inl e) => (c', inl e)
    end.

Definition try_catch {A} (m : M A) (handler : exn -> M A) : M A :=
  fun c =>
    match m c with
    | (c', inl e) => handler e c'
    | r => r
    end.

Notation "x <- m ;; k" := (bind m (fun x => k))
  (at level 61, m at next level, right associativity).
Notation "m ;; k" := (bind m (fun _ => k))
  (at level 61, right associativity).

Fixpoint for_each {A} (xs : list A) (body : A -> M unit) : M unit :=
  match xs with
  | [] => ret tt
  | x :: rest => body x ;; for_each rest body
  end.

Definition rollback : M unit :=
  fun c =>
    ({| cur := match saved c with Some d => d | None => cur c end;
        saved := None |}, inr tt).

Record response : Type := { status : Z; success : bool; text : string }.

Definition json (st : Z) (ok : bool) (msg : string) : response :=
  {| status := st; success := ok; text := msg |}.

(** The request stays unanswered when an exception escapes every [catch];
    no route below lets one escape. *)
Definition no_response : response := json 0 false "".

(** A handler runs on a connection with no transaction open; what its
    statements leave is what the next request finds. *)
Definition serve (m : M response) (d : db) : response * db :=
  match m {| cur := d; saved := None |} with
  | (c, inr r) => (r, cur c)
  | (c, inl _) => (no_response, cur c)
  end.

Definition includes (hay needle : string) : bool :=
  match index 0 needle hay with Some _ => true | None => false end.

Definition update_where {A} (p : A -> bool) (f : A -> A) (l : list A) : list A :=
  map (fun x => if p x then f x else x) l.

Section Driver.

Context (P : platform).

(** A statement on the connection. The driver's [execute] (a prepared
    statement) throws [bind_undefined] when a bound parameter is
    [undefined], before anything reaches the engine; [query] formats its
    parameters itself and writes [undefined] as NULL. Then the engine
    refuses the statement or applies its [effect] to the rows. *)
Definition run_statement {A} (prepared : bool) (s : statement)
    (effect : db -> exn + (db * A)) : M A :=
  fun c =>
    if andb prepared (existsb is_undefined (params s)) then (c, inl bind_undefined)
    else match rejects P (cur c) s with
         | Some e => (c, inl e)
         | None =>
             match effect (cur c) with
             | inl e => (c, inl e)
             | inr (d, a) => ({| cur := d; saved := saved c |}, inr a)
             end
         end.

Definition execute {A} := @run_statement A true.
Definition query {A} := @run_statement A false.

Definition beginTransaction : M unit :=
  fun c =>
    match rejects P (cur c) BeginTransaction with
    | Some e => (c, inl e)
    | None => ({| cur := cur c; saved := Some (cur c) |}, inr tt)
    end.

Definition commit : M unit :=
  fun c =>
    match rejects P (cur c) Commit with
    | Some e => (c, inl e)
    | None => ({| cur := cur c; saved := None |}, inr tt)
    end.

End Driver.

(* ================================================================== *)
(** ** Requests *)
(* ================================================================== *)

(** A file as the upload middleware hands it over. *)
Record file : Type := { filename : string }.

Definition upload_url (f : file) : string := "/uploads/" ++ filename f.

Record car_input : Type := {
  ci_make : jsval;
  ci_model : jsval;
  ci_year : jsval;
  ci_color : jsval;
  ci_mileage : jsval;
  ci_modified : jsval }.

(** Body of POST /api/register-event. The two names are strings when
    present; [rb_cars] is [None] when the property is absent or null. *)
Record register_body : Type := {
  rb_firstName : option string;
  rb_lastName : option string;
  rb_email : jsval;
  rb_phone : jsval;
  rb_eventId : jsval;
  rb_cars : option (list car_input);
  rb_userId : jsval }.

Record review_body : Type := {
  rv_userId : jsval;
  rv_rating : jsval;
  rv_comment : jsval }.

(** An element of the [mods] array: an object. *)
Record mod_input : Type := {
  mi_main : jsval;
  mi_sub : jsval;
  mi_name : jsval;
  mi_details : jsval;
  mi_hasImage : jsval;
  mi_image_url : jsval }.

(** The three upload fields of a multipart request. *)
Record uploads : Type := {
  coverImages : list file;
  galleryImages : list file;
  modImages : list file }.

(** Body of POST /api/builds. [cb_mods] is what [JSON.parse] makes of the
    [mods] field ('[]' when the field is absent): [None] when it throws, an
    array otherwise, whose elements are objects or [null] ([None]). *)
Record create_build_body : Type := {
  cb_ownership : jsval;
  cb_car_name : jsval;
  cb_model : jsval;
  cb_description : jsval;
  cb_bodyStyle : jsval;
  cb_mods : option (list (option mod_input));
  cb_files : uploads }.

(** Body of PUT /api/builds/:id. A text field of the form is a string when
    present, or an object or an array when the form names it with
    brackets. The three JSON fields are given as parsed arrays ('[]' when
    the field is absent or empty), [None] when [JSON.parse] throws: the
    elements of [keepCovers] and of [keepGallery] are any JSON values,
    those of [mods] objects or [null] ([None]). *)
Record update_build_body : Type := {
  ub_ownership : bound_value;
  ub_car_name : bound_value;
  ub_model : bound_value;
  ub_bodyStyle : bound_value;
  ub_description : bound_value;
  ub_keepCovers : option (list bound_value);
  ub_keepGallery : option (list bound_value);
  ub_mods : option (list (option mod_input));
  ub_files : uploads }.

Record profile_body : Type := {
  pf_name : jsval;
  pf_bio : jsval;
  pf_avatar_url : jsval }.

(* ================================================================== *)
(** ** Handlers *)
(* ================================================================== *)

Section Handlers.

Context (P : platform).

(** *** Session guards *)

(** [authenticateToken] of the server file: 401 without a token, 403 when
    it does not verify. *)
Definition authenticateToken (token : option string) : response + principal :=
  match token with
  | None | Some "" => inl (json 401 false "Token required")
  | Some t =>
      match jwt_verify P t with
      | Some u => inr u
      | None => inl (json 403 false "Invalid or expired token")
      end
  end.

(** [middleware/ensureAuthenticated.js]: 401 in both cases. *)
Definition ensureAuthenticated (token : option string) : response + principal :=
  match token with
  | None | Some "" => inl (json 401 false "Token required")
  | Some t =>
      match jwt_verify P t with
      | Some u => inr u
      | None => inl (json 401 false "Invalid or expired token")
      end
  end.

(** *** POST /api/register-event *)

Definition or_empty (s : option string) : string :=
  match s with Some x => x | None => "" end.

Definition registration_row (id : Z) (event_id user_id : jsval) (name : string)
    (email phone : jsval) : registration :=
  {| reg_id := id; reg_event_id := event_id; reg_user_id := user_id;
     reg_name := name; reg_email := email; reg_phone := phone |}.

Definition car_row (registration_id : Z) (c : car_input) : car :=
  {| car_registration_id := registration_id;
     car_make := ci_make c; car_model := ci_model c; car_year := ci_year c;
     car_color := ci_color c; car_mileage := ci_mileage c;
     car_modifications := ci_modified c |}.

Definition insert_registration (event_id user_id : jsval) (name : string)
    (email phone : jsval) : M Z :=
  let s := InsertRegistration event_id user_id (JStr name) email phone in
  execute P s (fun d =>
    if event_email_taken event_id email d then inl (dup_entry event_email_key)
    else
      let id := insert_id P d s in
      inr (set_event_registrations d
             (event_registrations d ++
              [registration_row id event_id user_id name email phone]),
           id)).

Definition insert_car (registration_id : Z) (c : car_input) : M unit :=
  execute P
    (InsertCar registration_id (ci_make c) (ci_model c) (ci_year c)
       (ci_color c) (ci_mileage c) (ci_modified c))
    (fun d =>
       inr (set_registered_cars d (registered_cars d ++ [car_row registration_id c]),
            tt)).

Definition registration_error_message (error : exn) : string :=
  let has m := andb (negb (String.eqb (message error) "")) (includes (message error) m) in
  match code error with
  | Some "ER_DUP_ENTRY" =>
      if has event_email_key
      then "This email is already registered for this event."
      else "A duplicate entry occurred. Please check your input."
  | _ =>
      if has "Table 'registered_cars' doesn't exist"
      then "Registration failed: The 'registered_cars' table is missing on the server."
      else if has "Unknown column"
      then "Registration failed: There's a mismatch in table columns. Please check server logs."
      else "Registration failed due to a server error."
  end.

Definition register_event (b : register_body) : db -> response * db :=
  serve (try_catch
    (beginTransaction P ;;
     if negb (truthy (rb_userId b))
     then ret (json 400 false "User ID is missing. Cannot complete registration.")
     else
       let registrantName :=
         trim (or_empty (rb_firstName b) ++ " " ++ or_empty (rb_lastName b)) in
       registrationId <-
         insert_registration (rb_eventId b) (rb_userId b) registrantName
           (rb_email b) (rb_phone b) ;;
       if registrationId =? 0
       then throw (Error "Failed to create registration entry.")
       else
         for_each (match rb_cars b with Some cs => cs | None => [] end)
           (insert_car registrationId) ;;
         commit P ;;
         ret (json 200 true "Registration successful!"))
    (fun error =>
       rollback ;;
       ret (json 500 false (registration_error_message error)))).

(** *** POST /api/businesses/:businessId/reviews and PUT /api/reviews/:reviewId

    Both routes are mounted without a session guard: the user id is the
    [userId] property of the body. *)

Definition rating_out_of_range (rating : jsval) : bool :=
  orb (lt rating (num 1)) (gt rating (num 5)).

(** [user_id = ?] in a WHERE clause. *)
Definition same_user (u : Z) (v : jsval) : bool :=
  match id_of v with Some w => u =? w | None => matches P v u end.

(** The integer an id column stores for a bound value. *)
Definition stored_id (v : jsval) : option Z :=
  match id_of v with Some w => Some w | None => converts P v end.

Definition post_review (businessId : Z) (b : review_body) : db -> response * db :=
  serve (try_catch
    (if orb (negb (truthy (rv_userId b))) (negb (truthy (rv_rating b)))
     then ret (json 400 false "User ID and rating are required.")
     else if rating_out_of_range (rv_rating b)
     then ret (json 400 false "Rating must be between 1 and 5.")
     else
       existingReviews <-
         execute P (SelectReviewIds businessId (rv_userId b))
           (fun d =>
              inr (d, filter (fun r => andb (rev_business_id r =? businessId)
                                            (same_user (rev_user_id r) (rv_userId b)))
                             (business_reviews d))) ;;
       match existingReviews with
       | _ :: _ => ret (json 409 false "You have already reviewed this business.")
       | [] =>
           let comment := or (rv_comment b) JNull in
           let s := InsertReview businessId (rv_userId b) (rv_rating b) comment in
           insertId <-
             execute P s (fun d =>
               match stored_id (rv_userId b) with
               | None => inl wrong_value
               | Some u =>
                   let id := insert_id P d s in
                   inr (set_business_reviews d
                          (business_reviews d ++
                           [{| rev_id := id; rev_business_id := businessId;
                               rev_user_id := u; rev_rating := rv_rating b;
                               rev_comment := comment |}]),
                        id)
               end) ;;
           execute P (SelectReviewJoined insertId) (fun d => inr (d, tt)) ;;
           ret (json 201 true "Review submitted successfully.")
       end)
    (fun _ => ret (json 500 false "Failed to submit review."))).

Definition put_review (reviewId : Z) (b : review_body) : db -> response * db :=
  serve (try_catch
    (if orb (negb (truthy (rv_userId b))) (negb (truthy (rv_rating b)))
     then ret (json 400 false "User ID and rating are required for update.")
     else if rating_out_of_range (rv_rating b)
     then ret (json 400 false "Rating must be between 1 and 5.")
     else
       reviews <-
         execute P (SelectReviewOwner reviewId)
           (fun d => inr (d, filter (fun r => rev_id r =? reviewId) (business_reviews d))) ;;
       match reviews with
       | [] => ret (json 404 false "Review not found.")
       | r :: _ =>
           if negb (strict_eq (num (rev_user_id r)) (rv_userId b))
           then ret (json 403 false "You are not authorized to edit this review.")
           else
             let comment := or (rv_comment b) JNull in
             execute P (UpdateReview (rv_rating b) comment reviewId)
               (fun d =>
                  inr (set_business_reviews d
                         (update_where (fun r => rev_id r =? reviewId)
                            (fun r => {| rev_id := rev_id r;
                                         rev_business_id := rev_business_id r;
                                         rev_user_id := rev_user_id r;
                                         rev_rating := rv_rating b;
                                         rev_comment := comment |})
                            (business_reviews d)),
                       tt)) ;;
             execute P (SelectReviewJoined reviewId) (fun d => inr (d, tt)) ;;
             ret (json 200 true "Review updated successfully.")
       end)
    (fun _ => ret (json 500 false "Failed to update review."))).

(** The two review routes as mounted: no guard stands before the handler,
    and the session cookie of the request is not read. *)
Definition route_post_review (token : option string) (businessId : Z)
    (b : review_body) (d : db) : response * db :=
  post_review businessId b d.

Definition route_put_review (token : option string) (reviewId : Z)
    (b : review_body) (d : db) : response * db :=
  put_review reviewId b d.

(** *** POST /api/builds *)

Definition default_to (d v : jsval) : jsval := if is_undefined v then d else v.

Definition url_at (files : list file) (i : nat) : jsval :=
  match nth_error files i with
  | Some f => JStr (upload_url f)
  | None => JNull
  end.

Definition insert_build (user_id : Z)
    (ownership car_name model description body_style cover1 cover2 : jsval) : M Z :=
  let s := InsertBuild user_id ownership car_name model description body_style
             cover1 cover2 in
  execute P s (fun d =>
    let id := insert_id P d s in
    inr (set_builds d
           (builds d ++
            [{| b_id := id; b_user_id := user_id; b_ownership_status := ownership;
                b_car_name := car_name; b_model := model;
                b_description := description; b_body_style := body_style;
                b_cover_image := cover1; b_cover_image2 := cover2 |}]),
         id)).

Definition insert_gallery (build_id : Z) (url : string) : M unit :=
  execute P (InsertGallery build_id url)
    (fun d =>
       inr (set_build_gallery d
              (build_gallery d ++ [{| g_build_id := build_id; g_image_url := url |}]),
            tt)).

Definition mod_row (build_id : Z) (category sub_category mod_name mod_note image : jsval)
  : build_mod :=
  {| m_build_id := build_id; m_category := category; m_sub_category := sub_category;
     m_mod_name := mod_name; m_mod_note := mod_note; m_image_url := image |}.

(** The loop over [parsedModsArray.entries()]: entry [i] takes the file at
    index [i]; reading a property of a [null] entry throws. *)
Fixpoint create_mods (build_id : Z) (modFiles : list file) (i : nat)
    (mods : list (option mod_input)) : M unit :=
  match mods with
  | [] => ret tt
  | entry :: rest =>
      let imageUrl := url_at modFiles i in
      match entry with
      | None => throw TypeError
      | Some m =>
          let sub := or (mi_sub m) JNull in
          let details := or (mi_details m) JNull in
          execute P (InsertMod build_id (mi_main m) sub (mi_name m) imageUrl details)
            (fun d =>
               inr (set_build_mods d
                      (build_mods d ++
                       [mod_row build_id (mi_main m) sub (mi_name m) details imageUrl]),
                    tt))
      end ;;
      create_mods build_id modFiles (S i) rest
  end.

(** The handler works on the pool: each statement is its own transaction. *)
Definition create_build (userId : Z) (b : create_build_body) : db -> response * db :=
  serve (try_catch
    (let ownership := default_to (JStr "current") (cb_ownership b) in
     let description := default_to JNull (cb_description b) in
     let bodyStyle := default_to JNull (cb_bodyStyle b) in
     let coverImage := url_at (coverImages (cb_files b)) 0 in
     let coverImage2 := url_at (coverImages (cb_files b)) 1 in
     match cb_mods b with
     | None => ret (json 400 false "Bad mods JSON")
     | Some parsedModsArray =>
         buildId <-
           insert_build userId ownership (cb_car_name b) (cb_model b) description
             bodyStyle coverImage coverImage2 ;;
         for_each (map upload_url (galleryImages (cb_files b)))
           (insert_gallery buildId) ;;
         create_mods buildId (modImages (cb_files b)) 0 parsedModsArray ;;
         ret (json 201 true "")
     end)
    (fun _ => ret (json 500 false "Server error"))).

Definition route_create_build (token : option string) (b : create_build_body)
    (d : db) : response * db :=
  match ensureAuthenticated token with
  | inl r => (r, d)
  | inr u => create_build (p_id u) b d
  end.

(** *** PUT /api/builds/:id *)

Definition gallery_sentinel : string := "__NONE__".

(** [keepGalleryArr.length ? keepGalleryArr : ['__NONE__']] *)
Definition retain_set (keepGalleryArr : list bound_value) : list bound_value :=
  match keepGalleryArr with
  | _ :: _ => keepGalleryArr
  | [] => [Scalar (JStr gallery_sentinel)]
  end.

(** The driver writes [null] and [undefined] as NULL. *)
Definition written_null (v : bound_value) : bool :=
  match v with
  | Scalar JNull | Scalar JUndefined => true
  | _ => false
  end.

Definition is_text (v : bound_value) : bool :=
  match v with
  | Scalar (JStr _) => true
  | _ => false
  end.

(** [v] is the string [url]; the engine's comparison of two references is
    taken to be equality of the strings. *)
Definition names (url : string) (v : bound_value) : bool :=
  match v with
  | Scalar (JStr s) => String.eqb url s
  | _ => false
  end.

(** [image_url NOT IN (keep)] holds of [url]. With a NULL in the list the
    comparison is false or unknown, never true; over strings it is true
    when none of them is the reference; what a list that holds a number, a
    boolean, an object or an array makes of a reference is the engine's. *)
Definition not_in (keep : list bound_value) (url : string) : bool :=
  if existsb written_null keep then false
  else if forallb is_text keep then negb (existsb (names url) keep)
  else excludes P keep url.

(** A row the DELETE leaves: not of this build, or [NOT IN] does not hold
    of its URL. *)
Definition survives (build_id : Z) (keep : list bound_value) (g : gallery_image)
  : bool :=
  negb (andb (g_build_id g =? build_id) (not_in keep (g_image_url g))).

Definition delete_gallery_not_in (build_id : Z) (keep : list bound_value) : M unit :=
  query P (DeleteGalleryNotIn build_id keep)
    (fun d =>
       inr (set_build_gallery d (filter (survives build_id keep) (build_gallery d)),
            tt)).

Definition gallery_row (build_id : Z) (f : file) : gallery_image :=
  {| g_build_id := build_id; g_image_url := upload_url f |}.

Definition insert_gallery_rows (rows : list (Z * string)) : M unit :=
  query P (InsertGalleryRows rows)
    (fun d =>
       inr (set_build_gallery d
              (build_gallery d ++
               map (fun r => {| g_build_id := fst r; g_image_url := snd r |}) rows),
            tt)).

Definition delete_mods (build_id : Z) : M unit :=
  query P (DeleteMods build_id)
    (fun d =>
       inr (set_build_mods d
              (filter (fun m => negb (m_build_id m =? build_id)) (build_mods d)),
            tt)).

(** The UPDATE of the five fields: every row of the build takes the five
    values; with an object or an array among them the rows are what the
    engine makes of the statement. *)
Definition update_fields (build_id : Z)
    (ownershipStatus car_name model bodyStyle description : bound_value) : M unit :=
  let s := UpdateBuildFields ownershipStatus car_name model bodyStyle description
             build_id in
  query P s
    (fun d =>
       inr (set_builds d
              match scalar ownershipStatus, scalar car_name, scalar model,
                    scalar bodyStyle, scalar description with
              | Some ownership, Some name, Some mdl, Some body, Some descr =>
                  update_where (fun r => b_id r =? build_id)
                    (fun r => {| b_id := b_id r; b_user_id := b_user_id r;
                                 b_ownership_status := ownership;
                                 b_car_name := name; b_model := mdl;
                                 b_description := descr;
                                 b_body_style := body;
                                 b_cover_image := b_cover_image r;
                                 b_cover_image2 := b_cover_image2 r |})
                    (builds d)
              | _, _, _, _, _ => assigns P d s
              end,
            tt)).

(** The UPDATE of the two cover columns, likewise. *)
Definition update_covers (build_id : Z) (cover1 cover2 : bound_value) : M unit :=
  let s := UpdateBuildCovers cover1 cover2 build_id in
  query P s
    (fun d =>
       inr (set_builds d
              match scalar cover1, scalar cover2 with
              | Some c1, Some c2 =>
                  update_where (fun r => b_id r =? build_id)
                    (fun r => {| b_id := b_id r; b_user_id := b_user_id r;
                                 b_ownership_status := b_ownership_status r;
                                 b_car_name := b_car_name r;
                                 b_model := b_model r;
                                 b_description := b_description r;
                                 b_body_style := b_body_style r;
                                 b_cover_image := c1;
                                 b_cover_image2 := c2 |})
                    (builds d)
              | _, _ => assigns P d s
              end,
            tt)).

(** The loop over [modsArr] with its counter [imgIdx] into the uploaded mod
    images. *)
Fixpoint reinsert_mods (build_id : Z) (newModFiles : list file) (imgIdx : nat)
    (modsArr : list (option mod_input)) : M unit :=
  match modsArr with
  | [] => ret tt
  | None :: _ => throw TypeError
  | Some m :: rest =>
      let main := nullish (mi_main m) (JStr "") in
      let sub := nullish (mi_sub m) (JStr "") in
      let name := nullish (mi_name m) (JStr "") in
      let details := nullish (mi_details m) (JStr "") in
      let hasImage := mi_hasImage m in
      let fallback := nullish (mi_image_url m) JNull in
      let '(image_url, imgIdx') :=
        match (if truthy hasImage then nth_error newModFiles imgIdx else None) with
        | Some f => (JStr (upload_url f), S imgIdx)
        | None =>
            if andb (negb (truthy hasImage)) (truthy fallback)
            then (fallback, imgIdx)
            else (JNull, imgIdx)
        end in
      query P (InsertModNote build_id main sub name details image_url)
        (fun d =>
           inr (set_build_mods d
                  (build_mods d ++ [mod_row build_id main sub name details image_url]),
                tt)) ;;
      reinsert_mods build_id newModFiles imgIdx' rest
  end.

Definition update_build (userId buildId : Z) (b : update_build_body)
  : db -> response * db :=
  let ownershipStatus := value_nullish (ub_ownership b) (JStr "") in
  let car_name := value_nullish (ub_car_name b) (JStr "") in
  let model := value_nullish (ub_model b) (JStr "") in
  let bodyStyle := value_nullish (ub_bodyStyle b) JNull in
  let description := value_nullish (ub_description b) (JStr "") in
  match ub_keepCovers b, ub_keepGallery b, ub_mods b with
  | Some keepCoversArr, Some keepGalleryArr, Some modsArr =>
      let newCoverFiles := coverImages (ub_files b) in
      let newGalleryFiles := galleryImages (ub_files b) in
      let newModFiles := modImages (ub_files b) in
      serve (try_catch
        (beginTransaction P ;;
         ownerRows <-
           query P (SelectBuildOwner buildId)
             (fun d => inr (d, filter (fun r => b_id r =? buildId) (builds d))) ;;
         match ownerRows with
         | [] => throw (Error "NOT_OWNER")
         | owner :: _ =>
             if negb (b_user_id owner =? userId) then throw (Error "NOT_OWNER")
             else
               update_fields buildId ownershipStatus car_name model bodyStyle description ;;
               let allCovers : list bound_value :=
                 (keepCoversArr
                  ++ map (fun f => Scalar (JStr (upload_url f))) newCoverFiles)%list in
               let cover1 := value_or (nth 0 allCovers (Scalar JUndefined)) JNull in
               let cover2 := value_or (nth 1 allCovers (Scalar JUndefined)) JNull in
               update_covers buildId cover1 cover2 ;;
               delete_gallery_not_in buildId (retain_set keepGalleryArr) ;;
               match newGalleryFiles with
               | _ :: _ =>
                   insert_gallery_rows
                     (map (fun f => (buildId, upload_url f)) newGalleryFiles)
               | [] => ret tt
               end ;;
               delete_mods buildId ;;
               reinsert_mods buildId newModFiles 0 modsArr ;;
               commit P ;;
               ret (json 200 true "")
         end)
        (fun err =>
           rollback ;;
           if String.eqb (message err) "NOT_OWNER"
           then ret (json 403 false "Unauthorized")
           else ret (json 500 false "Server error")))
  | _, _, _ => fun d => (json 400 false "Invalid JSON payload", d)
  end.

Definition route_update_build (token : option string) (buildId : Z)
    (b : update_build_body) (d : db) : response * db :=
  match ensureAuthenticated token with
  | inl r => (r, d)
  | inr u => update_build (p_id u) buildId b d
  end.

(** *** POST /api/follows and DELETE /api/follows/:followedId *)

Definition follow (followerId : Z) (followedId : jsval) : db -> response * db :=
  if negb (truthy followedId)
  then fun d => (json 400 false "followedId is required.", d)
  else if strict_eq (num followerId) (JNum (parseInt followedId))
  then fun d => (json 400 false "You cannot follow yourself.", d)
  else
    serve (try_catch
      (execute P (InsertFollow followerId followedId)
         (fun d =>
            match stored_id followedId with
            | None => inl wrong_value
            | Some g =>
                if edge_exists followerId g d then inl (dup_entry "follows.PRIMARY")
                else inr (set_follows d (follows d ++ [(followerId, g)]), tt)
            end) ;;
       ret (json 201 true "Successfully followed user."))
      (fun error =>
         match code error with
         | Some "ER_DUP_ENTRY" =>
             ret (json 409 false "You are already following this user.")
         | _ => ret (json 500 false "Server error while trying to follow user.")
         end)).

Definition is_edge (follower followed : Z) (e : Z * Z) : bool :=
  andb (fst e =? follower) (snd e =? followed).

Definition unfollow (followerId followedId : Z) : db -> response * db :=
  serve (try_catch
    (affectedRows <-
       execute P (DeleteFollow followerId followedId)
         (fun d =>
            inr (set_follows d
                   (filter (fun e => negb (is_edge followerId followedId e)) (follows d)),
                 List.length (filter (is_edge followerId followedId) (follows d)))) ;;
     if Nat.eqb affectedRows 0
     then ret (json 404 false "You are not following this user or user not found.")
     else ret (json 200 true "Successfully unfollowed user."))
    (fun _ => ret (json 500 false "Server error while trying to unfollow user."))).

Definition route_follow (token : option string) (followedId : jsval) (d : db)
  : response * db :=
  match ensureAuthenticated token with
  | inl r => (r, d)
  | inr u => follow (p_id u) followedId d
  end.

Definition route_unfollow (token : option string) (followedId : Z) (d : db)
  : response * db :=
  match ensureAuthenticated token with
  | inl r => (r, d)
  | inr u => unfollow (p_id u) followedId d
  end.

(** *** PUT /api/profile/:userId *)

Definition starts_with (pre s : string) : bool := prefix pre s.

(** A line terminator of ASCII occurs in [s] (U+2028 and U+2029, which
    the pattern's dot refuses as well, lie beyond ASCII). *)
Definition has_line_terminator (s : list ascii) : bool :=
  existsb (fun c => orb (Ascii.eqb c "010"%char) (Ascii.eqb c "013"%char)) s.

Fixpoint chars_start_with (pre s : list ascii) : bool :=
  match pre, s with
  | [], _ => true
  | p :: pre', c :: s' => andb (Ascii.eqb p c) (chars_start_with pre' s')
  | _ :: _, [] => false
  end.

(** The last place where [sep] occurs in [s] after at least one character:
    what stands before it and what follows it. *)
Fixpoint split_last (sep : list ascii) (before_rev s : list ascii)
    (best : option (list ascii * list ascii)) : option (list ascii * list ascii) :=
  match s with
  | [] => best
  | c :: rest =>
      let best' :=
        match before_rev with
        | [] => best
        | _ :: _ =>
            if chars_start_with sep s
            then Some (rev before_rev, skipn (List.length sep) s)
            else best
        end in
      split_last sep (c :: before_rev) rest best'
  end.

(** The match of [avatar_url] against the data-URI pattern of the handler,
    on ASCII text: "data:image/", a non-empty extension taken as long as
    possible (group 2), ";base64,", and the encoded data up to the end of
    the string (group 3), with no line terminator anywhere. *)
Definition match_data_uri (s : string) : option (string * string) :=
  let cs := list_ascii_of_string s in
  let pre := list_ascii_of_string "data:image/" in
  if andb (chars_start_with pre cs) (negb (has_line_terminator cs)) then
    match split_last (list_ascii_of_string ";base64,") [] (skipn (List.length pre) cs) None with
    | Some (ext, data) => Some (string_of_list_ascii ext, string_of_list_ascii data)
    | None => None
    end
  else None.

Definition io (op : io_op) : M unit :=
  fun c => match io_fails P op with Some e => (c, inl e) | None => (c, inr tt) end.

Definition set_column (c : column) (v : jsval) (u : user) : user :=
  match c with
  | display_name =>
      {| u_id := u_id u; u_display_name := v; u_bio := u_bio u;
         u_avatar_url := u_avatar_url u |}
  | bio =>
      {| u_id := u_id u; u_display_name := u_display_name u; u_bio := v;
         u_avatar_url := u_avatar_url u |}
  | avatar_url =>
      {| u_id := u_id u; u_display_name := u_display_name u; u_bio := u_bio u;
         u_avatar_url := v |}
  end.

Definition apply_sets (sets : list (column * jsval)) (u : user) : user :=
  fold_left (fun acc cv => set_column (fst cv) (snd cv) acc) sets u.

Definition avatar_dir : string := "/uploads/avatars/profilepics/".

(** The URL segment [userId] is read in three ways: the guard takes its
    [parseInt], the file name its text, and the three statements bind the
    text, which the engine compares with the id column. The guard lets the
    request through when [parseInt(req.user.id) !== parseInt(userId)] is
    false; the id of a session is an id of the users table, of a magnitude
    at which [parseInt] of the number is the number. *)
Definition own_profile (u : principal) (userId : string) : bool :=
  strict_eq (JNum (parseInt (num (p_id u)))) (JNum (parseInt (JStr userId))).

(** The value bound to [avatar_url]: [finalAvatarUrl]. A data URI is stored
    as a file named after the URL segment and the clock [now]. *)
Definition final_avatar (userId : string) (now : Z) (avatar : jsval) : M jsval :=
  if truthy avatar then
    match avatar with
    | JStr a =>
        if starts_with "data:image" a then
          match match_data_uri a with
          | Some (extension, base64Data) =>
              io Mkdir ;;
              userRows <-
                execute P (SelectAvatar userId)
                  (fun d =>
                     inr (d, filter (fun u => same_user (u_id u) (JStr userId))
                               (users d))) ;;
              match userRows with
              | u :: _ =>
                  let existingAvatarUrl := u_avatar_url u in
                  if truthy existingAvatarUrl then
                    match existingAvatarUrl with
                    | JStr existing =>
                        if starts_with avatar_dir existing
                        then try_catch (io (Unlink existing)) (fun _ => ret tt)
                        else ret tt
                    | _ => throw TypeError
                    end
                  else ret tt
              | [] => ret tt
              end ;;
              let name :=
                ("avatar-" ++ userId ++ "-" ++ decimal now ++ "." ++ extension)%string in
              io (WriteFile (avatar_dir ++ name)) ;;
              ret (JStr (avatar_dir ++ name))
          | None => ret JNull
          end
        else ret avatar
    | _ => throw TypeError
    end
  else if strict_eq avatar (JStr "") then ret JNull
  else ret avatar.

Definition profile_sets (b : profile_body) (finalAvatarUrl : jsval)
  : list (column * jsval) :=
  ((if is_undefined (pf_name b) then [] else [(display_name, pf_name b)]) ++
   (if is_undefined (pf_bio b) then [] else [(bio, pf_bio b)]) ++
   [(avatar_url, finalAvatarUrl)])%list.

Definition update_profile (u : principal) (userId : string) (now : Z)
    (b : profile_body) : db -> response * db :=
  if negb (own_profile u userId)
  then fun d => (json 403 false "Unauthorized.", d)
  else
    serve (try_catch
      (finalAvatarUrl <- final_avatar userId now (pf_avatar_url b) ;;
       let setClauses := profile_sets b finalAvatarUrl in
       match setClauses with
       | [] => ret (json 200 true "No information provided to update.")
       | _ :: _ =>
           execute P (UpdateUser setClauses userId)
             (fun d =>
                inr (set_users d
                       (update_where (fun r => same_user (u_id r) (JStr userId))
                          (apply_sets setClauses) (users d)),
                     tt)) ;;
           execute P (SelectUser userId) (fun d => inr (d, tt)) ;;
           ret (json 200 true "Profile updated successfully.")
       end)
      (fun _ => ret (json 500 false "Failed to update profile."))).

Definition route_update_profile (token : option string) (userId : string) (now : Z)
    (b : profile_body) (d : db) : response * db :=
  match authenticateToken token with
  | inl r => (r, d)
  | inr u => update_profile u userId now b d
  end.

End Handlers.

(* ================================================================== *)
(** ** A reference deployment *)
(* ================================================================== *)

Definition max_id {A} (id : A -> Z) (l : list A) : Z :=
  fold_right (fun x m => Z.max (id x) m) 0 l.

(** An engine that refuses no statement, numbers rows from 1 upwards,
    takes no value for an id that does not spell one, assigns nothing when
    an object or an array is written into an UPDATE and deletes no gallery
    row for a list it has to convert; a session token is the user's id in
    decimal; the file system never fails. *)
Definition reference : platform :=
  {| rejects := fun _ _ => None;
     insert_id := fun d s =>
       match s with
       | InsertRegistration _ _ _ _ _ => 1 + max_id reg_id (event_registrations d)
       | InsertReview _ _ _ _ => 1 + max_id rev_id (business_reviews d)
       | InsertBuild _ _ _ _ _ _ _ _ => 1 + max_id b_id (builds d)
       | _ => 0
       end;
     converts := fun _ => None;
     matches := fun _ _ => false;
     assigns := fun d _ => builds d;
     excludes := fun _ _ => false;
     jwt_verify := fun t =>
       match id_of (JStr t) with
       | Some n => Some {| p_id := n; p_username := "user" |}
       | None => None
       end;
     io_fails := fun _ => None |}.

(* ================================================================== *)
(** ** Views of the store used by the properties *)
(* ================================================================== *)

(** The owner the ownership query of a build update finds first. *)
Definition owner_of (buildId : Z) (d : db) : option Z :=
  match filter (fun r => b_id r =? buildId) (builds d) with
  | owner :: _ => Some (b_user_id owner)
  | [] => None
  end.

Definition mods_of (buildId : Z) (d : db) : list build_mod :=
  filter (fun m => m_build_id m =? buildId) (build_mods d).

Definition gallery_of (buildId : Z) (d : db) : list gallery_image :=
  filter (fun g => g_build_id g =? buildId) (build_gallery d).

(** Every gallery row holds the URL of an uploaded file, as the two
    handlers that insert gallery rows write it. *)
Definition gallery_uploaded (d : db) : Prop :=
  forall g, In g (build_gallery d) -> starts_with "/uploads/" (g_image_url g) = true.

(** [url] is one of the references [keep], as strings. *)
Definition retained (keep : list string) (url : string) : bool :=
  existsb (String.eqb url) keep.

(** A retain list of references. *)
Definition references (keep : list string) : list bound_value :=
  map (fun url => Scalar (JStr url)) keep.

(** The three JSON fields of a build update parse. *)
Definition parsed (b : update_build_body) : Prop :=
  ub_keepCovers b <> None /\ ub_keepGallery b <> None /\ ub_mods b <> None.

(** An engine that refuses no statement. *)
Definition healthy (P : platform) : Prop := forall d s, rejects P d s = None.

(** *** Specifications and proof notions *)

(** The rows the loop of [reinsert_mods] writes, in order. *)
Fixpoint reinserted (build_id : Z) (newModFiles : list file) (imgIdx : nat)
    (entries : list mod_input) : list build_mod :=
  match entries with
  | [] => []
  | m :: rest =>
      let fallback := nullish (mi_image_url m) JNull in
      let '(image_url, imgIdx') :=
        match (if truthy (mi_hasImage m) then nth_error newModFiles imgIdx else None) with
        | Some f => (JStr (upload_url f), S imgIdx)
        | None =>
            if andb (negb (truthy (mi_hasImage m))) (truthy fallback)
            then (fallback, imgIdx)
            else (JNull, imgIdx)
        end in
      mod_row build_id (nullish (mi_main m) (JStr "")) (nullish (mi_sub m) (JStr ""))
        (nullish (mi_name m) (JStr "")) (nullish (mi_details m) (JStr "")) image_url
      :: reinserted build_id newModFiles imgIdx' rest
  end.

(** The image reference an unflagged entry keeps: the one it supplies when
    there is one, else none. *)
Definition existing_reference (m : mod_input) : jsval :=
  if truthy (mi_image_url m) then mi_image_url m else JNull.

(** The pairing as the specification words it: a flagged entry takes the
    next uploaded file not yet consumed, in the order of the upload, and
    stays without image once the files are used up; an unflagged entry
    keeps its existing reference. *)
Fixpoint pair_images (entries : list mod_input) (unconsumed : list file) : list jsval :=
  match entries with
  | [] => []
  | m :: rest =>
      if truthy (mi_hasImage m) then
        match unconsumed with
        | f :: later => JStr (upload_url f) :: pair_images rest later
        | [] => JNull :: pair_images rest []
        end
      else existing_reference m :: pair_images rest unconsumed
  end.

(** How many of the first [i] entries are flagged. *)
Definition flagged_before (entries : list mod_input) (i : nat) : nat :=
  List.length (filter (fun m => truthy (mi_hasImage m)) (firstn i entries)).

(** [m] keeps [I] on the connection, however it ends. *)
Definition preserves {A} (I : conn -> Prop) (m : M A) : Prop :=
  forall c c' r, m c = (c', r) -> I c -> I c'.

(** [m] keeps [I] whenever it throws. *)
Definition throws_within {A} (I : conn -> Prop) (m : M A) : Prop :=
  forall c c' e, m c = (c', inl e) -> I c -> I c'.

(** The INSERT of the parent row of a build creation, and the row it
    writes. *)
Definition build_insert (userId : Z) (b : create_build_body) : statement :=
  InsertBuild userId (default_to (JStr "current") (cb_ownership b)) (cb_car_name b)
    (cb_model b) (default_to JNull (cb_description b))
    (default_to JNull (cb_bodyStyle b))
    (url_at (coverImages (cb_files b)) 0) (url_at (coverImages (cb_files b)) 1).

Definition inserted_build (P : platform) (userId : Z) (b : create_build_body) (d : db)
  : build :=
  {| b_id := insert_id P d (build_insert userId b); b_user_id := userId;
     b_ownership_status := default_to (JStr "current") (cb_ownership b);
     b_car_name := cb_car_name b; b_model := cb_model b;
     b_description := default_to JNull (cb_description b);
     b_body_style := default_to JNull (cb_bodyStyle b);
     b_cover_image := url_at (coverImages (cb_files b)) 0;
     b_cover_image2 := url_at (coverImages (cb_files b)) 1 |}.

Definition cars_of (b : register_body) : list car_input :=
  match rb_cars b with Some cs => cs | None => [] end.

(** The value a successful profile update binds to [avatar_url]; the file
    of a data URI is named after the text of the URL segment. *)
Definition stored_avatar (userId : string) (now : Z) (avatar : jsval) : jsval :=
  match avatar with
  | JStr "" => JNull
  | JStr a =>
      if starts_with "data:image" a then
        match match_data_uri a with
        | Some (extension, _) =>
            JStr (avatar_dir ++ "avatar-" ++ userId ++ "-" ++ decimal now
                  ++ "." ++ extension)
        | None => JNull
        end
      else avatar
  | _ => avatar
  end.

(** The row a profile update writes over [u]. *)
Definition profile_row (b : profile_body) (avatar : jsval) (u : user) : user :=
  {| u_id := u_id u;
     u_display_name := if is_undefined (pf_name b) then u_display_name u else pf_name b;
     u_bio := if is_undefined (pf_bio b) then u_bio u else pf_bio b;
     u_avatar_url := avatar |}.

(* ================================================================== *)
(** ** Sample requests *)
(* ================================================================== *)

Definition png (name : string) : file := {| filename := name ++ ".png" |}.

Definition turbo : mod_input :=
  {| mi_main := JStr "Engine"; mi_sub := JUndefined; mi_name := JStr "Turbo";
     mi_details := JUndefined; mi_hasImage := JBool true; mi_image_url := JUndefined |}.

Definition coilovers : mod_input :=
  {| mi_main := JStr "Suspension"; mi_sub := JStr "Springs"; mi_name := JStr "Coilovers";
     mi_details := JStr "lowered"; mi_hasImage := JBool false;
     mi_image_url := JStr "/uploads/coilovers.png" |}.

Definition exhaust : mod_input :=
  {| mi_main := JStr "Engine"; mi_sub := JStr "Exhaust"; mi_name := JStr "Cat-back";
     mi_details := JNull; mi_hasImage := JBool true; mi_image_url := JStr "/uploads/old.png" |}.

(** POST /api/builds with one gallery image and the mods '[{...}, null]'. *)
Definition create_with_null_mod : create_build_body :=
  {| cb_ownership := JUndefined; cb_car_name := JStr "FD"; cb_model := JStr "RX-7";
     cb_description := JUndefined; cb_bodyStyle := JUndefined;
     cb_mods := Some [Some turbo; None];
     cb_files := {| coverImages := []; galleryImages := [png "1-galleryImages"];
                    modImages := [] |} |}.

Definition fd_build (owner : Z) : build :=
  {| b_id := 1; b_user_id := owner; b_ownership_status := JStr "current";
     b_car_name := JStr "FD"; b_model := JStr "RX-7"; b_description := JNull;
     b_body_style := JNull; b_cover_image := JNull; b_cover_image2 := JNull |}.

(** Build 1 of user 7 with the gallery {A, B, C} and two mods; build 2 has
    one gallery image and one mod. *)
Definition garage : db :=
  {| event_registrations := []; registered_cars := []; business_reviews := [];
     builds := [fd_build 7];
     build_gallery :=
       [ {| g_build_id := 1; g_image_url := "/uploads/A.png" |};
         {| g_build_id := 2; g_image_url := "/uploads/D.png" |};
         {| g_build_id := 1; g_image_url := "/uploads/B.png" |};
         {| g_build_id := 1; g_image_url := "/uploads/C.png" |} ];
     build_mods :=
       [ mod_row 1 (JStr "Engine") JNull (JStr "Intake") JNull JNull;
         mod_row 2 (JStr "Wheels") JNull (JStr "TE37") JNull JNull;
         mod_row 1 (JStr "Brakes") JNull (JStr "Pads") JNull JNull ];
     follows := [(5, 6)];
     users := [] |}.

(** PUT /api/builds/1 that keeps gallery image B, uploads one gallery image
    and two mod images, and sends four mods of which three expect an image. *)
Definition rebuild : update_build_body :=
  {| ub_ownership := Scalar (JStr "current"); ub_car_name := Scalar (JStr "FD");
     ub_model := Scalar (JStr "RX-7");
     ub_bodyStyle := Scalar JUndefined; ub_description := Scalar JUndefined;
     ub_keepCovers := Some [];
     ub_keepGallery := Some (references ["/uploads/B.png"]);
     ub_mods := Some (map Some [turbo; coilovers; exhaust; turbo]);
     ub_files := {| coverImages := []; galleryImages := [png "9-galleryImages"];
                    modImages := [png "m1"; png "m2"] |} |}.

(** The same request with the retain set '[null]'. *)
Definition retain_null : update_build_body :=
  {| ub_ownership := ub_ownership rebuild; ub_car_name := ub_car_name rebuild;
     ub_model := ub_model rebuild; ub_bodyStyle := ub_bodyStyle rebuild;
     ub_description := ub_description rebuild;
     ub_keepCovers := ub_keepCovers rebuild; ub_keepGallery := Some [Scalar JNull];
     ub_mods := ub_mods rebuild; ub_files := ub_files rebuild |}.

(** The same request with a [mods] field that is not JSON. *)
Definition unparsable : update_build_body :=
  {| ub_ownership := ub_ownership rebuild; ub_car_name := ub_car_name rebuild;
     ub_model := ub_model rebuild; ub_bodyStyle := ub_bodyStyle rebuild;
     ub_description := ub_description rebuild;
     ub_keepCovers := ub_keepCovers rebuild; ub_keepGallery := ub_keepGallery rebuild;
     ub_mods := None; ub_files := ub_files rebuild |}.

Definition review_of (userId rating : jsval) : review_body :=
  {| rv_userId := userId; rv_rating := rating; rv_comment := JUndefined |}.

(** Business 1 reviewed once, by user 1, with five stars. *)
Definition reviewed : db :=
  set_business_reviews empty_db
    [{| rev_id := 1; rev_business_id := 1; rev_user_id := 1; rev_rating := num 5;
        rev_comment := JNull |}].

Definition rated (rating : jsval) : db :=
  set_business_reviews empty_db
    [{| rev_id := 1; rev_business_id := 1; rev_user_id := 1; rev_rating := rating;
        rev_comment := JNull |}].

Definition ann_registers : register_body :=
  {| rb_firstName := Some "Ann"; rb_lastName := Some "Lee"; rb_email := JStr "ann@example.com";
     rb_phone := JStr "555-0100"; rb_eventId := num 3;
     rb_cars := Some [{| ci_make := JStr "Mazda"; ci_model := JStr "RX-7";
                         ci_year := num 1993; ci_color := JStr "red";
                         ci_mileage := num 80000; ci_modified := JStr "turbo" |}];
     rb_userId := num 7 |}.

Definition ann : user :=
  {| u_id := 4; u_display_name := JStr "Ann"; u_bio := JStr "RX-7 owner";
     u_avatar_url := JStr "/uploads/avatars/profilepics/avatar-4-1.png" |}.

Definition ann_session : principal := {| p_id := 4; p_username := "ann" |}.

Definition rename_only : profile_body :=
  {| pf_name := JStr "Annie"; pf_bio := JUndefined; pf_avatar_url := JUndefined |}.

Definition clear_avatar : profile_body :=
  {| pf_name := JUndefined; pf_bio := JUndefined; pf_avatar_url := JStr "" |}.


(* ================================================================== *)
(** ** Further routes *)
(* ================================================================== *)

(** The SQL texts of the routes below, with the values they bind in the
    order of the placeholders. A route parameter is bound as the text of
    its URL segment. *)
Inductive sql : Type :=
| SelectBuildJoined (id : string)
| SelectGalleryUrls (id : string)
| SelectModRows (id : string)
| SelectOwnerForUpdate (id : string)
| DeleteModsOf (id : string)
| DeleteGalleryOf (id : string)
| DeleteBuildRow (id : string)
| SelectFollowEdge (follower_id : Z) (followed_id : string)
| SelectRegistrationOwner (id : string)
| UpdateRegistration (name : string) (email phone : jsval) (id : string)
| DeleteCarsOf (id : string)
| InsertCarOf (id : string) (make model year color mileage modifications : jsval)
| SelectProfile (id : string).

(** The bound values that come from a request body. *)
Definition bound (s : sql) : list jsval :=
  match s with
  | UpdateRegistration _ e p _ => [e; p]
  | InsertCarOf _ a b c d e f => [a; b; c; d; e; f]
  | _ => []
  end.

(** What a route sends: an error response, or the data of a 200. *)
Definition serve_data {A} (m : M (response + A)) (d : db) : (response + A) * db :=
  match m {| cur := d; saved := None |} with
  | (c, inr r) => (r, cur c)
  | (c, inl _) => (inl no_response, cur c)
  end.

(** The [build] object, [mods] and [isOwner] of GET /api/builds/:id. The
    columns of the build row are those of [bv_build]; a mod is given as its
    row, which carries the id of the build in place of its own. *)
Record build_view : Type := {
  bv_build : build;
  bv_coverImages : list jsval;
  bv_galleryImages : list string;
  bv_mods : list build_mod;
  bv_isOwner : bool }.

(** Body of PUT /api/update-event-registration/:registrationId. The two
    names are strings when present; [ur_cars] is [None] when the property
    is no array, and an element of the array is an object or [null]. *)
Record update_registration_body : Type := {
  ur_firstName : option string;
  ur_lastName : option string;
  ur_email : jsval;
  ur_phone : jsval;
  ur_cars : option (list (option car_input)) }.

(** *** Names *)

(** [s.split(' ')] *)
Fixpoint split_space (s : string) : list string :=
  match s with
  | EmptyString => [EmptyString]
  | String c rest =>
      if Ascii.eqb c " " then EmptyString :: split_space rest
      else match split_space rest with
           | piece :: pieces => String c piece :: pieces
           | [] => [String c EmptyString]
           end
  end.

(** [parts.join(' ')] *)
Fixpoint join_space (parts : list string) : string :=
  match parts with
  | [] => EmptyString
  | [piece] => piece
  | piece :: rest => piece ++ " " ++ join_space rest
  end.

(** [firstName] and [lastName] as GET /api/get-registration-details
    derives them from the stored name of a registration. *)
Definition name_parts (name : string) : string * string :=
  let nameParts := if String.eqb name "" then [""; ""] else split_space name in
  let firstName := hd "" nameParts in
  let lastName :=
    if Nat.ltb 1 (List.length nameParts) then join_space (tl nameParts) else "" in
  (firstName, lastName).

Section Routes.

Context (P : platform).

(** Which of these statements the engine refuses. *)
Context (refuses : db -> sql -> option exn).

(** A statement on the connection, as [run_statement]. *)
Definition run_sql {A} (prepared : bool) (s : sql)
    (effect : db -> exn + (db * A)) : M A :=
  fun c =>
    if andb prepared (existsb is_undefined (bound s)) then (c, inl bind_undefined)
    else match refuses (cur c) s with
         | Some e => (c, inl e)
         | None =>
             match effect (cur c) with
             | inl e => (c, inl e)
             | inr (d, a) => ({| cur := d; saved := saved c |}, inr a)
             end
         end.

(** [id = ?] on an id column, the bound value being a route parameter. *)
Definition id_is (param : string) (id : Z) : bool := same_user P id (JStr param).

(** *** DELETE /api/builds/:id *)

Definition delete_build (userId : Z) (buildId : string) : db -> response * db :=
  serve (try_catch
    (beginTransaction P ;;
     rows <-
       run_sql false (SelectOwnerForUpdate buildId)
         (fun d => inr (d, filter (fun r => id_is buildId (b_id r)) (builds d))) ;;
     match rows with
     | [] => throw (Error "NOT_OWNER")
     | owner :: _ =>
         if negb (b_user_id owner =? userId) then throw (Error "NOT_OWNER")
         else
           run_sql false (DeleteModsOf buildId)
             (fun d =>
                inr (set_build_mods d
                       (filter (fun m => negb (id_is buildId (m_build_id m)))
                          (build_mods d)),
                     tt)) ;;
           run_sql false (DeleteGalleryOf buildId)
             (fun d =>
                inr (set_build_gallery d
                       (filter (fun g => negb (id_is buildId (g_build_id g)))
                          (build_gallery d)),
                     tt)) ;;
           run_sql false (DeleteBuildRow buildId)
             (fun d =>
                inr (set_builds d
                       (filter (fun r => negb (id_is buildId (b_id r))) (builds d)),
                     tt)) ;;
           commit P ;;
           ret (json 200 true "")
     end)
    (fun err =>
       rollback ;;
       if String.eqb (message err) "NOT_OWNER"
       then ret (json 403 false "Unauthorized")
       else ret (json 500 false "Server error"))).

Definition route_delete_build (token : option string) (buildId : string) (d : db)
  : response * db :=
  match ensureAuthenticated P token with
  | inl r => (r, d)
  | inr u => delete_build (p_id u) buildId d
  end.

(** *** GET /api/builds/:id *)

(** The rows of [builds b JOIN users u ON b.user_id = u.id WHERE b.id = ?]:
    a build row once per user row of its owner. *)
Definition joined_builds (buildId : string) (d : db) : list build :=
  flat_map (fun r => map (fun _ => r) (filter (fun u => u_id u =? b_user_id r) (users d)))
           (filter (fun r => id_is buildId (b_id r)) (builds d)).

Definition get_build (loggedInUserId : Z) (buildId : string)
  : db -> (response + build_view) * db :=
  if loggedInUserId =? 0
  then fun d => (inl (json 401 false "Authentication required."), d)
  else
    serve_data (try_catch
      (rows <-
         run_sql true (SelectBuildJoined buildId)
           (fun d => inr (d, joined_builds buildId d)) ;;
       match rows with
       | [] => ret (inl (json 404 false "Build not found or access denied"))
       | row :: _ =>
           let isOwner := b_user_id row =? loggedInUserId in
           galleryRows <-
             run_sql true (SelectGalleryUrls buildId)
               (fun d => inr (d, filter (fun g => id_is buildId (g_build_id g))
                                        (build_gallery d))) ;;
           let galleryImages := map g_image_url galleryRows in
           modRows <-
             run_sql true (SelectModRows buildId)
               (fun d => inr (d, filter (fun m => id_is buildId (m_build_id m))
                                        (build_mods d))) ;;
           ret (inr {| bv_build := row;
                       bv_coverImages :=
                         filter truthy [b_cover_image row; b_cover_image2 row];
                       bv_galleryImages := galleryImages;
                       bv_mods := modRows;
                       bv_isOwner := isOwner |})
       end)
      (fun _ => ret (inl (json 500 false "Server error while fetching build")))).

Definition route_get_build (token : option string) (buildId : string) (d : db)
  : (response + build_view) * db :=
  match ensureAuthenticated P token with
  | inl r => (inl r, d)
  | inr u => get_build (p_id u) buildId d
  end.

(** *** GET /api/follows/status/:targetUserId *)

Definition follow_status (loggedInUserId : Z) (targetUserId : string)
  : db -> (response + bool) * db :=
  serve_data (try_catch
    (rows <-
       run_sql true (SelectFollowEdge loggedInUserId targetUserId)
         (fun d =>
            inr (d, filter (fun e => andb (fst e =? loggedInUserId)
                                          (id_is targetUserId (snd e)))
                           (follows d))) ;;
     ret (inr (match rows with [] => false | _ :: _ => true end)))
    (fun _ => ret (inl (json 500 false "Server error.")))).

Definition route_follow_status (token : option string) (targetUserId : string) (d : db)
  : (response + bool) * db :=
  match ensureAuthenticated P token with
  | inl r => (inl r, d)
  | inr u => follow_status (p_id u) targetUserId d
  end.

(** *** GET /api/user-profile/:userIdToView

    The user is given as the row of the store, which has the columns the
    profile update writes. *)


(** *** PUT /api/update-event-registration/:registrationId *)

(** [!name] for a name that is a string when present. *)
Definition blank (name : option string) : bool :=
  match name with
  | None | Some EmptyString => true
  | Some _ => false
  end.

(** [!car.make || !car.model || !car.year] is false. *)
Definition complete (c : car_input) : bool :=
  andb (truthy (ci_make c)) (andb (truthy (ci_model c)) (truthy (ci_year c))).

(** The [user_id] column of a stored registration, compared with the id of
    the session: the column holds the integer it made of the bound value. *)
Definition registered_by (r : registration) (userId : Z) : bool :=
  match stored_id P (reg_user_id r) with
  | Some u => u =? userId
  | None => false
  end.

Definition insert_car_of (registrationId : string) (c : car_input) : M unit :=
  run_sql true
    (InsertCarOf registrationId (ci_make c) (ci_model c) (ci_year c) (ci_color c)
       (ci_mileage c) (ci_modified c))
    (fun d =>
       match stored_id P (JStr registrationId) with
       | None => inl wrong_value
       | Some id =>
           inr (set_registered_cars d (registered_cars d ++ [car_row id c]), tt)
       end).

(** The loop over [cars]: a car without make, model or year is skipped;
    reading a property of a [null] element throws. *)
Fixpoint update_cars (registrationId : string) (cars : list (option car_input))
  : M unit :=
  match cars with
  | [] => ret tt
  | None :: _ => throw TypeError
  | Some c :: rest =>
      (if complete c then insert_car_of registrationId c else ret tt) ;;
      update_cars registrationId rest
  end.

Definition renamed (name : string) (email phone : jsval) (r : registration)
  : registration :=
  {| reg_id := reg_id r; reg_event_id := reg_event_id r; reg_user_id := reg_user_id r;
     reg_name := name; reg_email := email; reg_phone := phone |}.

Definition update_event_registration (userId : Z) (registrationId : string)
    (b : update_registration_body) : db -> response * db :=
  if String.eqb registrationId ""
  then fun d => (json 400 false "Registration ID is required.", d)
  else if orb (blank (ur_firstName b))
            (orb (blank (ur_lastName b))
               (orb (negb (truthy (ur_email b))) (negb (truthy (ur_phone b)))))
  then fun d =>
         (json 400 false "First name, last name, email, and phone are required.", d)
  else
    match ur_cars b with
    | None => fun d => (json 400 false "Cars must be an array.", d)
    | Some cars =>
        serve (try_catch
          (beginTransaction P ;;
           existingRegistrations <-
             run_sql true (SelectRegistrationOwner registrationId)
               (fun d => inr (d, filter (fun r => id_is registrationId (reg_id r))
                                        (event_registrations d))) ;;
           match existingRegistrations with
           | [] =>
               rollback ;;
               ret (json 404 false "Registration not found.")
           | existing :: _ =>
               if negb (registered_by existing userId)
               then
                 rollback ;;
                 ret (json 403 false "You are not authorized to update this registration.")
               else
                 (* both names are present here *)
                 let registrantName :=
                   trim (or_empty (ur_firstName b) ++ " " ++ or_empty (ur_lastName b)) in
                 run_sql true
                   (UpdateRegistration registrantName (ur_email b) (ur_phone b)
                      registrationId)
                   (fun d =>
                      inr (set_event_registrations d
                             (update_where (fun r => id_is registrationId (reg_id r))
                                (renamed registrantName (ur_email b) (ur_phone b))
                                (event_registrations d)),
                           tt)) ;;
                 run_sql true (DeleteCarsOf registrationId)
                   (fun d =>
                      inr (set_registered_cars d
                             (filter (fun c => negb (id_is registrationId
                                                       (car_registration_id c)))
                                (registered_cars d)),
                           tt)) ;;
                 update_cars registrationId cars ;;
                 commit P ;;
                 ret (json 200 true "Registration updated successfully!")
           end)
          (fun _ =>
             rollback ;;
             ret (json 500 false "Failed to update registration.")))
    end.

Definition route_update_event_registration (token : option string)
    (registrationId : string) (b : update_registration_body) (d : db)
  : response * db :=
  match authenticateToken P token with
  | inl r => (r, d)
  | inr u => update_event_registration (p_id u) registrationId b d
  end.

End Routes.

(** *** Views and specifications of the further routes *)

(** An engine that refuses none of the statements of the further routes. *)
Definition willing (refuses : db -> sql -> option exn) : Prop :=
  forall d s, refuses d s = None.

(** No row of a build, of a gallery or of a mod carries the id [z]. *)
Definition unused (z : Z) (d : db) : Prop :=
  owner_of z d = None /\ gallery_of z d = [] /\ mods_of z d = [].

(** The user row a lookup by id finds first. *)
Definition user_of (z : Z) (d : db) : option user :=
  match filter (fun u => u_id u =? z) (users d) with
  | u :: _ => Some u
  | [] => None
  end.

(** The author of the review a lookup by id finds first. *)
Definition author_of (reviewId : Z) (d : db) : option Z :=
  match filter (fun r => rev_id r =? reviewId) (business_reviews d) with
  | r :: _ => Some (rev_user_id r)
  | [] => None
  end.

(** The registration a lookup by route parameter finds first. *)
Definition registration_of (P : platform) (param : string) (d : db)
  : option registration :=
  match filter (fun r => id_is P param (reg_id r)) (event_registrations d) with
  | r :: _ => Some r
  | [] => None
  end.

(** The rows the loop of [create_mods] writes: entry [i] with the file at
    index [i]. *)
Fixpoint created_mods (build_id : Z) (modFiles : list file) (i : nat)
    (entries : list mod_input) : list build_mod :=
  match entries with
  | [] => []
  | m :: rest =>
      mod_row build_id (mi_main m) (or (mi_sub m) JNull) (mi_name m)
        (or (mi_details m) JNull) (url_at modFiles i)
      :: created_mods build_id modFiles (S i) rest
  end.

(** The store a build creation leaves when it runs to its end. *)
Definition created (P : platform) (userId : Z) (b : create_build_body)
    (entries : list mod_input) (d : db) : db :=
  let id := insert_id P d (build_insert userId b) in
  set_build_mods
    (set_build_gallery
       (set_builds d (builds d ++ [inserted_build P userId b d]))
       (build_gallery d ++ map (gallery_row id) (galleryImages (cb_files b))))
    (build_mods d ++ created_mods id (modImages (cb_files b)) 0 entries).

(** A mod entry whose [main] and [name] are present. *)
Definition named (m : mod_input) : bool :=
  andb (negb (is_undefined (mi_main m))) (negb (is_undefined (mi_name m))).

(** The store a committed build deletion leaves. *)
Definition without_build (z : Z) (d : db) : db :=
  set_builds
    (set_build_gallery
       (set_build_mods d (filter (fun m => negb (m_build_id m =? z)) (build_mods d)))
       (filter (fun g => negb (g_build_id g =? z)) (build_gallery d)))
    (filter (fun r => negb (b_id r =? z)) (builds d)).

(** The five text fields of a build update, each a scalar. *)
Record build_fields : Type := {
  f_ownership : jsval;
  f_car_name : jsval;
  f_model : jsval;
  f_bodyStyle : jsval;
  f_description : jsval }.

(** A build update that carries no object and no array in its five text
    fields and in its kept covers: the fields are [f], the kept covers
    [keepCoversArr]. *)
Definition plain (b : update_build_body) (f : build_fields)
    (keepCoversArr : list jsval) : Prop :=
  ub_ownership b = Scalar (f_ownership f) /\
  ub_car_name b = Scalar (f_car_name f) /\
  ub_model b = Scalar (f_model f) /\
  ub_bodyStyle b = Scalar (f_bodyStyle f) /\
  ub_description b = Scalar (f_description f) /\
  ub_keepCovers b = Some (map Scalar keepCoversArr).

(** [allCovers]: the kept cover references, then the uploaded ones. *)
Definition all_covers (b : update_build_body) (keepCoversArr : list jsval) : list jsval :=
  (keepCoversArr ++ map (fun f => JStr (upload_url f)) (coverImages (ub_files b)))%list.

(** The build row the two UPDATE statements of such a build update leave. *)
Definition updated (f : build_fields) (allCovers : list jsval) (r : build) : build :=
  {| b_id := b_id r; b_user_id := b_user_id r;
     b_ownership_status := nullish (f_ownership f) (JStr "");
     b_car_name := nullish (f_car_name f) (JStr "");
     b_model := nullish (f_model f) (JStr "");
     b_description := nullish (f_description f) (JStr "");
     b_body_style := nullish (f_bodyStyle f) JNull;
     b_cover_image := or (nth 0 allCovers JUndefined) JNull;
     b_cover_image2 := or (nth 1 allCovers JUndefined) JNull |}.


(** Text without a character beyond ASCII. *)
Definition ascii_only (s : string) : bool :=
  forallb (fun c => (nat_of_ascii c <? 128)%nat) (list_ascii_of_string s).

(** A review body that passes the two checks of the review handlers. *)
Definition passes (b : review_body) : bool :=
  andb (negb (orb (negb (truthy (rv_userId b))) (negb (truthy (rv_rating b)))))
       (negb (rating_out_of_range (rv_rating b))).

(** The review row an edit leaves. *)
Definition rerated (b : review_body) (r : review) : review :=
  {| rev_id := rev_id r; rev_business_id := rev_business_id r;
     rev_user_id := rev_user_id r; rev_rating := rv_rating b;
     rev_comment := or (rv_comment b) JNull |}.


(** A car of a registration whose six properties are all present. *)
Definition whole (c : car_input) : bool :=
  negb (existsb is_undefined
          [ci_make c; ci_model c; ci_year c; ci_color c; ci_mileage c; ci_modified c]).

(** [registrantName] of POST /api/register-event. *)
Definition registrant_name (b : register_body) : string :=
  trim (or_empty (rb_firstName b) ++ " " ++ or_empty (rb_lastName b)).

(** The INSERT of the registration row, and the store a registration
    leaves when it runs to its end. *)
Definition registration_insert (b : register_body) : statement :=
  InsertRegistration (rb_eventId b) (rb_userId b) (JStr (registrant_name b)) (rb_email b)
    (rb_phone b).

Definition registered (P : platform) (b : register_body) (d : db) : db :=
  let id := insert_id P d (registration_insert b) in
  set_registered_cars
    (set_event_registrations d
       (event_registrations d ++
        [registration_row id (rb_eventId b) (rb_userId b) (registrant_name b)
           (rb_email b) (rb_phone b)]))
    (registered_cars d ++ map (car_row id) (cars_of b)).

(** A registration request the INSERT of the registration row goes through
    for: the user id is there, the bound values are present, the (event,
    email) pair is free and the engine reports a non-zero id. *)
Definition admissible (P : platform) (b : register_body) (d : db) : Prop :=
  truthy (rb_userId b) = true /\
  existsb is_undefined [rb_eventId b; rb_email b; rb_phone b] = false /\
  event_email_taken (rb_eventId b) (rb_email b) d = false /\
  insert_id P d (registration_insert b) <> 0.

(** [!firstName || !lastName || !email || !phone] *)
Definition incomplete (b : update_registration_body) : bool :=
  orb (blank (ur_firstName b))
    (orb (blank (ur_lastName b))
       (orb (negb (truthy (ur_email b))) (negb (truthy (ur_phone b))))).

(** The store a committed update of registration [z] leaves. *)
Definition reregistered (z : Z) (b : update_registration_body) (cars : list car_input)
    (d : db) : db :=
  set_registered_cars
    (set_event_registrations d
       (update_where (fun r => reg_id r =? z)
          (renamed (trim (or_empty (ur_firstName b) ++ " " ++ or_empty (ur_lastName b)))
             (ur_email b) (ur_phone b))
          (event_registrations d)))
    (filter (fun c => negb (car_registration_id c =? z)) (registered_cars d)
     ++ map (car_row z) (filter complete cars)).

(** A string without the space character. *)
Fixpoint spaceless (s : string) : bool :=
  match s with
  | EmptyString => true
  | String c rest => andb (negb (Ascii.eqb c " ")) (spaceless rest)
  end.

(** A non-empty string that neither starts nor ends with white space. *)
Definition edged (s : string) : bool :=
  let cs := list_ascii_of_string s in
  match cs, rev cs with
  | c :: _, e :: _ => andb (negb (is_space c)) (negb (is_space e))
  | _, _ => false
  end.

(** No session: the cookie is absent or empty, or its token does not
    verify. *)
Definition no_session (P : platform) (token : option string) : Prop :=
  match token with
  | None => True
  | Some t => t = "" \/ jwt_verify P t = None
  end.

(** *** Sample requests of the further routes *)

(** An engine that refuses none of these statements. *)
Definition accepts : db -> sql -> option exn := fun _ _ => None.

(** POST /api/builds with one mod image and two mods, the first unflagged. *)
Definition create_unflagged_first : create_build_body :=
  {| cb_ownership := JUndefined; cb_car_name := JStr "FD"; cb_model := JStr "RX-7";
     cb_description := JUndefined; cb_bodyStyle := JUndefined;
     cb_mods := Some [Some coilovers; Some turbo];
     cb_files := {| coverImages := []; galleryImages := [];
                    modImages := [png "m1"] |} |}.

(** POST /api/builds without [model]. *)
Definition create_without_model : create_build_body :=
  {| cb_ownership := JUndefined; cb_car_name := JStr "FD"; cb_model := JUndefined;
     cb_description := JUndefined; cb_bodyStyle := JUndefined;
     cb_mods := Some [];
     cb_files := {| coverImages := []; galleryImages := []; modImages := [] |} |}.

(** POST /api/builds with three cover images, two gallery images and one
    mod. *)
Definition create_with_covers : create_build_body :=
  {| cb_ownership := JStr "previous"; cb_car_name := JStr "NA"; cb_model := JStr "MX-5";
     cb_description := JStr "sold"; cb_bodyStyle := JUndefined;
     cb_mods := Some [Some turbo];
     cb_files := {| coverImages := [png "c1"; png "c2"; png "c3"];
                    galleryImages := [png "g1"; png "g2"];
                    modImages := [] |} |}.

Definition recovered : build_fields :=
  {| f_ownership := JUndefined; f_car_name := JStr "FD3S"; f_model := JNull;
     f_bodyStyle := JStr "coupe"; f_description := JUndefined |}.

(** PUT /api/builds/1 that keeps nothing of the gallery, names three
    covers of which the first is empty, and uploads one more. *)
Definition recover : update_build_body :=
  {| ub_ownership := Scalar JUndefined; ub_car_name := Scalar (JStr "FD3S");
     ub_model := Scalar JNull;
     ub_bodyStyle := Scalar (JStr "coupe"); ub_description := Scalar JUndefined;
     ub_keepCovers :=
       Some (map Scalar [JStr ""; JStr "/uploads/k2.png"; JStr "/uploads/k3.png"]);
     ub_keepGallery := Some [];
     ub_mods := Some [];
     ub_files := {| coverImages := [png "c9"]; galleryImages := []; modImages := [] |} |}.

Definition joe : user :=
  {| u_id := 7; u_display_name := JStr "Joe"; u_bio := JNull; u_avatar_url := JNull |}.

(** The user rows of Ann and Joe, and no build yet. *)
Definition members : db := set_users empty_db [ann; joe].

(** Ann's registration with a car whose colour is missing. *)
Definition ann_registers_colourless : register_body :=
  {| rb_firstName := Some "Ann"; rb_lastName := Some "Lee"; rb_email := JStr "ann@example.com";
     rb_phone := JStr "555-0100"; rb_eventId := num 3;
     rb_cars := Some [{| ci_make := JStr "Mazda"; ci_model := JStr "RX-7";
                         ci_year := num 1993; ci_color := JStr "red";
                         ci_mileage := num 80000; ci_modified := JStr "turbo" |};
                      {| ci_make := JStr "Mazda"; ci_model := JStr "MX-5";
                         ci_year := num 1990; ci_color := JUndefined;
                         ci_mileage := num 120000; ci_modified := JStr "none" |}];
     rb_userId := num 7 |}.

Definition mazda (model : string) (year : jsval) : car_input :=
  {| ci_make := JStr "Mazda"; ci_model := JStr model; ci_year := year;
     ci_color := JStr "red"; ci_mileage := num 80000; ci_modified := JStr "none" |}.

(** Ann has registered for event 3 with one car. *)
Definition paddock : db := snd (register_event reference ann_registers empty_db).

(** Ann Lee becomes Ann Ray and sends two cars, the second without year. *)
Definition ann_updates : update_registration_body :=
  {| ur_firstName := Some "Ann"; ur_lastName := Some "Ray";
     ur_email := JStr "ann@example.com"; ur_phone := JStr "555-0199";
     ur_cars := Some [Some (mazda "MX-5" (num 1990)); Some (mazda "RX-8" JNull)] |}.

(* ================================================================== *)
(** ** Properties *)
(* ================================================================== *)

(** *** Running a handler *)

Lemma bind_inr {A B} (m : M A) (k : A -> M B) (c c' : conn) (b : B) :
  bind m k c = (c', inr b) ->
  exists a c1, m c = (c1, inr a) /\ k a c1 = (c', inr b).
Proof.
  unfold bind. destruct (m c) as [c1 [e|a]]; [discriminate|]. eauto.
Qed.

Lemma run_statement_inr {A} (P : platform) (prepared : bool) (s : statement)
    (effect : db -> exn + (db * A)) (c c' : conn) (a : A) :
  run_statement P prepared s effect c = (c', inr a) ->
  exists d, effect (cur c) = inr (d, a) /\ c' = {| cur := d; saved := saved c |}.
Proof.
  unfold run_statement.
  destruct (andb prepared _); [discriminate|].
  destruct (rejects P (cur c) s); [discriminate|].
  destruct (effect (cur c)) as [e|[d x]]; [discriminate|].
  intros H. inversion H; subst. eauto.
Qed.

Lemma beginTransaction_inr (P : platform) (c c' : conn) (u : unit) :
  beginTransaction P c = (c', inr u) -> c' = {| cur := cur c; saved := Some (cur c) |}.
Proof.
  unfold beginTransaction. destruct (rejects P (cur c) BeginTransaction); [discriminate|].
  now inversion 1.
Qed.

Lemma commit_inr (P : platform) (c c' : conn) (u : unit) :
  commit P c = (c', inr u) -> cur c' = cur c.
Proof.
  unfold commit. destruct (rejects P (cur c) Commit); [discriminate|].
  now inversion 1.
Qed.

Ltac step H :=
  let a := fresh "a" in
  let c := fresh "c" in
  let Hs := fresh "Hs" in
  apply bind_inr in H; destruct H as (a & c & Hs & H).

Ltac statement H :=
  let d := fresh "d" in
  let He := fresh "He" in
  let Hd := fresh "Hd" in
  let Ha := fresh "Ha" in
  apply run_statement_inr in H; destruct H as (d & He & H);
  cbn [cur saved] in He; injection He as Hd Ha; subst d;
  try (match type of Ha with _ = ?x => subst x end).

Lemma execute_inr_defined {A} (P : platform) (s : statement)
    (effect : db -> exn + (db * A)) (c c' : conn) (a : A) :
  execute P s effect c = (c', inr a) -> existsb is_undefined (params s) = false.
Proof.
  unfold execute, run_statement. cbn [andb].
  destruct (existsb is_undefined (params s)); [discriminate|reflexivity].
Qed.

Lemma conn_eta (c : conn) : {| cur := cur c; saved := saved c |} = c.
Proof. now destruct c. Qed.

Lemma io_inr (P : platform) (op : io_op) (c c' : conn) (u : unit) :
  io P op c = (c', inr u) -> c' = c.
Proof. unfold io. destruct (io_fails P op); now inversion 1. Qed.

Lemma preserves_ret {A} (I : conn -> Prop) (a : A) : preserves I (ret a).
Proof. intros c c' r H. now inversion H. Qed.

Lemma preserves_throw {A} (I : conn -> Prop) (e : exn) : preserves I (@throw A e).
Proof. intros c c' r H. now inversion H. Qed.

Lemma preserves_bind {A B} (I : conn -> Prop) (m : M A) (k : A -> M B) :
  preserves I m -> (forall a, preserves I (k a)) -> preserves I (bind m k).
Proof.
  intros Hm Hk c c' r H Hc. unfold bind in H.
  destruct (m c) as [c1 [e|a]] eqn:E.
  - inversion H; subst. eapply Hm; eassumption.
  - eapply Hk; [eassumption|]. eapply Hm; eassumption.
Qed.

Lemma preserves_try_catch {A} (I : conn -> Prop) (m : M A) (h : exn -> M A) :
  preserves I m -> (forall e, preserves I (h e)) -> preserves I (try_catch m h).
Proof.
  intros Hm Hh c c' r H Hc. unfold try_catch in H.
  destruct (m c) as [c1 [e|a]] eqn:E.
  - eapply Hh; [eassumption|]. eapply Hm; eassumption.
  - inversion H; subst. eapply Hm; eassumption.
Qed.

Lemma preserves_run_statement {A} (I : conn -> Prop) (P : platform) (prepared : bool)
    (s : statement) (effect : db -> exn + (db * A)) :
  (forall c d a, effect (cur c) = inr (d, a) -> I c -> I {| cur := d; saved := saved c |}) ->
  preserves I (run_statement P prepared s effect).
Proof.
  intros He c c' r H Hc. unfold run_statement in H.
  destruct (andb prepared _); [now inversion H; subst|].
  destruct (rejects P (cur c) s); [now inversion H; subst|].
  destruct (effect (cur c)) as [e|[d a]] eqn:E; inversion H; subst; eauto.
Qed.

Lemma preserves_for_each {A} (I : conn -> Prop) (xs : list A) (body : A -> M unit) :
  (forall x, In x xs -> preserves I (body x)) -> preserves I (for_each xs body).
Proof.
  induction xs as [|x xs IH]; intros Hb; cbn [for_each].
  - apply preserves_ret.
  - apply preserves_bind; [apply Hb; now left|intros _; apply IH].
    intros y Hy. apply Hb. now right.
Qed.

(** A statement leaves the snapshot of the open transaction alone. *)
Lemma run_statement_saved {A} (P : platform) (prepared : bool) (s : statement)
    (effect : db -> exn + (db * A)) (snapshot : option db) :
  preserves (fun c => saved c = snapshot) (run_statement P prepared s effect).
Proof. apply preserves_run_statement. intros c d a _ H. exact H. Qed.

Lemma preserves_throws_within {A} (I : conn -> Prop) (m : M A) :
  preserves I m -> throws_within I m.
Proof. intros H c c' e. apply H. Qed.

Lemma throws_within_bind {A B} (I : conn -> Prop) (m : M A) (k : A -> M B) :
  preserves I m -> (forall a, throws_within I (k a)) -> throws_within I (bind m k).
Proof.
  intros Hm Hk c c' e H Hc. unfold bind in H.
  destruct (m c) as [c1 [e1|a]] eqn:E.
  - inversion H; subst. eapply Hm; eassumption.
  - eapply Hk; [eassumption|]. eapply Hm; eassumption.
Qed.

(** The commit that ends a transaction body, followed by the reply. *)
Lemma throws_within_commit {A} (I : conn -> Prop) (P : platform) (a : A) :
  throws_within I (commit P ;; ret a).
Proof.
  intros c c' e H Hc. unfold bind, commit, ret in H.
  destruct (rejects P (cur c) Commit); now inversion H; subst.
Qed.

(** A transaction that runs [body] and, in its [catch], rolls back and
    replies: the rows are those of the start, or [body] ran to its end. *)
Lemma transaction_outcome (P : platform) (body : M response)
    (reply : exn -> M response) (d : db) :
  throws_within (fun c => saved c = Some d) body ->
  (forall e c, exists r, reply e c = (c, inr r)) ->
  let result :=
    serve (try_catch (beginTransaction P ;; body) (fun e => rollback ;; reply e)) d in
  snd result = d \/
  exists c', body {| cur := d; saved := Some d |} = (c', inr (fst result)) /\
             snd result = cur c'.
Proof.
  intros Hbody Hreply. cbv zeta.
  unfold serve, try_catch, bind, beginTransaction, rollback. cbn [cur saved].
  destruct (rejects P d BeginTransaction) as [e|].
  { left. match goal with |- context [reply e ?c] => destruct (Hreply e c) as (r & ->) end.
    reflexivity. }
  destruct (body {| cur := d; saved := Some d |}) as [c1 [e|r]] eqn:E.
  - left. pose proof (Hbody _ _ _ E eq_refl) as Hs. cbn in Hs. rewrite Hs.
    match goal with |- context [reply e ?c] => destruct (Hreply e c) as (r & ->) end.
    reflexivity.
  - right. exists c1. split; reflexivity.
Qed.

(** *** Lists *)

Lemma filter_none {A} (p : A -> bool) (l : list A) :
  filter p l = [] -> filter (fun x => negb (p x)) l = l.
Proof.
  induction l as [|x l IH]; cbn; [reflexivity|].
  destruct (p x); cbn; [discriminate|]. intros H. now rewrite IH.
Qed.

Lemma filter_all {A} (p : A -> bool) (l : list A) :
  (forall x, In x l -> p x = true) -> filter p l = l.
Proof.
  induction l as [|x l IH]; cbn; intros H; [reflexivity|].
  rewrite (H x (or_introl eq_refl)), IH; auto.
Qed.

Lemma filter_filter_negb {A} (p : A -> bool) (l : list A) :
  filter p (filter (fun x => negb (p x)) l) = [].
Proof.
  induction l as [|x l IH]; cbn; [reflexivity|].
  destruct (p x) eqn:E; cbn; [|rewrite E]; exact IH.
Qed.

Lemma skipn_nth_error {A} (l : list A) :
  forall i, skipn i l = match nth_error l i with
                        | Some x => x :: skipn (S i) l
                        | None => []
                        end.
Proof.
  induction l as [|x l IH]; intros [|i]; cbn; try reflexivity.
  rewrite IH. destruct (nth_error l i); reflexivity.
Qed.

Lemma update_where_ext {A} (p : A -> bool) (f g : A -> A) (l : list A) :
  (forall x, f x = g x) -> update_where p f l = update_where p g l.
Proof.
  intros H. unfold update_where. apply map_ext. intros x. now rewrite H.
Qed.

(** *** Values of a request body *)

Lemma Qeq_bool_inject_Z (a b : Z) : Qeq_bool (inject_Z a) (inject_Z b) = (a =? b).
Proof. unfold Qeq_bool. cbn. now rewrite !Z.mul_1_r. Qed.

Lemma strict_eq_num (a b : Z) : strict_eq (num a) (num b) = (a =? b).
Proof. apply Qeq_bool_inject_Z. Qed.

Lemma Qltb_lt (x y : Q) : (x < y)%Q -> Qltb x y = true.
Proof.
  intros H. unfold Qltb. destruct (Qle_bool y x) eqn:E; [|reflexivity].
  apply Qle_bool_iff in E. exfalso. exact (Qlt_not_le _ _ H E).
Qed.

Lemma truthy_nullish (v : jsval) : truthy (nullish v JNull) = truthy v.
Proof. destruct v; reflexivity. Qed.

Lemma nullish_truthy (v : jsval) : truthy v = true -> nullish v JNull = v.
Proof. destruct v; cbn; congruence. Qed.

Lemma digit_not_space (c : ascii) (k : Z) : digit_of 10 c = Some k -> is_space c = false.
Proof.
  unfold digit_of, is_space. cbv zeta. generalize (nat_of_ascii c). intros n.
  destruct (Nat.eqb_spec n 32), (Nat.leb_spec 9 n), (Nat.leb_spec n 13);
    cbn [orb andb]; try reflexivity;
    repeat match goal with
           | |- context [?a <=? ?b] => destruct (Z.leb_spec a b); try lia
           | |- context [?a <? ?b] => destruct (Z.ltb_spec a b); try lia
           end; cbn [andb]; discriminate.
Qed.

Lemma drop_spaces_signed (cs : list ascii) (neg : bool) (ds : list ascii) (v : Z)
    (n : nat) :
  take_sign cs = (neg, ds) -> digits 10 ds 0 0 = (v, S n, []) -> drop_spaces cs = cs.
Proof.
  destruct cs as [|c rest]; [reflexivity|]. cbn [take_sign drop_spaces].
  destruct (Ascii.eqb_spec c "-") as [->|_]; [reflexivity|].
  destruct (Ascii.eqb_spec c "+") as [->|_]; [reflexivity|].
  intros H. injection H as _ <-. cbn [digits].
  destruct (digit_of 10 c) as [k|] eqn:Hd; [|discriminate].
  intros _. now rewrite (digit_not_space c k Hd).
Qed.

Lemma decimal_radix (ds : list ascii) (v : Z) (n : nat) :
  digits 10 ds 0 0 = (v, S n, []) ->
  match ds with
  | c0 :: c1 :: r =>
      if andb (Ascii.eqb c0 "0") (orb (Ascii.eqb c1 "x") (Ascii.eqb c1 "X"))
      then (16, r)
      else (10, ds)
  | _ => (10, ds)
  end = (10, ds).
Proof.
  destruct ds as [|c0 [|c1 r]]; try reflexivity.
  destruct (Ascii.eqb_spec c0 "0") as [->|_]; [|reflexivity].
  destruct (Ascii.eqb_spec c1 "x") as [->|_]; [discriminate|].
  destruct (Ascii.eqb_spec c1 "X") as [->|_]; [discriminate|reflexivity].
Qed.

(** A body value that spells the id [g] is read as [g] by [parseInt], and
    is truthy unless [g] is zero. *)
Lemma id_of_parseInt (v : jsval) (g : Z) :
  id_of v = Some g -> parseInt v = Fin (inject_Z g).
Proof.
  destruct v as [| | |[| |q]|s]; try discriminate; cbn [id_of parseInt].
  - destruct (Z.eqb_spec (Qnum q mod Zpos (Qden q)) 0) as [Hm|]; [|discriminate].
    intros H. injection H as <-. do 2 f_equal.
    rewrite (Z_div_exact_full_2 (Qnum q) (Zpos (Qden q))) at 1 by (easy || exact Hm).
    rewrite Z.mul_comm. now rewrite Z.quot_mul.
  - unfold parseIntChars.
    destruct (take_sign (list_ascii_of_string s)) as [neg ds] eqn:Hsign.
    destruct (digits 10 ds 0 0) as [[x [|n]] rest] eqn:Hd; [discriminate|].
    destruct rest; [|discriminate]. intros H. injection H as <-.
    rewrite (drop_spaces_signed _ _ _ _ _ Hsign Hd), Hsign, (decimal_radix _ _ _ Hd), Hd.
    reflexivity.
Qed.

Lemma id_of_truthy (v : jsval) (g : Z) :
  id_of v = Some g -> g <> 0 -> truthy v = true.
Proof.
  destruct v as [| | |[| |q]|s]; try discriminate; cbn [id_of truthy].
  - destruct (Z.eqb_spec (Qnum q mod Zpos (Qden q)) 0) as [Hm|]; [|discriminate].
    intros H Hg. injection H as <-. unfold Qeq_bool. cbn.
    rewrite Z.mul_1_r. destruct (Z.eqb_spec (Qnum q) 0) as [E|]; [|reflexivity].
    rewrite E in Hg. now rewrite Z.div_0_l in Hg.
  - destruct s; [discriminate|reflexivity].
Qed.

Lemma id_of_defined (v : jsval) (g : Z) : id_of v = Some g -> is_undefined v = false.
Proof. destruct v; (discriminate || reflexivity). Qed.

(** *** Event registration *)

Lemma insert_cars_inr (P : platform) (id : Z) (cs : list car_input) :
  forall (c c' : conn) (u : unit),
    for_each cs (insert_car P id) c = (c', inr u) ->
    c' = {| cur := set_registered_cars (cur c)
                     (registered_cars (cur c) ++ map (car_row id) cs);
            saved := saved c |}.
Proof.
  induction cs as [|x cs IH]; intros c c' u H; cbn [for_each] in H.
  - inversion H; subst. cbn. rewrite app_nil_r. destruct c' as [[] ?]; reflexivity.
  - step H. unfold insert_car, execute in Hs. statement Hs. subst c0.
    apply IH in H. subst c'. cbn. now rewrite <- app_assoc.
Qed.

(** Creating a registration with its cars is all or nothing: the store is
    left as it was, or it holds the new registration, with a non-zero
    identifier, and every car of the request. *)
Lemma register_event_atomic (P : platform) (b : register_body) (d : db) :
  snd (register_event P b d) = d \/
  (status (fst (register_event P b d)) = 200 /\
   exists id name,
     id <> 0 /\
     snd (register_event P b d)
     = set_registered_cars
         (set_event_registrations d
            (event_registrations d ++
             [registration_row id (rb_eventId b) (rb_userId b) name (rb_email b)
                (rb_phone b)]))
         (registered_cars d ++ map (car_row id) (cars_of b))).
Proof.
  unfold register_event.
  match goal with
  | |- context [try_catch (beginTransaction P ;; ?body) (fun e => rollback ;; @?reply e)] =>
      destruct (transaction_outcome P body reply d) as [Hsame|(c' & Hrun & Hdb)]
  end.
  - destruct (truthy (rb_userId b)); cbn [negb].
    + apply throws_within_bind.
      * apply run_statement_saved.
      * intros id. destruct (id =? 0).
        -- apply preserves_throws_within, preserves_throw.
        -- apply throws_within_bind; [|intros _; apply throws_within_commit].
           apply preserves_for_each. intros x _. apply run_statement_saved.
    + apply preserves_throws_within, preserves_ret.
  - intros e c. eexists. reflexivity.
  - now left.
  - rewrite Hdb. clear Hdb.
    match type of Hrun with _ = (_, inr ?r) => remember r as resp eqn:Hresp end.
    clear Hresp.
    destruct (truthy (rb_userId b)); cbn [negb] in Hrun.
    + right. step Hrun. unfold insert_registration, execute in Hs. 
      apply run_statement_inr in Hs. destruct Hs as (d1 & He & ->). cbn [cur saved] in He.
      destruct (event_email_taken _ _ d); [discriminate|]. injection He as <- <-.
      match type of Hrun with context [?i =? 0] => destruct (Z.eqb_spec i 0) as [|Hid] end;
        [discriminate|].
      step Hrun. apply insert_cars_inr in Hs. subst c.
      step Hrun. apply commit_inr in Hs. injection Hrun as <- <-.
      split; [reflexivity|]. do 2 eexists. split; [exact Hid|].
      rewrite Hs. reflexivity.
    + left. now injection Hrun as <- _.
Qed.

(** C8. A registration for an (event, email) pair that is already
    registered is answered with status 500 and leaves the store as it was;
    when the engine reports the duplicate key, the message is the
    "already registered" one. *)
Theorem duplicate_registration_is_500 (P : platform) (b : register_body) (d : db) :
  event_email_taken (rb_eventId b) (rb_email b) d = true ->
  truthy (rb_userId b) = true ->
  status (fst (register_event P b d)) = 500 /\
  snd (register_event P b d) = d /\
  (rejects P d BeginTransaction = None ->
   existsb is_undefined [rb_eventId b; rb_userId b; rb_email b; rb_phone b] = false ->
   (forall name,
      rejects P d (InsertRegistration (rb_eventId b) (rb_userId b) name (rb_email b)
                     (rb_phone b)) = None) ->
   text (fst (register_event P b d)) = "This email is already registered for this event.").
Proof.
  intros Htaken Huser.
  unfold register_event, serve, try_catch, bind, beginTransaction, rollback,
    insert_registration, execute, run_statement.
  cbn [cur saved]. rewrite Huser. cbn [negb params existsb is_undefined orb andb].
  destruct (rejects P d BeginTransaction) as [e|]; cbn [cur saved].
  { repeat split. intros; discriminate. }
  destruct (is_undefined (rb_eventId b) || _)%bool eqn:Hundef; cbn [cur saved].
  { repeat split. intros _ H. cbn [existsb] in H.
    destruct (is_undefined (rb_eventId b)), (is_undefined (rb_userId b)),
      (is_undefined (rb_email b)), (is_undefined (rb_phone b)); discriminate. }
  destruct (rejects P d _) as [e|] eqn:Hrej; cbn [cur saved].
  { repeat split. intros _ _ H. rewrite H in Hrej. discriminate. }
  rewrite Htaken. cbn [cur saved]. repeat split.
Qed.

(** Ann registers twice for event 3. *)
Lemma duplicate_registration_is_500_witness :
  let d := snd (register_event reference ann_registers empty_db) in
  List.length (event_registrations d) = 1%nat /\
  status (fst (register_event reference ann_registers d)) = 500 /\
  text (fst (register_event reference ann_registers d))
  = "This email is already registered for this event." /\
  snd (register_event reference ann_registers d) = d.
Proof.
  cbv zeta. split; [reflexivity|].
  destruct (duplicate_registration_is_500 reference ann_registers
              (snd (register_event reference ann_registers empty_db)) eq_refl eq_refl)
    as (Hst & Hdb & Htext).
  split; [exact Hst|]. split; [|exact Hdb].
  apply Htext; [reflexivity|reflexivity|intros name; reflexivity].
Defined.

(** *** Reviews *)

(** C2. Review writes do not consult a session: a request without any
    session cookie that names user 1 in its body rewrites the review user 1
    owns, and one that names user 1 creates a review owned by user 1;
    whatever the cookie, the outcome is that of the handler on the body. *)
Theorem review_writes_without_session :
  route_put_review reference None 1 (review_of (num 1) (num 2)) reviewed
  = (json 200 true "Review updated successfully.", rated (num 2)) /\
  route_post_review reference None 1 (review_of (num 1) (num 5)) empty_db
  = (json 201 true "Review submitted successfully.", reviewed) /\
  (forall P token reviewId b d,
     route_put_review P token reviewId b d = put_review P reviewId b d) /\
  (forall P token businessId b d,
     route_post_review P token businessId b d = post_review P businessId b d).
Proof. repeat split; reflexivity. Qed.

(** C7. A non-numeric rating passes the range check of both review
    handlers: with the rating "abc" the review is inserted, and the stored
    review is overwritten; whatever the engine does with the statement,
    neither handler answers the request with the validation error 400. *)
Theorem nonnumeric_rating_is_stored :
  post_review reference 1 (review_of (num 1) (JStr "abc")) empty_db
  = (json 201 true "Review submitted successfully.", rated (JStr "abc")) /\
  put_review reference 1 (review_of (num 1) (JStr "abc")) reviewed
  = (json 200 true "Review updated successfully.", rated (JStr "abc")) /\
  rating_out_of_range (JStr "abc") = false /\
  (forall P businessId d,
     In (status (fst (post_review P businessId (review_of (num 1) (JStr "abc")) d)))
        [201; 409; 500]) /\
  (forall P reviewId d,
     In (status (fst (put_review P reviewId (review_of (num 1) (JStr "abc")) d)))
        [200; 403; 404; 500]).
Proof.
  split; [reflexivity|]. split; [reflexivity|]. split; [reflexivity|]. split.
  - intros P businessId d.
    unfold post_review, serve, try_catch, bind, execute, run_statement, ret.
    change (rating_out_of_range (rv_rating (review_of (num 1) (JStr "abc")))) with false.
    repeat (cbn -[In filter];
            match goal with
            | |- context [rejects ?Q ?x ?y] => destruct (rejects Q x y)
            | |- context [filter ?f ?l] => destruct (filter f l)
            end);
      cbn; tauto.
  - intros P reviewId d.
    unfold put_review, serve, try_catch, bind, execute, run_statement, ret.
    change (rating_out_of_range (rv_rating (review_of (num 1) (JStr "abc")))) with false.
    repeat (cbn -[In filter strict_eq];
            match goal with
            | |- context [rejects ?Q ?x ?y] => destruct (rejects Q x y)
            | |- context [filter ?f ?l] => destruct (filter f l)
            | |- context [strict_eq ?x ?y] => destruct (strict_eq x y)
            end);
      cbn; tauto.
Qed.

(** A rating that is a number below 1 or above 5, integer or fraction, is
    refused with 400 by both review handlers, and no review changes. *)
Lemma numeric_rating_outside_rejected (P : platform) (id : Z) (b : review_body)
    (d : db) (q : Q) :
  rv_rating b = JNum (Fin q) ->
  (q < 1 \/ 5 < q)%Q ->
  (status (fst (post_review P id b d)) = 400 /\ snd (post_review P id b d) = d) /\
  (status (fst (put_review P id b d)) = 400 /\ snd (put_review P id b d) = d).
Proof.
  intros Hr Hq.
  assert (Hout : rating_out_of_range (rv_rating b) = true).
  { rewrite Hr. unfold rating_out_of_range, gt, lt, num. cbn [ToNumber number_lt].
    destruct Hq as [Hq|Hq].
    - now rewrite (Qltb_lt q (inject_Z 1)).
    - rewrite (Qltb_lt (inject_Z 5) q) by exact Hq. apply orb_true_r. }
  unfold post_review, put_review, serve, try_catch. rewrite Hout.
  destruct (negb (truthy (rv_userId b)) || negb (truthy (rv_rating b)))%bool;
    repeat split.
Qed.

Lemma numeric_rating_outside_rejected_witness :
  fst (post_review reference 1 (review_of (num 1) (JNum (Fin (11 # 2)))) empty_db)
  = json 400 false "Rating must be between 1 and 5." /\
  snd (put_review reference 1 (review_of (num 1) (num 0)) reviewed) = reviewed.
Proof.
  split.
  - destruct (numeric_rating_outside_rejected reference 1
                (review_of (num 1) (JNum (Fin (11 # 2)))) empty_db (11 # 2) eq_refl)
      as [[Hst Hdb] _]; [right; reflexivity|].
    reflexivity.
  - destruct (numeric_rating_outside_rejected reference 1
                (review_of (num 1) (num 0)) reviewed 0 eq_refl)
      as [_ [Hst Hdb]]; [left; reflexivity|].
    exact Hdb.
Defined.

(** *** Creating a build *)

Lemma default_to_defined (d v : jsval) :
  is_undefined d = false -> is_undefined (default_to d v) = false.
Proof. intros H. unfold default_to. now destruct v. Qed.

Lemma url_at_defined (files : list file) (i : nat) : is_undefined (url_at files i) = false.
Proof. unfold url_at. now destruct (nth_error files i). Qed.

(** The loop over the mods never reaches its end when an entry is null. *)
Lemma create_mods_null (P : platform) (build_id : Z) (files : list file)
    (mods : list (option mod_input)) :
  In None mods ->
  forall i c c' u, create_mods P build_id files i mods c <> (c', inr u).
Proof.
  induction mods as [|[m|] rest IH]; intros Hin i c c' u H; [destruct Hin| |].
  - destruct Hin as [Hin|Hin]; [discriminate|].
    cbn [create_mods] in H. step H. exact (IH Hin _ _ _ _ H).
  - cbn [create_mods] in H. step H. discriminate.
Qed.

Lemma create_mods_builds (P : platform) (build_id : Z) (files : list file)
    (rows : list build) (mods : list (option mod_input)) :
  forall i, preserves (fun c => builds (cur c) = rows) (create_mods P build_id files i mods).
Proof.
  induction mods as [|[m|] rest IH]; intros i; cbn [create_mods].
  - apply preserves_ret.
  - apply preserves_bind; [|intros _; apply IH].
    apply preserves_run_statement. intros c d a He Hc. injection He as <- _. exact Hc.
  - apply preserves_bind; [apply preserves_throw|intros _; apply IH].
Qed.

(** C1. Creating a build is not atomic: for every engine that accepts the
    INSERT of the build row, a POST /api/builds whose mods array holds a
    null entry answers 500 and leaves the new build row in the store. *)
Theorem create_build_partial_rows (P : platform) (userId : Z) (b : create_build_body)
    (d : db) (mods : list (option mod_input)) :
  cb_mods b = Some mods ->
  In None mods ->
  is_undefined (cb_car_name b) = false ->
  is_undefined (cb_model b) = false ->
  rejects P d (build_insert userId b) = None ->
  status (fst (create_build P userId b d)) = 500 /\
  builds (snd (create_build P userId b d))
  = (builds d ++ [inserted_build P userId b d])%list.
Proof.
  intros Hmods Hnull Hname Hmodel Haccept.
  unfold create_build, serve, try_catch. rewrite Hmods.
  match goal with
  | |- context [bind ?m ?k ?c0] =>
      assert (Hrun : exists x e,
                 bind m k c0 = (x, inl e) /\
                 builds (cur x) = (builds d ++ [inserted_build P userId b d])%list)
  end.
  { unfold bind at 1, insert_build, execute, run_statement.
    fold (build_insert userId b). cbn [params build_insert existsb cur saved].
    rewrite Hname, Hmodel, !default_to_defined, !url_at_defined by reflexivity.
    cbn [orb andb]. rewrite Haccept.
    match goal with
    | |- context [bind ?m ?k ?c0] => destruct (bind m k c0) as [c' [e|r]] eqn:Hrest
    end.
    - exists c', e. split; [reflexivity|].
      revert Hrest.
      match goal with
      | |- ?rest _ = _ -> _ =>
          assert (Hp : preserves
                         (fun x => builds (cur x)
                                   = (builds d ++ [inserted_build P userId b d])%list)
                         rest)
      end.
      { apply preserves_bind.
        - apply preserves_for_each. intros url _. apply preserves_run_statement.
          intros c d1 a He Hc. injection He as <- _. exact Hc.
        - intros _. apply preserves_bind; [apply create_mods_builds|].
          intros _. apply preserves_ret. }
      intros Hrest. exact (Hp _ _ _ Hrest eq_refl).
    - exfalso. step Hrest. step Hrest.
      exact (create_mods_null _ _ _ _ Hnull _ _ _ _ Hs0). }
  destruct Hrun as (c' & e & -> & Hbuilds). split; [reflexivity|exact Hbuilds].
Qed.

(** The request with one gallery image and the mods '[{...}, null]': the
    build row, the gallery row and the first mod row stay. *)
Lemma create_build_partial_rows_witness :
  (status (fst (create_build reference 7 create_with_null_mod empty_db)) = 500 /\
   builds (snd (create_build reference 7 create_with_null_mod empty_db)) = [fd_build 7]) /\
  snd (create_build reference 7 create_with_null_mod empty_db)
  = set_build_mods
      (set_build_gallery
         (set_builds empty_db [fd_build 7])
         [{| g_build_id := 1; g_image_url := "/uploads/1-galleryImages.png" |}])
      [mod_row 1 (JStr "Engine") JNull (JStr "Turbo") JNull JNull].
Proof.
  split; [|reflexivity].
  apply (create_build_partial_rows reference 7 create_with_null_mod empty_db
           [Some turbo; None]); try reflexivity.
  right. now left.
Defined.

Lemma upload_url_uploaded (f : file) : starts_with "/uploads/" (upload_url f) = true.
Proof. unfold upload_url. cbn. now destruct (filename f). Qed.

(** Creating a build keeps every gallery reference an upload URL, at
    whichever statement it stops. *)
Lemma create_build_gallery_uploaded (P : platform) (userId : Z)
    (b : create_build_body) (d : db) :
  gallery_uploaded d -> gallery_uploaded (snd (create_build P userId b d)).
Proof.
  intros Hinv. unfold create_build, serve.
  set (I := fun c : conn => gallery_uploaded (cur c)).
  match goal with |- context [try_catch ?m ?h ?c] =>
    assert (Hp : preserves I (try_catch m h)); [|destruct (try_catch m h c) as [c' r] eqn:E]
  end.
  - apply preserves_try_catch; [|intros e; apply preserves_ret].
    destruct (cb_mods b) as [ms|]; [|apply preserves_ret].
    apply preserves_bind.
    { apply preserves_run_statement. intros c d1 a He Hc.
      injection He as <- _. exact Hc. }
    intros buildId. apply preserves_bind.
    { apply preserves_for_each. intros url Hurl. apply preserves_run_statement.
      intros c d1 a He Hc. injection He as <- _.
      apply in_map_iff in Hurl. destruct Hurl as (f & <- & _).
      intros g Hg. cbn in Hg. apply in_app_iff in Hg.
      destruct Hg as [Hg|[<-|[]]]; [now apply Hc|apply upload_url_uploaded]. }
    intros _. apply preserves_bind; [|intros _; apply preserves_ret].
    generalize 0%nat. induction ms as [|[m|] rest IH]; intros i; cbn [create_mods].
    + apply preserves_ret.
    + apply preserves_bind; [|intros _; apply IH].
      apply preserves_run_statement. intros c d1 a He Hc. injection He as <- _. exact Hc.
    + apply preserves_bind; [apply preserves_throw|intros _; apply IH].
  - assert (Hc' : I c') by (eapply Hp; [exact E|exact Hinv]).
    destruct r; exact Hc'.
Qed.

(** *** Updating a build: ownership *)

(** C3, amended. For every build update, when no build row has the given
    id, or the row's owner is not the caller, the update leaves every row
    of the store as it was. When one of the three JSON fields does not
    parse it fails with 400 "Invalid JSON payload", the payload being
    parsed before the ownership check; when the three parse, then, once
    the store has opened the transaction and answered the ownership query,
    it fails with Forbidden (403 "Unauthorized") in both cases alike. *)
Theorem update_build_not_owner_403 (P : platform) (userId buildId : Z)
    (b : update_build_body) (d : db) :
  owner_of buildId d <> Some userId ->
  snd (update_build P userId buildId b d) = d /\
  (~ parsed b ->
   fst (update_build P userId buildId b d) = json 400 false "Invalid JSON payload") /\
  (parsed b ->
   rejects P d BeginTransaction = None ->
   rejects P d (SelectBuildOwner buildId) = None ->
   fst (update_build P userId buildId b d) = json 403 false "Unauthorized").
Proof.
  intros Hown. unfold update_build, parsed.
  destruct (ub_keepCovers b) as [kc|];
    [|split; [reflexivity|split; [intros _; reflexivity|intros [H _]; congruence]]].
  destruct (ub_keepGallery b) as [kg|];
    [|split; [reflexivity|split; [intros _; reflexivity|intros (_ & H & _); congruence]]].
  destruct (ub_mods b) as [ms|];
    [|split; [reflexivity|split; [intros _; reflexivity|intros (_ & _ & H); congruence]]].
  assert (Hparsed : Some kc <> None /\ Some kg <> None /\ Some ms <> None)
    by (repeat split; discriminate).
  unfold serve, try_catch, bind, beginTransaction, query, run_statement; cbn.
  destruct (rejects P d BeginTransaction) eqn:Hb; cbn.
  { split; [destruct (String.eqb _ _); reflexivity|].
    split; [intros Hn; now destruct Hn|intros; congruence]. }
  destruct (rejects P d (SelectBuildOwner buildId)) eqn:Hs; cbn.
  { split; [destruct (String.eqb _ _); reflexivity|].
    split; [intros Hn; now destruct Hn|intros; congruence]. }
  unfold owner_of in Hown.
  destruct (filter (fun r => b_id r =? buildId) (builds d)) as [|owner rest]; cbn.
  { split; [reflexivity|]. split; [intros Hn; now destruct Hn|reflexivity]. }
  destruct (b_user_id owner =? userId) eqn:E; cbn.
  { apply Z.eqb_eq in E. subst. congruence. }
  split; [reflexivity|]. split; [intros Hn; now destruct Hn|reflexivity].
Qed.

(** C3, as the claim states it, fails: updating a build that does not
    exist answers 403, not 404. *)
Lemma update_missing_build_is_403 :
  update_build reference 7 99 rebuild garage = (json 403 false "Unauthorized", garage) /\
  owner_of 99 garage = None.
Proof. split; reflexivity. Qed.

(** User 8 updates build 1 of user 7, then sends a [mods] field that does
    not parse. *)
Lemma update_build_not_owner_403_witness :
  snd (update_build reference 8 1 rebuild garage) = garage /\
  fst (update_build reference 8 1 rebuild garage) = json 403 false "Unauthorized" /\
  update_build reference 8 1 unparsable garage
  = (json 400 false "Invalid JSON payload", garage).
Proof.
  destruct (update_build_not_owner_403 reference 8 1 rebuild garage)
    as (Hdb & _ & Hres); [vm_compute; discriminate|].
  destruct (update_build_not_owner_403 reference 8 1 unparsable garage)
    as (Hdb' & Hres' & _); [vm_compute; discriminate|].
  split; [exact Hdb|]. split.
  - apply Hres; [|reflexivity|reflexivity]. repeat split; vm_compute; discriminate.
  - apply injective_projections; [|exact Hdb'].
    apply Hres'. intros (_ & _ & H). now apply H.
Defined.

(** *** Updating a build: what a committed update leaves *)

Lemma reinsert_mods_inr (P : platform) (build_id : Z) (files : list file)
    (modsArr : list (option mod_input)) :
  forall (imgIdx : nat) (c c' : conn) (u : unit),
    reinsert_mods P build_id files imgIdx modsArr c = (c', inr u) ->
    exists entries,
      modsArr = map Some entries /\
      c' = {| cur := set_build_mods (cur c)
                       (build_mods (cur c) ++ reinserted build_id files imgIdx entries);
              saved := saved c |}.
Proof.
  induction modsArr as [|[m|] rest IH]; intros imgIdx c c' u H.
  - exists []. split; [reflexivity|]. cbn in *. inversion H; subst.
    rewrite app_nil_r. destruct c' as [[] ?]; reflexivity.
  - cbn [reinsert_mods] in H.
    destruct (match (if truthy (mi_hasImage m) then nth_error files imgIdx else None) with
              | Some f => (JStr (upload_url f), S imgIdx)
              | None => _ end) as [image_url imgIdx'] eqn:Hpair.
    step H. unfold query in Hs. statement Hs. subst c0.
    apply IH in H. destruct H as (entries & -> & ->).
    exists (m :: entries). split; [reflexivity|].
    cbn [cur saved build_mods set_build_mods reinserted]. rewrite Hpair.
    cbn [cur saved build_mods set_build_mods]. rewrite <- app_assoc. reflexivity.
  - discriminate.
Qed.

(** The rows a committed build update leaves in the gallery and in the mods
    of the store. *)
Lemma update_build_committed (P : platform) (userId buildId : Z)
    (b : update_build_body) (d : db) :
  status (fst (update_build P userId buildId b d)) = 200 ->
  exists kc kg entries,
    ub_keepCovers b = Some kc /\
    ub_keepGallery b = Some kg /\
    ub_mods b = Some (map Some entries) /\
    owner_of buildId d = Some userId /\
    build_gallery (snd (update_build P userId buildId b d))
    = (filter (survives P buildId (retain_set kg)) (build_gallery d)
       ++ map (gallery_row buildId) (galleryImages (ub_files b)))%list /\
    build_mods (snd (update_build P userId buildId b d))
    = (filter (fun m => negb (m_build_id m =? buildId)) (build_mods d)
       ++ reinserted buildId (modImages (ub_files b)) 0 entries)%list.
Proof.
  unfold update_build, owner_of.
  destruct (ub_keepCovers b) as [kc|]; [|discriminate].
  destruct (ub_keepGallery b) as [kg|]; [|discriminate].
  destruct (ub_mods b) as [ms|]; [|discriminate].
  unfold serve, try_catch.
  match goal with |- context [bind ?m ?k ?c] => destruct (bind m k c) as [c' [e|r]] eqn:H end.
  { unfold bind, rollback, ret. destruct (String.eqb _ _); discriminate. }
  intros _. cbn [fst snd].
  step H. apply beginTransaction_inr in Hs. subst. cbn [cur] in H.
  step H. unfold query in Hs. statement Hs. subst.
  destruct (filter (fun r => b_id r =? buildId) (builds d)) as [|owner others];
    [discriminate|].
  destruct (Z.eqb_spec (b_user_id owner) userId) as [->|]; [|discriminate].
  cbn [negb] in H.
  step H. unfold update_fields, query in Hs. statement Hs. subst.
  step H. unfold update_covers, query in Hs. statement Hs. subst.
  step H. unfold delete_gallery_not_in, query in Hs. statement Hs. subst.
  step H.
  assert (Hgal : build_gallery (cur c)
                 = (filter (survives P buildId (retain_set kg)) (build_gallery d)
                    ++ map (gallery_row buildId) (galleryImages (ub_files b)))%list
                 /\ build_mods (cur c) = build_mods d).
  { destruct (galleryImages (ub_files b)) as [|f fs].
    - injection Hs as <- _. cbn. now rewrite app_nil_r.
    - unfold insert_gallery_rows, query in Hs. statement Hs. subst c.
      cbn [cur build_gallery set_build_gallery build_mods set_builds].
      rewrite map_map. split; reflexivity. }
  clear Hs. destruct Hgal as [Hgal Hmods].
  step H. unfold delete_mods, query in Hs. statement Hs. subst.
  step H. apply reinsert_mods_inr in Hs. destruct Hs as (entries & -> & ->).
  step H. apply commit_inr in Hs. injection H as <- <-.
  exists kc, kg, entries. repeat split; try reflexivity.
  - rewrite Hs. cbn. exact Hgal.
  - rewrite Hs. cbn. now rewrite Hmods.
Qed.

Lemma reinsert_mods_saved (P : platform) (build_id : Z) (files : list file)
    (snapshot : option db) (modsArr : list (option mod_input)) :
  forall imgIdx,
    preserves (fun c => saved c = snapshot) (reinsert_mods P build_id files imgIdx modsArr).
Proof.
  induction modsArr as [|[m|] rest IH]; intros imgIdx; cbn [reinsert_mods].
  - apply preserves_ret.
  - destruct (match (if truthy (mi_hasImage m) then nth_error files imgIdx else None) with
              | Some f => (JStr (upload_url f), S imgIdx)
              | None => _ end) as [image_url imgIdx'].
    apply preserves_bind; [apply run_statement_saved|intros _; apply IH].
  - apply preserves_throw.
Qed.

(** A build update leaves the store as it was unless it answers 200. *)
Lemma update_build_all_or_nothing (P : platform) (userId buildId : Z)
    (b : update_build_body) (d : db) :
  snd (update_build P userId buildId b d) = d \/
  status (fst (update_build P userId buildId b d)) = 200.
Proof.
  unfold update_build.
  destruct (ub_keepCovers b) as [kc|]; [|now left].
  destruct (ub_keepGallery b) as [kg|]; [|now left].
  destruct (ub_mods b) as [ms|]; [|now left].
  match goal with
  | |- context [try_catch (beginTransaction P ;; ?body) (fun e => rollback ;; @?reply e)] =>
      destruct (transaction_outcome P body reply d) as [Hsame|(c' & Hrun & Hdb)]
  end.
  - apply throws_within_bind; [apply run_statement_saved|].
    intros [|owner others]; [apply preserves_throws_within, preserves_throw|].
    destruct (negb _); [apply preserves_throws_within, preserves_throw|].
    do 3 (apply throws_within_bind; [apply run_statement_saved|intros _]).
    apply throws_within_bind.
    { destruct (galleryImages (ub_files b));
        [apply preserves_ret|apply run_statement_saved]. }
    intros _. apply throws_within_bind; [apply run_statement_saved|intros _].
    apply throws_within_bind; [apply reinsert_mods_saved|intros _].
    apply throws_within_commit.
  - intros e c. destruct (String.eqb _ _); eexists; reflexivity.
  - now left.
  - right. step Hrun. destruct a as [|owner others]; [discriminate|].
    destruct (negb _); [discriminate|].
    do 7 step Hrun. injection Hrun as _ <-. reflexivity.
Qed.

(** A build update that does not answer 200 leaves the store as it was. *)
Lemma update_build_rolled_back (P : platform) (userId buildId : Z)
    (b : update_build_body) (d : db) :
  status (fst (update_build P userId buildId b d)) <> 200 ->
  snd (update_build P userId buildId b d) = d.
Proof.
  unfold update_build.
  destruct (ub_keepCovers b) as [kc|]; [|reflexivity].
  destruct (ub_keepGallery b) as [kg|]; [|reflexivity].
  destruct (ub_mods b) as [ms|]; [|reflexivity].
  match goal with
  | |- context [try_catch (beginTransaction P ;; ?body) (fun e => rollback ;; @?reply e)] =>
      destruct (transaction_outcome P body reply d) as [Hsame|(c' & Hrun & Hdb)]
  end.
  - apply throws_within_bind; [apply run_statement_saved|].
    intros [|owner others]; [apply preserves_throws_within, preserves_throw|].
    destruct (negb _); [apply preserves_throws_within, preserves_throw|].
    do 3 (apply throws_within_bind; [apply run_statement_saved|intros _]).
    apply throws_within_bind.
    { destruct (galleryImages (ub_files b));
        [apply preserves_ret|apply run_statement_saved]. }
    intros _. apply throws_within_bind; [apply run_statement_saved|intros _].
    apply throws_within_bind; [apply reinsert_mods_saved|intros _].
    apply throws_within_commit.
  - intros e c. destruct (String.eqb _ _); eexists; reflexivity.
  - intros _. exact Hsame.
  - intros Hne. exfalso. apply Hne.
    step Hrun. destruct a as [|owner others]; [discriminate|].
    destruct (negb _); [discriminate|].
    do 7 step Hrun. injection Hrun as _ <-. reflexivity.
Qed.

(** *** Updating a build: mods *)

Lemma reinserted_build_id (build_id : Z) (files : list file) (entries : list mod_input) :
  forall imgIdx r, In r (reinserted build_id files imgIdx entries) -> m_build_id r = build_id.
Proof.
  induction entries as [|m rest IH]; intros imgIdx r; cbn [reinserted]; [intros []|].
  destruct (match (if truthy (mi_hasImage m) then nth_error files imgIdx else None) with
            | Some f => (JStr (upload_url f), S imgIdx)
            | None => _ end) as [image_url imgIdx'].
  intros [<-|Hin]; [reflexivity|]. eapply IH; eassumption.
Qed.

Lemma reinserted_length (build_id : Z) (files : list file) (entries : list mod_input) :
  forall imgIdx, List.length (reinserted build_id files imgIdx entries) = List.length entries.
Proof.
  induction entries as [|m rest IH]; intros imgIdx; cbn [reinserted]; [reflexivity|].
  destruct (match (if truthy (mi_hasImage m) then nth_error files imgIdx else None) with
            | Some f => (JStr (upload_url f), S imgIdx)
            | None => _ end) as [image_url imgIdx'].
  cbn. now rewrite IH.
Qed.

Lemma mods_of_committed (P : platform) (userId buildId : Z)
    (b : update_build_body) (d : db) :
  status (fst (update_build P userId buildId b d)) = 200 ->
  exists entries,
    ub_mods b = Some (map Some entries) /\
    mods_of buildId (snd (update_build P userId buildId b d))
    = reinserted buildId (modImages (ub_files b)) 0 entries.
Proof.
  intros H. destruct (update_build_committed _ _ _ _ _ H)
    as (kc & kg & entries & _ & _ & Hms & _ & _ & Hmods).
  exists entries. split; [exact Hms|].
  unfold mods_of. rewrite Hmods, filter_app.
  rewrite (filter_filter_negb (fun m => m_build_id m =? buildId)). cbn [app].
  apply filter_all. intros r Hr. apply reinserted_build_id in Hr. now apply Z.eqb_eq.
Qed.

(** C4. After every successful build update whose request carries a mod
    list of M entries, the build has exactly M mod rows, whatever rows it
    had before. *)
Theorem update_build_mod_count (P : platform) (userId buildId : Z)
    (b : update_build_body) (d : db) (mods : list (option mod_input)) :
  ub_mods b = Some mods ->
  status (fst (update_build P userId buildId b d)) = 200 ->
  List.length (mods_of buildId (snd (update_build P userId buildId b d)))
  = List.length mods.
Proof.
  intros Hmods Hok.
  destruct (mods_of_committed _ _ _ _ _ Hok) as (entries & Hms & ->).
  rewrite Hmods in Hms. injection Hms as ->.
  now rewrite reinserted_length, length_map.
Qed.

(** Build 1 had two mods and is sent four. *)
Lemma update_build_mod_count_witness :
  List.length (mods_of 1 garage) = 2%nat /\
  List.length (mods_of 1 (snd (update_build reference 7 1 rebuild garage))) = 4%nat.
Proof.
  split; [reflexivity|].
  apply (update_build_mod_count reference 7 1 rebuild garage
           (map Some [turbo; coilovers; exhaust; turbo])); reflexivity.
Defined.

(** *** Updating a build: mod images *)

Lemma reinserted_images (build_id : Z) (files : list file) (entries : list mod_input) :
  forall imgIdx,
    map m_image_url (reinserted build_id files imgIdx entries)
    = pair_images entries (skipn imgIdx files).
Proof.
  induction entries as [|m rest IH]; intros imgIdx; cbn [reinserted pair_images];
    [reflexivity|].
  rewrite (skipn_nth_error files imgIdx).
  destruct (truthy (mi_hasImage m)) eqn:Hflag; cbn [negb andb].
  - destruct (nth_error files imgIdx) as [f|] eqn:Hnth; cbn [map m_image_url mod_row].
    + now rewrite IH.
    + rewrite IH, (skipn_nth_error files imgIdx), Hnth. reflexivity.
  - unfold existing_reference. rewrite truthy_nullish.
    destruct (truthy (mi_image_url m)) eqn:Hfb; cbn [map m_image_url mod_row];
      rewrite IH, (skipn_nth_error files imgIdx); [rewrite nullish_truthy by exact Hfb|];
      reflexivity.
Qed.

Lemma pair_images_nth (entries : list mod_input) :
  forall (files : list file) (i : nat) (m : mod_input),
    nth_error entries i = Some m ->
    nth_error (pair_images entries files) i
    = Some (if truthy (mi_hasImage m)
            then url_at files (flagged_before entries i)
            else existing_reference m).
Proof.
  unfold flagged_before.
  induction entries as [|e rest IH]; intros files [|i] m H; cbn in H; try discriminate.
  - injection H as ->. cbn [pair_images firstn filter List.length].
    destruct (truthy (mi_hasImage m)); [destruct files|]; reflexivity.
  - cbn [pair_images firstn filter].
    destruct (truthy (mi_hasImage e)).
    + destruct files as [|f later]; cbn [nth_error List.length];
        rewrite (IH _ _ _ H); destruct (truthy (mi_hasImage m)); try reflexivity.
      unfold url_at. now destruct (List.length _).
    + cbn [nth_error]. apply IH, H.
Qed.

Lemma reinsert_mods_healthy (P : platform) (build_id : Z) (files : list file)
    (entries : list mod_input) :
  healthy P ->
  forall (imgIdx : nat) (c : conn),
    reinsert_mods P build_id files imgIdx (map Some entries) c
    = ({| cur := set_build_mods (cur c)
                   (build_mods (cur c) ++ reinserted build_id files imgIdx entries);
          saved := saved c |}, inr tt).
Proof.
  intros Hh. induction entries as [|m rest IH]; intros imgIdx c.
  - cbn. rewrite app_nil_r. destruct c as [[] ?]; reflexivity.
  - cbn [map reinsert_mods reinserted].
    destruct (match (if truthy (mi_hasImage m) then nth_error files imgIdx else None) with
              | Some f => (JStr (upload_url f), S imgIdx)
              | None => _ end) as [image_url imgIdx'].
    unfold bind, query, run_statement. cbn [andb]. rewrite Hh, IH.
    cbn [cur saved build_mods set_build_mods]. now rewrite <- app_assoc.
Qed.

Lemma update_build_succeeds (P : platform) (userId buildId : Z)
    (b : update_build_body) (d : db) (entries : list mod_input) :
  healthy P ->
  owner_of buildId d = Some userId ->
  ub_keepCovers b <> None ->
  ub_keepGallery b <> None ->
  ub_mods b = Some (map Some entries) ->
  status (fst (update_build P userId buildId b d)) = 200.
Proof.
  intros Hh Hown Hkc Hkg Hms. unfold update_build, owner_of in *.
  destruct (ub_keepCovers b) as [kc|]; [|congruence].
  destruct (ub_keepGallery b) as [kg|]; [|congruence].
  rewrite Hms.
  unfold serve, try_catch, bind, beginTransaction, commit, update_fields, update_covers,
    delete_gallery_not_in, delete_mods, query, run_statement.
  repeat (progress (cbn [andb cur saved]; rewrite ?Hh)).
  destruct (filter (fun r => b_id r =? buildId) (builds d)) as [|owner others];
    [discriminate|].
  injection Hown as ->. rewrite Z.eqb_refl. cbn [negb].
  repeat (progress (cbn [andb cur saved]; rewrite ?Hh)).
  destruct (galleryImages (ub_files b)) as [|f fs];
    unfold insert_gallery_rows, query, run_statement, ret;
    repeat (progress (cbn [andb cur saved]; rewrite ?Hh));
    rewrite reinsert_mods_healthy by exact Hh;
    repeat (progress (cbn [andb cur saved]; rewrite ?Hh)); reflexivity.
Qed.

(** C6. In every build update each re-inserted mod entry gets its image
    reference as follows: a flagged entry takes the next uploaded file not
    yet consumed, so the k-th flagged entry takes the k-th file of the
    upload; an unflagged entry keeps the existing reference it supplies, or
    none; flagged entries beyond the uploaded files are stored without
    image, and the update still succeeds. *)
Theorem update_build_mod_images (P : platform) (userId buildId : Z)
    (b : update_build_body) (d : db) (entries : list mod_input) :
  ub_mods b = Some (map Some entries) ->
  (status (fst (update_build P userId buildId b d)) = 200 ->
   map m_image_url (mods_of buildId (snd (update_build P userId buildId b d)))
   = pair_images entries (modImages (ub_files b)) /\
   forall i m,
     nth_error entries i = Some m ->
     nth_error (map m_image_url (mods_of buildId (snd (update_build P userId buildId b d)))) i
     = Some (if truthy (mi_hasImage m)
             then url_at (modImages (ub_files b)) (flagged_before entries i)
             else existing_reference m)) /\
  (healthy P ->
   owner_of buildId d = Some userId ->
   ub_keepCovers b <> None ->
   ub_keepGallery b <> None ->
   status (fst (update_build P userId buildId b d)) = 200).
Proof.
  intros Hms. split.
  - intros Hok. destruct (mods_of_committed _ _ _ _ _ Hok) as (entries' & Hms' & ->).
    rewrite Hms in Hms'. injection Hms' as Heq.
    assert (entries' = entries) as ->.
    { clear -Heq. revert entries' Heq.
      induction entries as [|m l IH]; intros [|m' l'] H; cbn in H; try discriminate;
        [reflexivity|]. injection H as -> H. f_equal. now apply IH. }
    rewrite reinserted_images. cbn [skipn]. split; [reflexivity|].
    intros i m Hi. now apply pair_images_nth.
  - intros Hh Hown Hkc Hkg. eapply update_build_succeeds; eassumption.
Qed.

(** Three flagged entries and two uploaded mod images. *)
Lemma update_build_mod_images_witness :
  map m_image_url (mods_of 1 (snd (update_build reference 7 1 rebuild garage)))
  = [JStr "/uploads/m1.png"; JStr "/uploads/coilovers.png"; JStr "/uploads/m2.png"; JNull]
  /\ status (fst (update_build reference 7 1 rebuild garage)) = 200.
Proof.
  destruct (update_build_mod_images reference 7 1 rebuild garage
              [turbo; coilovers; exhaust; turbo] eq_refl) as [Himg Hok].
  split.
  - rewrite (proj1 (Himg eq_refl)). reflexivity.
  - apply Hok; [intros d s; reflexivity|reflexivity|discriminate|discriminate].
Defined.

(** *** Updating a build: gallery *)

Lemma retained_In (keep : list string) (url : string) :
  retained keep url = true <-> In url keep.
Proof.
  unfold retained. rewrite existsb_exists. split.
  - intros (x & Hin & Heq). apply String.eqb_eq in Heq. now subst.
  - intros Hin. exists url. split; [exact Hin|apply String.eqb_refl].
Qed.

Lemma references_text (refs : list string) (url : string) :
  existsb written_null (references refs) = false /\
  forallb is_text (references refs) = true /\
  existsb (names url) (references refs) = retained refs url.
Proof.
  induction refs as [|r refs (Hnull & Htext & Hnames)]; [repeat split|].
  change (references (r :: refs)) with (Scalar (JStr r) :: references refs).
  unfold retained in *. cbn [existsb forallb written_null is_text names orb andb].
  now rewrite Hnull, Htext, Hnames.
Qed.

Lemma not_in_references (P : platform) (refs : list string) (url : string) :
  not_in P (references refs) url = negb (retained refs url).
Proof.
  unfold not_in. destruct (references_text refs url) as (-> & -> & ->). reflexivity.
Qed.

Lemma not_in_null (P : platform) (keep : list bound_value) (url : string) :
  In (Scalar JNull) keep -> not_in P (retain_set keep) url = false.
Proof.
  intros Hin. unfold not_in.
  assert (existsb written_null (retain_set keep) = true) as ->; [|reflexivity].
  apply existsb_exists. exists (Scalar JNull). split; [|reflexivity].
  destruct keep; [destruct Hin|exact Hin].
Qed.

Lemma retain_set_uploaded (P : platform) (refs : list string) (url : string) :
  starts_with "/uploads/" url = true ->
  not_in P (retain_set (references refs)) url = negb (retained refs url).
Proof.
  intros Hup. destruct refs as [|r refs]; [|apply not_in_references].
  change (retain_set (references [])) with (references [gallery_sentinel]).
  rewrite not_in_references. cbn.
  destruct (String.eqb_spec url gallery_sentinel) as [->|]; [|reflexivity].
  discriminate Hup.
Qed.

Lemma gallery_kept (P : platform) (buildId : Z) (keep : list bound_value)
    (kept : string -> bool) (rows : list gallery_image) :
  (forall g, In g rows -> not_in P keep (g_image_url g) = negb (kept (g_image_url g))) ->
  filter (fun g => g_build_id g =? buildId) (filter (survives P buildId keep) rows)
  = filter (fun g => kept (g_image_url g))
           (filter (fun g => g_build_id g =? buildId) rows).
Proof.
  induction rows as [|g rows IH]; intros H; [reflexivity|].
  cbn [filter]. unfold survives at 1.
  rewrite (H g (or_introl eq_refl)).
  assert (IH' := IH (fun g0 Hg0 => H g0 (or_intror Hg0))).
  destruct (g_build_id g =? buildId) eqn:Eid; cbn [andb negb].
  - destruct (kept (g_image_url g)) eqn:Er; cbn [negb filter].
    + now rewrite Eid, Er, IH'.
    + now rewrite Er, IH'.
  - cbn [filter]. now rewrite Eid.
Qed.

Lemma gallery_others (P : platform) (buildId other : Z) (keep : list bound_value)
    (rows : list gallery_image) :
  other <> buildId ->
  filter (fun g => g_build_id g =? other) (filter (survives P buildId keep) rows)
  = filter (fun g => g_build_id g =? other) rows.
Proof.
  intros Hne. induction rows as [|g rows IH]; [reflexivity|].
  cbn [filter]. unfold survives at 1.
  destruct (Z.eqb_spec (g_build_id g) other) as [Ho|Ho].
  - destruct (Z.eqb_spec (g_build_id g) buildId); [congruence|].
    cbn [andb negb filter]. rewrite IH.
    destruct (Z.eqb_spec (g_build_id g) other); [reflexivity|contradiction].
  - destruct (negb _); [cbn [filter]|]; rewrite ?IH;
      destruct (Z.eqb_spec (g_build_id g) other); try contradiction; reflexivity.
Qed.

Lemma uploaded_rows (buildId : Z) (uploaded : list file) :
  filter (fun g => g_build_id g =? buildId) (map (gallery_row buildId) uploaded)
  = map (gallery_row buildId) uploaded.
Proof.
  apply filter_all. intros g Hg. apply in_map_iff in Hg.
  destruct Hg as (f & <- & _). apply Z.eqb_refl.
Qed.

(** C5. The reconciliation of the gallery misses a retain set that holds
    a null. After a build update that answers 200: when the retain set
    holds a null, every gallery row the build had is still there, followed
    by the new uploads, although none of its references is in the retain
    set; when the retain set is a list of strings, the gallery of the
    build is the rows it had whose reference is in the retain set, followed
    by one new row per uploaded gallery file (as a set: the retain set
    restricted to the rows that existed, united with the new uploads), and
    an empty retain set leaves only the new uploads. The galleries of other
    builds are as before. *)
Theorem update_build_gallery_null_retains_all (P : platform) (userId buildId : Z)
    (b : update_build_body) (d : db) (keep : list bound_value) :
  ub_keepGallery b = Some keep ->
  status (fst (update_build P userId buildId b d)) = 200 ->
  let d' := snd (update_build P userId buildId b d) in
  let uploaded := galleryImages (ub_files b) in
  (In (Scalar JNull) keep ->
   gallery_of buildId d'
   = (gallery_of buildId d ++ map (gallery_row buildId) uploaded)%list) /\
  (forall refs,
     keep = references refs ->
     gallery_uploaded d ->
     gallery_of buildId d'
     = (filter (fun g => retained refs (g_image_url g)) (gallery_of buildId d)
        ++ map (gallery_row buildId) uploaded)%list /\
     (forall url,
        In url (map g_image_url (gallery_of buildId d')) <->
        (In url refs /\ In url (map g_image_url (gallery_of buildId d))) \/
        In url (map upload_url uploaded)) /\
     (refs = [] -> gallery_of buildId d' = map (gallery_row buildId) uploaded)) /\
  (forall other, other <> buildId -> gallery_of other d' = gallery_of other d).
Proof.
  intros Hkeep Hok. cbv zeta.
  destruct (update_build_committed _ _ _ _ _ Hok)
    as (kc & kg & entries & _ & Hkg & _ & _ & Hgal & _).
  rewrite Hkeep in Hkg. injection Hkg as <-.
  remember (snd (update_build P userId buildId b d)) as d' eqn:Hd'. clear Hd' Hok.
  remember (galleryImages (ub_files b)) as uploaded eqn:Hup. clear Hup.
  split; [|split].
  - intros Hnull. unfold gallery_of. rewrite Hgal, filter_app, uploaded_rows. f_equal.
    rewrite (gallery_kept P buildId _ (fun _ => true)).
    + apply filter_all. reflexivity.
    + intros g _. now apply not_in_null.
  - intros refs -> Hinv.
    assert (Hlist : gallery_of buildId d'
                    = (filter (fun g => retained refs (g_image_url g)) (gallery_of buildId d)
                       ++ map (gallery_row buildId) uploaded)%list).
    { unfold gallery_of. rewrite Hgal, filter_app, uploaded_rows. f_equal.
      apply gallery_kept. intros g Hg. apply retain_set_uploaded, Hinv, Hg. }
    split; [exact Hlist|]. split.
    + intros url. rewrite Hlist, map_app, in_app_iff, map_map.
      cbn [gallery_row g_image_url]. split.
      * intros [Hold|Hnew]; [left|now right].
        apply in_map_iff in Hold. destruct Hold as (g & <- & Hg).
        apply filter_In in Hg. destruct Hg as [Hg Hr]. apply retained_In in Hr.
        split; [exact Hr|]. apply in_map_iff. now exists g.
      * intros [(Hk & Hu)|Hnew]; [left|now right].
        apply in_map_iff in Hu. destruct Hu as (g & <- & Hg).
        apply in_map_iff. exists g. split; [reflexivity|].
        apply filter_In. split; [exact Hg|]. now apply retained_In.
    + intros ->. rewrite Hlist. unfold retained. cbn [existsb].
      assert (Hnone : forall l : list gallery_image, filter (fun _ => false) l = [])
        by (induction l; auto).
      now rewrite Hnone.
  - intros other Hne. unfold gallery_of. rewrite Hgal, filter_app.
    rewrite gallery_others by exact Hne.
    assert (filter (fun g => g_build_id g =? other) (map (gallery_row buildId) uploaded) = [])
      as ->; [|apply app_nil_r].
    clear Hgal. induction uploaded as [|f fs IH]; [reflexivity|]. cbn.
    destruct (Z.eqb_spec buildId other); [congruence|exact IH].
Qed.

Lemma garage_gallery_uploaded : gallery_uploaded garage.
Proof.
  intros g Hg. cbn in Hg.
  destruct Hg as [<-|[<-|[<-|[<-|[]]]]]; reflexivity.
Defined.

(** The gallery {A, B, C} and one upload: with the retain set {B}, B and
    the upload are left; with the retain set '[null]' the update answers
    200 and A, B and C are all still there. *)
Lemma update_build_gallery_null_retains_all_witness :
  map g_image_url (gallery_of 1 (snd (update_build reference 7 1 rebuild garage)))
  = ["/uploads/B.png"; "/uploads/9-galleryImages.png"] /\
  status (fst (update_build reference 7 1 retain_null garage)) = 200 /\
  map g_image_url (gallery_of 1 (snd (update_build reference 7 1 retain_null garage)))
  = ["/uploads/A.png"; "/uploads/B.png"; "/uploads/C.png"; "/uploads/9-galleryImages.png"].
Proof.
  destruct (update_build_gallery_null_retains_all reference 7 1 rebuild garage
              (references ["/uploads/B.png"]) eq_refl eq_refl) as (_ & Hrefs & _).
  destruct (update_build_gallery_null_retains_all reference 7 1 retain_null garage
              [Scalar JNull] eq_refl eq_refl) as (Hnull & _).
  split; [|split].
  - rewrite (proj1 (Hrefs ["/uploads/B.png"] eq_refl garage_gallery_uploaded)).
    reflexivity.
  - reflexivity.
  - rewrite (Hnull (or_introl eq_refl)). reflexivity.
Defined.

(** A build update keeps every gallery reference an upload URL. *)
Lemma update_build_gallery_uploaded (P : platform) (userId buildId : Z)
    (b : update_build_body) (d : db) :
  gallery_uploaded d -> gallery_uploaded (snd (update_build P userId buildId b d)).
Proof.
  intros Hinv.
  destruct (Z.eq_dec (status (fst (update_build P userId buildId b d))) 200) as [Hok|Hne];
    [|now rewrite update_build_rolled_back].
  destruct (update_build_committed _ _ _ _ _ Hok)
    as (kc & kg & entries & _ & _ & _ & _ & Hgal & _).
  intros g Hg. rewrite Hgal in Hg. apply in_app_iff in Hg. destruct Hg as [Hg|Hg].
  - apply filter_In in Hg. apply Hinv, Hg.
  - apply in_map_iff in Hg. destruct Hg as (f & <- & _). apply upload_url_uploaded.
Qed.

Lemma update_build_gallery_uploaded_witness :
  gallery_uploaded (snd (update_build reference 7 1 rebuild garage)).
Proof. apply update_build_gallery_uploaded, garage_gallery_uploaded. Defined.

(** *** Follows *)

Lemma set_follows_same (d : db) : set_follows d (follows d) = d.
Proof. destruct d; reflexivity. Qed.

Lemma edge_exists_filter (f g : Z) (d : db) :
  edge_exists f g d = false -> filter (is_edge f g) (follows d) = [].
Proof.
  unfold edge_exists. induction (follows d) as [|e l IH]; cbn; [reflexivity|].
  fold (is_edge f g e). destruct (is_edge f g e); cbn; [discriminate|]. exact IH.
Qed.

(** C9. For every pair of user ids (follower, followed), the followed id
    carried by the request as a number or as a decimal string: a request
    to follow oneself is rejected; a request for an edge that exists is
    rejected with the conflict 409; unfollowing an edge that does not exist
    answers 404; and in the three cases the follows stay as they were. *)
Theorem follow_rejections (P : platform) (followerId followedId : Z) (body : jsval) (d : db) :
  id_of body = Some followedId ->
  (followedId = followerId ->
   status (fst (follow P followerId body d)) = 400 /\
   snd (follow P followerId body d) = d) /\
  (followedId <> followerId -> followedId <> 0 ->
   edge_exists followerId followedId d = true ->
   rejects P d (InsertFollow followerId body) = None ->
   follow P followerId body d
   = (json 409 false "You are already following this user.", d)) /\
  (edge_exists followerId followedId d = false ->
   rejects P d (DeleteFollow followerId followedId) = None ->
   unfollow P followerId followedId d
   = (json 404 false "You are not following this user or user not found.", d)).
Proof.
  intros Hid. split; [|split].
  - intros ->. unfold follow. rewrite (id_of_parseInt _ _ Hid).
    fold (num followerId). rewrite strict_eq_num, Z.eqb_refl.
    destruct (truthy body); cbn; split; reflexivity.
  - intros Hne Hnz He Hr. unfold follow.
    rewrite (id_of_truthy _ _ Hid Hnz), (id_of_parseInt _ _ Hid).
    fold (num followedId). rewrite strict_eq_num.
    destruct (Z.eqb_spec followerId followedId) as [|_]; [congruence|]. cbn [negb].
    unfold serve, try_catch, bind, execute, run_statement.
    cbn [params existsb]. rewrite (id_of_defined _ _ Hid). cbn [orb andb cur].
    unfold stored_id. rewrite Hr, Hid, He. reflexivity.
  - intros He Hr. unfold unfollow, serve, try_catch, bind, execute, run_statement.
    cbn [params existsb andb cur]. rewrite Hr.
    pose proof (edge_exists_filter followerId followedId d He) as Hnone.
    rewrite Hnone, (filter_none _ _ Hnone), set_follows_same. reflexivity.
Qed.

(** User 5 follows user 6. *)
Lemma follow_rejections_witness :
  (status (fst (follow reference 5 (num 5) garage)) = 400 /\
   status (fst (follow reference 5 (JStr "5") garage)) = 400) /\
  follow reference 5 (JStr "6") garage
  = (json 409 false "You are already following this user.", garage) /\
  unfollow reference 5 7 garage
  = (json 404 false "You are not following this user or user not found.", garage).
Proof.
  destruct (follow_rejections reference 5 5 (num 5) garage eq_refl) as (Hnum & _ & _).
  destruct (follow_rejections reference 5 5 (JStr "5") garage eq_refl) as (Hstr & _ & _).
  destruct (follow_rejections reference 5 6 (JStr "6") garage eq_refl) as (_ & Hdup & _).
  destruct (follow_rejections reference 5 7 (num 7) garage eq_refl) as (_ & _ & Hnone).
  split; [split; [apply Hnum|apply Hstr]; reflexivity|]. split.
  - apply Hdup; [lia|lia|reflexivity|reflexivity].
  - apply Hnone; reflexivity.
Defined.

(** *** Profile update *)

Lemma final_avatar_inr (P : platform) (userId : string) (now : Z) (avatar : jsval)
    (c c' : conn) (v : jsval) :
  final_avatar P userId now avatar c = (c', inr v) ->
  c' = c /\ v = stored_avatar userId now avatar.
Proof.
  unfold final_avatar, stored_avatar.
  destruct avatar as [| |[|]|[|neg|q]|a]; cbn [truthy strict_eq];
    try (inversion 1; subst; split; reflexivity);
    try (destruct (negb _); inversion 1; subst; split; reflexivity).
  destruct a as [|ch a]; [inversion 1; subst; split; reflexivity|].
  cbn [String.eqb negb].
  destruct (starts_with "data:image" (String ch a));
    [|inversion 1; subst; split; reflexivity].
  destruct (match_data_uri (String ch a)) as [[extension base64Data]|];
    [|inversion 1; subst; split; reflexivity].
  intros H. step H. apply io_inr in Hs. subst c0.
  step H. unfold execute in Hs. statement Hs. subst c0. rewrite conn_eta in H.
  step H.
  assert (c0 = c) as ->.
  { destruct (filter _ _) as [|u rest]; [now inversion Hs|]. cbv zeta in Hs.
    destruct (truthy (u_avatar_url u)); [|now inversion Hs].
    destruct (u_avatar_url u) as [| | | |existing]; try discriminate.
    destruct (starts_with avatar_dir existing); [|now inversion Hs].
    unfold try_catch, io in Hs. destruct (io_fails P (Unlink existing)); now inversion Hs. }
  clear Hs. step H. apply io_inr in Hs. subst. inversion H; subst. split; reflexivity.
Qed.

Lemma apply_sets_profile (b : profile_body) (avatar : jsval) (u : user) :
  apply_sets (profile_sets b avatar) u = profile_row b avatar u.
Proof.
  unfold profile_sets, profile_row.
  destruct (is_undefined (pf_name b)), (is_undefined (pf_bio b)); reflexivity.
Qed.

(** The store a profile update leaves when it answers 200, and the avatar
    it was sent with. *)
Lemma update_profile_committed (P : platform) (u : principal) (userId : string)
    (now : Z) (b : profile_body) (d : db) :
  status (fst (update_profile P u userId now b d)) = 200 ->
  snd (update_profile P u userId now b d)
  = set_users d
      (update_where (fun r => same_user P (u_id r) (JStr userId))
         (profile_row b (stored_avatar userId now (pf_avatar_url b))) (users d)) /\
  pf_avatar_url b <> JUndefined.
Proof.
  unfold update_profile.
  destruct (negb (own_profile u userId)); [discriminate|].
  unfold serve, try_catch.
  match goal with |- context [bind ?m ?k ?c] => destruct (bind m k c) as [c' [e|r]] eqn:H end.
  { discriminate. }
  intros _. cbn [fst snd].
  step H. apply final_avatar_inr in Hs. destruct Hs as [-> ->].
  assert (Hsets : exists s rest,
             profile_sets b (stored_avatar userId now (pf_avatar_url b)) = s :: rest).
  { unfold profile_sets.
    destruct (is_undefined (pf_name b)), (is_undefined (pf_bio b)); cbn; eauto. }
  destruct Hsets as (s & rest & Hsets). rewrite Hsets in H. rewrite <- Hsets in H.
  step H. pose proof (execute_inr_defined _ _ _ _ _ _ Hs) as Hdef.
  unfold execute in Hs. statement Hs. subst c.
  step H. unfold execute in Hs. statement Hs. subst c. injection H as <- _.
  split.
  - cbn [cur]. f_equal. apply update_where_ext. intros x. apply apply_sets_profile.
  - intros Hu. rewrite Hu in Hdef. cbn [params] in Hdef.
    unfold profile_sets in Hdef. rewrite !map_app, !existsb_app in Hdef.
    cbn in Hdef. now rewrite !orb_true_r in Hdef.
Qed.

(** C10. A profile update that omits avatar_url does not overwrite the
    stored avatar: the UPDATE binds the absent value, the driver refuses
    it, and the request is answered 500 "Failed to update profile." with
    every row as it was. The rest is as claimed: the avatar_url column is
    in the SET list of every profile update, display name and bio only when
    the request carries them, and an update that succeeds overwrites the
    stored avatar with the value the request yields, null for an empty
    string, for null and for a malformed data URI, the string itself or the
    path of the saved image otherwise. *)
Theorem update_profile_without_avatar_is_500 (P : platform) (u : principal)
    (userId : string) (now : Z) (b : profile_body) (d : db) :
  (forall v, In (avatar_url, v) (profile_sets b v) /\
             (In display_name (map fst (profile_sets b v)) -> pf_name b <> JUndefined) /\
             (In bio (map fst (profile_sets b v)) -> pf_bio b <> JUndefined)) /\
  (status (fst (update_profile P u userId now b d)) = 200 ->
   snd (update_profile P u userId now b d)
   = set_users d
       (update_where (fun r => same_user P (u_id r) (JStr userId))
          (profile_row b (stored_avatar userId now (pf_avatar_url b))) (users d))) /\
  stored_avatar userId now (JStr "") = JNull /\
  stored_avatar userId now JNull = JNull /\
  (forall a, starts_with "data:image" a = true -> match_data_uri a = None ->
             stored_avatar userId now (JStr a) = JNull) /\
  (pf_avatar_url b = JUndefined ->
   snd (update_profile P u userId now b d) = d /\
   status (fst (update_profile P u userId now b d)) <> 200 /\
   (own_profile u userId = true ->
    fst (update_profile P u userId now b d) = json 500 false "Failed to update profile.")).
Proof.
  split; [|split; [|split; [|split; [|split]]]].
  - intros v. unfold profile_sets. repeat split.
    + rewrite !in_app_iff. right. right. now left.
    + intros Hin Hu. rewrite Hu in Hin. cbn [is_undefined app] in Hin.
      destruct (is_undefined (pf_bio b)); cbn in Hin; intuition discriminate.
    + intros Hin Hu. rewrite Hu in Hin. cbn [is_undefined app] in Hin.
      destruct (is_undefined (pf_name b)); cbn in Hin; intuition discriminate.
  - intros Hok. exact (proj1 (update_profile_committed _ _ _ _ _ _ Hok)).
  - reflexivity.
  - reflexivity.
  - intros [|ch a] Hs Hm; [reflexivity|]. unfold stored_avatar. now rewrite Hs, Hm.
  - intros Hu. unfold update_profile. rewrite Hu.
    destruct (own_profile u userId); cbn [negb fst snd].
    2:{ repeat split; discriminate. }
    unfold serve, try_catch, bind, final_avatar, ret, profile_sets, execute, run_statement.
    cbn [truthy strict_eq].
    destruct (is_undefined (pf_name b)), (is_undefined (pf_bio b));
      cbn [app params map snd existsb is_undefined orb andb];
      rewrite ?orb_true_r; cbn [fst snd cur];
      repeat split; solve [reflexivity | discriminate].
Qed.

(** Ann sends a new name and no avatar_url: 500, and her row is as it was.
    With an empty avatar_url and neither name nor bio, her avatar is
    cleared. *)
Lemma update_profile_without_avatar_is_500_witness :
  update_profile reference ann_session "4" 1700 rename_only (set_users empty_db [ann])
  = (json 500 false "Failed to update profile.", set_users empty_db [ann]) /\
  snd (update_profile reference ann_session "4" 1700 clear_avatar (set_users empty_db [ann]))
  = set_users empty_db
      [{| u_id := 4; u_display_name := JStr "Ann"; u_bio := JStr "RX-7 owner";
          u_avatar_url := JNull |}].
Proof.
  destruct (update_profile_without_avatar_is_500 reference ann_session "4" 1700
              rename_only (set_users empty_db [ann]))
    as (_ & _ & _ & _ & _ & Homitted).
  destruct (update_profile_without_avatar_is_500 reference ann_session "4" 1700
              clear_avatar (set_users empty_db [ann]))
    as (_ & Hcleared & _).
  split.
  - destruct (Homitted eq_refl) as (Hdb & _ & Hres).
    apply injective_projections; [exact (Hres eq_refl)|exact Hdb].
  - rewrite (Hcleared eq_refl). reflexivity.
Defined.

(** *** Running a statement of the further routes *)

Lemma run_sql_inr {A} (refuses : db -> sql -> option exn) (prepared : bool) (s : sql)
    (effect : db -> exn + (db * A)) (c c' : conn) (a : A) :
  run_sql refuses prepared s effect c = (c', inr a) ->
  exists d, effect (cur c) = inr (d, a) /\ c' = {| cur := d; saved := saved c |}.
Proof.
  unfold run_sql.
  destruct (andb prepared _); [discriminate|].
  destruct (refuses (cur c) s); [discriminate|].
  destruct (effect (cur c)) as [e|[d x]]; [discriminate|].
  intros H. inversion H; subst. eauto.
Qed.

Ltac lookup H :=
  let d := fresh "d" in
  let He := fresh "He" in
  let Hd := fresh "Hd" in
  let Ha := fresh "Ha" in
  apply run_sql_inr in H; destruct H as (d & He & H);
  cbn [cur saved] in He; injection He as Hd Ha; subst d;
  try (match type of Ha with _ = ?x => subst x end).

Lemma preserves_run_sql {A} (I : conn -> Prop) (refuses : db -> sql -> option exn)
    (prepared : bool) (s : sql) (effect : db -> exn + (db * A)) :
  (forall c d a, effect (cur c) = inr (d, a) -> I c -> I {| cur := d; saved := saved c |}) ->
  preserves I (run_sql refuses prepared s effect).
Proof.
  intros He c c' r H Hc. unfold run_sql in H.
  destruct (andb prepared _); [now inversion H; subst|].
  destruct (refuses (cur c) s); [now inversion H; subst|].
  destruct (effect (cur c)) as [e|[d a]] eqn:E; inversion H; subst; eauto.
Qed.

Lemma run_sql_saved {A} (refuses : db -> sql -> option exn) (prepared : bool) (s : sql)
    (effect : db -> exn + (db * A)) (snapshot : option db) :
  preserves (fun c => saved c = snapshot) (run_sql refuses prepared s effect).
Proof. apply preserves_run_sql. intros c d a _ H. exact H. Qed.

(** A lookup leaves the rows alone, however it ends. *)
Lemma run_sql_reads {A} (refuses : db -> sql -> option exn) (prepared : bool) (s : sql)
    (rows : db -> A) (c c' : conn) (r : exn + A) :
  run_sql refuses prepared s (fun d => inr (d, rows d)) c = (c', r) -> c' = c.
Proof.
  unfold run_sql.
  destruct (andb prepared _); [now inversion 1|].
  destruct (refuses (cur c) s); [now inversion 1|].
  inversion 1; subst. apply conn_eta.
Qed.

(** A route parameter that spells an id selects the rows with that id. *)
Lemma id_is_spelled (P : platform) (param : string) (z id : Z) :
  id_of (JStr param) = Some z -> id_is P param id = (id =? z).
Proof. intros H. unfold id_is, same_user. now rewrite H. Qed.

Lemma filter_ext_eq {A} (p q : A -> bool) (l : list A) :
  (forall x, p x = q x) -> filter p l = filter q l.
Proof. intros H. apply filter_ext. exact H. Qed.

Lemma filter_filter_other {A} (key : A -> Z) (z other : Z) (l : list A) :
  other <> z ->
  filter (fun x => key x =? other) (filter (fun x => negb (key x =? z)) l)
  = filter (fun x => key x =? other) l.
Proof.
  intros Hne. induction l as [|x l IH]; [reflexivity|]. cbn [filter].
  destruct (Z.eqb_spec (key x) z) as [Hz|Hz]; cbn [negb filter].
  - destruct (Z.eqb_spec (key x) other); [congruence|exact IH].
  - now rewrite IH.
Qed.

(** *** Deleting a build *)

Lemma delete_build_committed (P : platform) (refuses : db -> sql -> option exn)
    (userId : Z) (buildId : string) (d : db) :
  status (fst (delete_build P refuses userId buildId d)) = 200 ->
  (exists owner others,
     filter (fun r => id_is P buildId (b_id r)) (builds d) = owner :: others /\
     b_user_id owner = userId) /\
  snd (delete_build P refuses userId buildId d)
  = set_builds
      (set_build_gallery
         (set_build_mods d
            (filter (fun m => negb (id_is P buildId (m_build_id m))) (build_mods d)))
         (filter (fun g => negb (id_is P buildId (g_build_id g))) (build_gallery d)))
      (filter (fun r => negb (id_is P buildId (b_id r))) (builds d)).
Proof.
  unfold delete_build, serve, try_catch.
  match goal with |- context [bind ?m ?k ?c] => destruct (bind m k c) as [c' [e|r]] eqn:H end.
  { unfold bind, rollback, ret. destruct (String.eqb _ _); discriminate. }
  intros _. cbn [fst snd].
  step H. apply beginTransaction_inr in Hs. subst. cbn [cur] in H.
  step H. lookup Hs. subst.
  destruct (filter (fun r => id_is P buildId (b_id r)) (builds d)) as [|owner others] eqn:Hrows;
    [discriminate|].
  destruct (Z.eqb_spec (b_user_id owner) userId) as [Hown|]; [|discriminate].
  cbn [negb] in H.
  step H. lookup Hs. subst.
  step H. lookup Hs. subst.
  step H. lookup Hs. subst.
  step H. apply commit_inr in Hs. injection H as <- _.
  split; [eauto|]. rewrite Hs. reflexivity.
Qed.

(** Deleting a build is all or nothing: every table is left as it was
    unless the answer is 200. *)
Theorem delete_build_all_or_nothing (P : platform) (refuses : db -> sql -> option exn)
    (userId : Z) (buildId : string) (d : db) :
  snd (delete_build P refuses userId buildId d) = d \/
  status (fst (delete_build P refuses userId buildId d)) = 200.
Proof.
  unfold delete_build.
  match goal with
  | |- context [try_catch (beginTransaction P ;; ?body) (fun e => rollback ;; @?reply e)] =>
      destruct (transaction_outcome P body reply d) as [Hsame|(c' & Hrun & Hdb)]
  end.
  - apply throws_within_bind; [apply run_sql_saved|].
    intros [|owner others]; [apply preserves_throws_within, preserves_throw|].
    destruct (negb _); [apply preserves_throws_within, preserves_throw|].
    do 3 (apply throws_within_bind; [apply run_sql_saved|intros _]).
    apply throws_within_commit.
  - intros e c. destruct (String.eqb _ _); eexists; reflexivity.
  - now left.
  - right. step Hrun. destruct a as [|owner others]; [discriminate|].
    destruct (negb _); [discriminate|].
    do 4 step Hrun. injection Hrun as _ <-. reflexivity.
Qed.
(** A delete that answers 200 removes the build of the given id with its
    gallery and its mods, the caller being its owner, and leaves every
    other row of every table as it was. *)
Theorem delete_build_cascade (P : platform) (refuses : db -> sql -> option exn)
    (userId : Z) (buildId : string) (z : Z) (d : db) :
  id_of (JStr buildId) = Some z ->
  status (fst (delete_build P refuses userId buildId d)) = 200 ->
  owner_of z d = Some userId /\
  snd (delete_build P refuses userId buildId d) = without_build z d /\
  owner_of z (without_build z d) = None /\
  gallery_of z (without_build z d) = [] /\
  mods_of z (without_build z d) = [] /\
  (forall other, other <> z ->
     owner_of other (without_build z d) = owner_of other d /\
     gallery_of other (without_build z d) = gallery_of other d /\
     mods_of other (without_build z d) = mods_of other d).
Proof.
  intros Hid Hok.
  destruct (delete_build_committed _ _ _ _ _ Hok) as [(owner & others & Hrows & Hown) Hdb].
  assert (Hsel : forall id, id_is P buildId id = (id =? z))
    by (intros id; now apply id_is_spelled).
  split; [|split; [|split; [|split; [|split]]]].
  - unfold owner_of. rewrite <- (filter_ext_eq _ _ (builds d) (fun r => Hsel (b_id r))).
    rewrite Hrows. now subst.
  - rewrite Hdb. unfold without_build.
    rewrite (filter_ext_eq _ _ (builds d) (fun r => f_equal negb (Hsel (b_id r)))).
    rewrite (filter_ext_eq _ _ (build_gallery d) (fun g => f_equal negb (Hsel (g_build_id g)))).
    rewrite (filter_ext_eq _ _ (build_mods d) (fun m => f_equal negb (Hsel (m_build_id m)))).
    reflexivity.
  - unfold owner_of, without_build. cbn [builds set_builds].
    now rewrite (filter_filter_negb (fun r => b_id r =? z)).
  - unfold gallery_of, without_build.
    cbn [build_gallery set_builds set_build_gallery].
    apply (filter_filter_negb (fun g => g_build_id g =? z)).
  - unfold mods_of, without_build.
    cbn [build_mods set_builds set_build_gallery set_build_mods].
    apply (filter_filter_negb (fun m => m_build_id m =? z)).
  - intros other Hne. unfold owner_of, gallery_of, mods_of, without_build.
    cbn [builds build_gallery build_mods set_builds set_build_gallery set_build_mods].
    rewrite !filter_filter_other by exact Hne. repeat split.
Qed.

(** User 7 deletes build 1 of the garage: build 2 keeps its image and its
    mod. *)
Lemma delete_build_cascade_witness :
  snd (delete_build reference accepts 7 "1" garage) = without_build 1 garage /\
  map g_image_url (build_gallery (without_build 1 garage)) = ["/uploads/D.png"] /\
  List.length (build_mods (without_build 1 garage)) = 1%nat.
Proof.
  destruct (delete_build_cascade reference accepts 7 "1" 1 garage eq_refl eq_refl)
    as (_ & Hdb & _).
  split; [exact Hdb|]. split; reflexivity.
Defined.

(** When no build has the given id, or its owner is not the caller, a
    delete leaves every table as it was, and once the transaction is open
    and the ownership query answered it fails with 403 in both cases. *)
Theorem delete_build_not_owner_403 (P : platform) (refuses : db -> sql -> option exn)
    (userId : Z) (buildId : string) (z : Z) (d : db) :
  id_of (JStr buildId) = Some z ->
  owner_of z d <> Some userId ->
  snd (delete_build P refuses userId buildId d) = d /\
  (rejects P d BeginTransaction = None ->
   refuses d (SelectOwnerForUpdate buildId) = None ->
   fst (delete_build P refuses userId buildId d) = json 403 false "Unauthorized").
Proof.
  intros Hid Hown.
  assert (Hsel : forall id, id_is P buildId id = (id =? z))
    by (intros id; now apply id_is_spelled).
  unfold delete_build, serve, try_catch, bind, beginTransaction, run_sql; cbn.
  destruct (rejects P d BeginTransaction) eqn:Hb; cbn.
  { split; [destruct (String.eqb _ _); reflexivity|intros; congruence]. }
  destruct (refuses d (SelectOwnerForUpdate buildId)) eqn:Hs; cbn.
  { split; [destruct (String.eqb _ _); reflexivity|intros; congruence]. }
  unfold owner_of in Hown.
  rewrite (filter_ext_eq _ _ (builds d) (fun r => Hsel (b_id r))).
  destruct (filter (fun r => b_id r =? z) (builds d)) as [|owner rest]; cbn.
  { split; reflexivity. }
  destruct (b_user_id owner =? userId) eqn:E; cbn.
  { apply Z.eqb_eq in E. subst. congruence. }
  split; reflexivity.
Qed.

(** User 8 deletes build 1 of user 7, and user 7 a build that does not
    exist. *)
Lemma delete_build_not_owner_403_witness :
  delete_build reference accepts 8 "1" garage = (json 403 false "Unauthorized", garage) /\
  delete_build reference accepts 7 "99" garage = (json 403 false "Unauthorized", garage).
Proof.
  destruct (delete_build_not_owner_403 reference accepts 8 "1" 1 garage eq_refl)
    as [Hdb Hres]; [vm_compute; discriminate|].
  destruct (delete_build_not_owner_403 reference accepts 7 "99" 99 garage eq_refl)
    as [Hdb' Hres']; [vm_compute; discriminate|].
  split; apply injective_projections; cbn [fst snd];
    solve [apply Hres; reflexivity | apply Hres'; reflexivity | exact Hdb | exact Hdb'].
Defined.
(** *** Creating a build: what it writes *)

Lemma insert_gallery_inr (P : platform) (id : Z) (urls : list string) :
  forall (c c' : conn) (u : unit),
    for_each urls (insert_gallery P id) c = (c', inr u) ->
    c' = {| cur := set_build_gallery (cur c)
                     (build_gallery (cur c)
                      ++ map (fun url => {| g_build_id := id; g_image_url := url |}) urls);
            saved := saved c |}.
Proof.
  induction urls as [|x urls IH]; intros c c' u H; cbn [for_each] in H.
  - inversion H; subst. cbn. rewrite app_nil_r. destruct c' as [[] ?]; reflexivity.
  - step H. unfold insert_gallery, execute in Hs. statement Hs. subst c0.
    apply IH in H. subst c'. cbn. now rewrite <- app_assoc.
Qed.

Lemma create_mods_inr (P : platform) (id : Z) (files : list file)
    (mods : list (option mod_input)) :
  forall (i : nat) (c c' : conn) (u : unit),
    create_mods P id files i mods c = (c', inr u) ->
    exists entries,
      mods = map Some entries /\
      forallb named entries = true /\
      c' = {| cur := set_build_mods (cur c)
                       (build_mods (cur c) ++ created_mods id files i entries);
              saved := saved c |}.
Proof.
  induction mods as [|[m|] rest IH]; intros i c c' u H; cbn [create_mods] in H.
  - exists []. inversion H; subst. repeat split. cbn. rewrite app_nil_r.
    destruct c' as [[] ?]; reflexivity.
  - step H. pose proof (execute_inr_defined _ _ _ _ _ _ Hs) as Hdef.
    unfold execute in Hs. statement Hs. subst c0.
    apply IH in H. destruct H as (entries & -> & Hnamed & ->).
    exists (m :: entries). split; [reflexivity|]. split.
    + cbn [forallb]. rewrite Hnamed, andb_true_r. unfold named.
      cbn [params existsb] in Hdef.
      apply orb_false_elim in Hdef. destruct Hdef as [Hm Hdef].
      apply orb_false_elim in Hdef. destruct Hdef as [_ Hdef].
      apply orb_false_elim in Hdef. destruct Hdef as [Hn _].
      now rewrite Hm, Hn.
    + cbn [cur saved build_mods set_build_mods created_mods]. now rewrite <- app_assoc.
  - step H. discriminate.
Qed.

(** A creation that answers 201 has written the build row, one gallery row
    per gallery file and one mod row per entry, and nothing else. *)
Lemma create_build_created (P : platform) (userId : Z) (b : create_build_body) (d : db) :
  status (fst (create_build P userId b d)) = 201 ->
  exists entries,
    cb_mods b = Some (map Some entries) /\
    forallb named entries = true /\
    snd (create_build P userId b d) = created P userId b entries d.
Proof.
  unfold create_build, serve, try_catch.
  destruct (cb_mods b) as [mods|]; [|discriminate].
  match goal with |- context [bind ?m ?k ?c] => destruct (bind m k c) as [c' [e|r]] eqn:H end.
  { discriminate. }
  intros _. cbn [fst snd].
  step H. unfold insert_build, execute in Hs. statement Hs. subst c.
  step H. apply insert_gallery_inr in Hs. subst c.
  step H. apply create_mods_inr in Hs. destruct Hs as (entries & -> & Hnamed & ->).
  injection H as <- _. exists entries. split; [reflexivity|]. split; [exact Hnamed|].
  unfold created, gallery_row. cbn. now rewrite map_map.
Qed.

Lemma insert_gallery_healthy (P : platform) (id : Z) (urls : list string) :
  healthy P ->
  forall c : conn,
    for_each urls (insert_gallery P id) c
    = ({| cur := set_build_gallery (cur c)
                   (build_gallery (cur c)
                    ++ map (fun url => {| g_build_id := id; g_image_url := url |}) urls);
          saved := saved c |}, inr tt).
Proof.
  intros Hh. induction urls as [|x urls IH]; intros c.
  - cbn. rewrite app_nil_r. destruct c as [[] ?]; reflexivity.
  - cbn [for_each]. unfold bind, insert_gallery, execute, run_statement.
    cbn [params existsb andb]. rewrite Hh, IH. cbn. now rewrite <- app_assoc.
Qed.

Lemma named_defined (m : mod_input) (image : jsval) :
  named m = true ->
  is_undefined image = false ->
  existsb is_undefined
    [mi_main m; or (mi_sub m) JNull; mi_name m; image; or (mi_details m) JNull] = false.
Proof.
  unfold named. intros H Hi. apply andb_prop in H. destruct H as [Hm Hn].
  apply negb_true_iff in Hm, Hn. cbn [existsb]. rewrite Hm, Hn, Hi. cbn [orb].
  unfold or. destruct (truthy (mi_sub m)) eqn:Es, (truthy (mi_details m)) eqn:Ed;
    destruct (mi_sub m), (mi_details m); try discriminate; reflexivity.
Qed.

Lemma create_mods_healthy (P : platform) (id : Z) (files : list file)
    (entries : list mod_input) :
  healthy P ->
  forallb named entries = true ->
  forall (i : nat) (c : conn),
    create_mods P id files i (map Some entries) c
    = ({| cur := set_build_mods (cur c)
                   (build_mods (cur c) ++ created_mods id files i entries);
          saved := saved c |}, inr tt).
Proof.
  intros Hh. induction entries as [|m rest IH]; intros Hnamed i c.
  - cbn. rewrite app_nil_r. destruct c as [[] ?]; reflexivity.
  - cbn [forallb] in Hnamed. apply andb_prop in Hnamed. destruct Hnamed as [Hm Hrest].
    cbn [map create_mods created_mods].
    unfold bind, execute, run_statement. cbn [params].
    rewrite (named_defined m _ Hm (url_at_defined files i)). cbn [andb].
    rewrite Hh, (IH Hrest). cbn [cur saved build_mods set_build_mods].
    now rewrite <- app_assoc.
Qed.

Lemma created_mods_images (id : Z) (files : list file) (entries : list mod_input) :
  forall i,
    map m_image_url (created_mods id files i entries)
    = map (url_at files) (seq i (List.length entries)).
Proof.
  induction entries as [|m rest IH]; intros i; [reflexivity|].
  cbn [created_mods map List.length seq m_image_url mod_row]. now rewrite IH.
Qed.

(** With an engine that refuses nothing, a creation whose car name and
    model are present and whose mod entries each carry [main] and [name]
    answers 201 and writes the build row, one gallery row per gallery file
    in the order of the upload, and one mod row per entry; the entry at
    position i gets the mod image at position i, flagged or not, and none
    beyond the uploaded files. *)
Theorem create_build_succeeds (P : platform) (userId : Z) (b : create_build_body)
    (d : db) (entries : list mod_input) :
  healthy P ->
  cb_mods b = Some (map Some entries) ->
  is_undefined (cb_car_name b) = false ->
  is_undefined (cb_model b) = false ->
  forallb named entries = true ->
  create_build P userId b d = (json 201 true "", created P userId b entries d) /\
  map m_image_url
    (created_mods (insert_id P d (build_insert userId b)) (modImages (cb_files b)) 0 entries)
  = map (url_at (modImages (cb_files b))) (seq 0 (List.length entries)).
Proof.
  intros Hh Hmods Hname Hmodel Hnamed. split; [|apply created_mods_images].
  unfold create_build, serve, try_catch. rewrite Hmods.
  unfold bind at 1, insert_build, execute, run_statement.
  fold (build_insert userId b). cbn [params build_insert existsb cur saved].
  rewrite Hname, Hmodel, !default_to_defined, !url_at_defined by reflexivity.
  cbn [orb andb]. rewrite Hh.
  unfold bind at 1. rewrite insert_gallery_healthy by exact Hh.
  unfold bind at 1. rewrite create_mods_healthy by assumption.
  unfold ret, created, inserted_build, gallery_row. cbn. now rewrite map_map.
Qed.

(** Two mods and one mod image: the image goes to the first entry, though
    only the second is flagged. *)
Lemma create_build_succeeds_witness :
  status (fst (create_build reference 7 create_unflagged_first empty_db)) = 201 /\
  map m_image_url (build_mods (snd (create_build reference 7 create_unflagged_first empty_db)))
  = [JStr "/uploads/m1.png"; JNull].
Proof.
  destruct (create_build_succeeds reference 7 create_unflagged_first empty_db
              [coilovers; turbo] (fun _ _ => eq_refl) eq_refl eq_refl eq_refl eq_refl)
    as [Hrun Himg].
  rewrite Hrun. split; reflexivity.
Defined.

(** A creation without car name or without model is answered with 500, not
    with a validation error, and writes nothing. *)
Theorem create_build_missing_field (P : platform) (userId : Z) (b : create_build_body)
    (d : db) :
  cb_mods b <> None ->
  is_undefined (cb_car_name b) = true \/ is_undefined (cb_model b) = true ->
  create_build P userId b d = (json 500 false "Server error", d).
Proof.
  intros Hmods Hmissing. unfold create_build, serve, try_catch.
  destruct (cb_mods b) as [mods|]; [|congruence].
  unfold bind at 1, insert_build, execute, run_statement. cbn [params].
  assert (Hundef : forall x y z u v,
             existsb is_undefined [x; cb_car_name b; cb_model b; y; z; u; v] = true).
  { intros. cbn [existsb].
    destruct Hmissing as [-> | ->]; rewrite ?orb_true_r; reflexivity. }
  rewrite Hundef. reflexivity.
Qed.

Lemma create_build_missing_field_witness :
  create_build reference 7 create_without_model garage
  = (json 500 false "Server error", garage).
Proof.
  apply create_build_missing_field; [discriminate|right; reflexivity].
Defined.

(** *** Creating a build, then deleting or fetching it *)

Lemma owner_of_none (z : Z) (d : db) :
  owner_of z d = None -> filter (fun r => b_id r =? z) (builds d) = [].
Proof. unfold owner_of. now destruct (filter _ _). Qed.

Lemma filter_negb_all {A} (p : A -> bool) (l : list A) :
  (forall x, In x l -> p x = true) -> filter (fun x => negb (p x)) l = [].
Proof.
  induction l as [|x l IH]; cbn; intros H; [reflexivity|].
  rewrite (H x (or_introl eq_refl)). cbn. apply IH. auto.
Qed.

Lemma created_mods_build_id (id : Z) (files : list file) (entries : list mod_input) :
  forall i r, In r (created_mods id files i entries) -> m_build_id r = id.
Proof.
  induction entries as [|m rest IH]; intros i r; cbn [created_mods]; [intros []|].
  intros [<-|Hin]; [reflexivity|]. eapply IH; eassumption.
Qed.

(** With an engine that refuses nothing, the owner's delete goes through. *)
Lemma delete_build_succeeds (P : platform) (refuses : db -> sql -> option exn)
    (userId : Z) (buildId : string) (z : Z) (d : db) :
  healthy P ->
  willing refuses ->
  id_of (JStr buildId) = Some z ->
  owner_of z d = Some userId ->
  delete_build P refuses userId buildId d = (json 200 true "", without_build z d).
Proof.
  intros Hh Hw Hid Hown.
  assert (Hsel : forall id, id_is P buildId id = (id =? z))
    by (intros id; now apply id_is_spelled).
  unfold delete_build, serve, try_catch, bind, beginTransaction, commit, run_sql.
  repeat (progress (cbn [andb cur saved]; rewrite ?Hh, ?Hw)).
  unfold owner_of in Hown.
  rewrite (filter_ext_eq _ _ (builds d) (fun r => Hsel (b_id r))).
  destruct (filter (fun r => b_id r =? z) (builds d)) as [|owner others]; [discriminate|].
  injection Hown as ->. rewrite Z.eqb_refl. cbn [negb].
  repeat (progress (cbn [andb cur saved]; rewrite ?Hh, ?Hw)).
  unfold ret, without_build. cbn.
  rewrite (filter_ext_eq _ _ (builds d) (fun r => f_equal negb (Hsel (b_id r)))).
  rewrite (filter_ext_eq _ _ (build_gallery d) (fun g => f_equal negb (Hsel (g_build_id g)))).
  rewrite (filter_ext_eq _ _ (build_mods d) (fun m => f_equal negb (Hsel (m_build_id m)))).
  reflexivity.
Qed.

Lemma without_created (P : platform) (userId : Z) (b : create_build_body)
    (entries : list mod_input) (d : db) :
  unused (insert_id P d (build_insert userId b)) d ->
  without_build (insert_id P d (build_insert userId b)) (created P userId b entries d) = d.
Proof.
  intros (Hb & Hg & Hm). apply owner_of_none in Hb. unfold gallery_of in Hg.
  unfold mods_of in Hm. unfold without_build, created. cbv zeta.
  cbn [builds build_gallery build_mods set_builds set_build_gallery set_build_mods].
  set (id := insert_id P d (build_insert userId b)) in *.
  rewrite !filter_app.
  rewrite (filter_none (fun r => b_id r =? id) _ Hb).
  rewrite (filter_none (fun g => g_build_id g =? id) _ Hg).
  rewrite (filter_none (fun m => m_build_id m =? id) _ Hm).
  rewrite (filter_negb_all (fun m => m_build_id m =? id)).
  2:{ intros r Hr. apply created_mods_build_id in Hr. now apply Z.eqb_eq. }
  rewrite (filter_negb_all (fun g => g_build_id g =? id)).
  2:{ intros g Hin. apply in_map_iff in Hin. destruct Hin as (f & <- & _). apply Z.eqb_refl. }
  cbn [filter inserted_build b_id]. fold id. rewrite Z.eqb_refl. cbn [negb].
  rewrite !app_nil_r. destruct d; reflexivity.
Qed.

(** Creating a build under an id that no row carries yet and deleting it
    again, as its creator, gives back the store as it was before. *)
Theorem create_then_delete (P : platform) (refuses : db -> sql -> option exn)
    (userId : Z) (b : create_build_body) (d : db) (param : string) :
  healthy P ->
  willing refuses ->
  status (fst (create_build P userId b d)) = 201 ->
  id_of (JStr param) = Some (insert_id P d (build_insert userId b)) ->
  unused (insert_id P d (build_insert userId b)) d ->
  delete_build P refuses userId param (snd (create_build P userId b d))
  = (json 200 true "", d).
Proof.
  intros Hh Hw Hok Hid Hfresh.
  destruct (create_build_created _ _ _ _ Hok) as (entries & _ & _ & ->).
  rewrite (delete_build_succeeds P refuses userId param _ _ Hh Hw Hid).
  - now rewrite without_created.
  - destruct Hfresh as (Hb & _). apply owner_of_none in Hb.
    unfold owner_of, created. cbv zeta. cbn [builds set_builds set_build_gallery set_build_mods].
    rewrite filter_app, Hb. cbn [filter inserted_build b_id app].
    now rewrite Z.eqb_refl.
Qed.

(** User 7 creates build 1 and deletes it. *)
Lemma create_then_delete_witness :
  List.length (builds (snd (create_build reference 7 create_with_covers reviewed))) = 1%nat /\
  delete_build reference accepts 7 "1"
    (snd (create_build reference 7 create_with_covers reviewed))
  = (json 200 true "", reviewed).
Proof.
  split; [reflexivity|].
  apply create_then_delete;
    [intros d s; reflexivity|intros d s; reflexivity|reflexivity|reflexivity|].
  repeat split.
Defined.

Lemma get_build_found (P : platform) (refuses : db -> sql -> option exn)
    (viewer : Z) (param : string) (d : db) (row : build) (rest : list build) :
  willing refuses ->
  viewer <> 0 ->
  joined_builds P param d = row :: rest ->
  get_build P refuses viewer param d
  = (inr {| bv_build := row;
            bv_coverImages := filter truthy [b_cover_image row; b_cover_image2 row];
            bv_galleryImages :=
              map g_image_url
                (filter (fun g => id_is P param (g_build_id g)) (build_gallery d));
            bv_mods := filter (fun m => id_is P param (m_build_id m)) (build_mods d);
            bv_isOwner := b_user_id row =? viewer |}, d).
Proof.
  intros Hw Hv Hrows. unfold get_build.
  destruct (Z.eqb_spec viewer 0); [contradiction|].
  unfold serve_data, try_catch, bind, run_sql. cbn [bound existsb andb cur saved].
  rewrite Hw, Hrows. cbn [cur saved]. rewrite !Hw. reflexivity.
Qed.

Lemma cover_images (files : list file) :
  filter truthy [url_at files 0; url_at files 1]
  = map (fun f => JStr (upload_url f)) (firstn 2 files).
Proof.
  assert (Hup : forall f, truthy (JStr (upload_url f)) = true) by reflexivity.
  destruct files as [|f [|g rest]]; cbn [url_at nth_error filter firstn map];
    rewrite ?Hup; reflexivity.
Qed.

(** A build created under an id that no row carries yet, by a user who has
    a user row, is what a following GET of that id returns: the row as it
    was written, the first two cover images, the gallery images in the
    order of the upload, one mod per entry, and [isOwner] for its creator
    only. *)
Theorem create_then_get (P : platform) (refuses : db -> sql -> option exn)
    (userId viewer : Z) (b : create_build_body) (d : db) (param : string) :
  willing refuses ->
  viewer <> 0 ->
  status (fst (create_build P userId b d)) = 201 ->
  id_of (JStr param) = Some (insert_id P d (build_insert userId b)) ->
  unused (insert_id P d (build_insert userId b)) d ->
  user_of userId d <> None ->
  exists entries,
    cb_mods b = Some (map Some entries) /\
    get_build P refuses viewer param (snd (create_build P userId b d))
    = (inr {| bv_build := inserted_build P userId b d;
              bv_coverImages :=
                map (fun f => JStr (upload_url f)) (firstn 2 (coverImages (cb_files b)));
              bv_galleryImages := map upload_url (galleryImages (cb_files b));
              bv_mods :=
                created_mods (insert_id P d (build_insert userId b))
                  (modImages (cb_files b)) 0 entries;
              bv_isOwner := userId =? viewer |},
       snd (create_build P userId b d)).
Proof.
  intros Hw Hv Hok Hid (Hb & Hg & Hm) Hu.
  destruct (create_build_created _ _ _ _ Hok) as (entries & Hmods & _ & ->).
  exists entries. split; [exact Hmods|].
  assert (Hsel : forall id, id_is P param id = (id =? insert_id P d (build_insert userId b)))
    by (intros id; now apply id_is_spelled).
  set (z := insert_id P d (build_insert userId b)) in *.
  apply owner_of_none in Hb. unfold gallery_of in Hg. unfold mods_of in Hm.
  unfold user_of in Hu.
  destruct (filter (fun u => u_id u =? userId) (users d)) as [|u us] eqn:Hus; [congruence|].
  rewrite (get_build_found P refuses viewer param _ (inserted_build P userId b d)
             (map (fun _ => inserted_build P userId b d) us) Hw Hv).
  - f_equal. unfold created. cbv zeta. fold z.
    cbn [build_gallery build_mods set_builds set_build_gallery set_build_mods].
    rewrite (filter_ext_eq _ _ _ (fun g => Hsel (g_build_id g))).
    rewrite (filter_ext_eq _ _ _ (fun m => Hsel (m_build_id m))).
    rewrite !filter_app, Hg, Hm. cbn [app].
    rewrite (filter_all (fun m => m_build_id m =? z)).
    2:{ intros r Hr. apply created_mods_build_id in Hr. now apply Z.eqb_eq. }
    rewrite (filter_all (fun g => g_build_id g =? z)).
    2:{ intros g Hin. apply in_map_iff in Hin. destruct Hin as (f & <- & _). apply Z.eqb_refl. }
    rewrite map_map. cbn [gallery_row g_image_url inserted_build b_cover_image
                            b_cover_image2 b_user_id].
    now rewrite cover_images.
  - unfold joined_builds, created. cbv zeta. fold z.
    cbn [builds users set_builds set_build_gallery set_build_mods].
    rewrite (filter_ext_eq _ _ _ (fun r => Hsel (b_id r))).
    rewrite filter_app, Hb. cbn [app filter inserted_build b_id]. fold z.
    rewrite Z.eqb_refl. cbn [flat_map]. cbn [inserted_build b_user_id].
    rewrite Hus, app_nil_r. reflexivity.
Qed.

(** Joe creates a build with three cover images; Ann fetches it. *)
Lemma create_then_get_witness :
  exists view,
    fst (get_build reference accepts 4 "1"
           (snd (create_build reference 7 create_with_covers members)))
    = inr view /\
    bv_coverImages view = [JStr "/uploads/c1.png"; JStr "/uploads/c2.png"] /\
    bv_galleryImages view = ["/uploads/g1.png"; "/uploads/g2.png"] /\
    List.length (bv_mods view) = 1%nat /\
    bv_isOwner view = false.
Proof.
  destruct (create_then_get reference accepts 7 4 create_with_covers members "1")
    as (entries & Hmods & Hget);
    [intros d s; reflexivity|lia|reflexivity|reflexivity|repeat split|discriminate|].
  destruct entries as [|entry [|]]; try discriminate. injection Hmods as <-.
  eexists. rewrite Hget. cbn [fst]. repeat split.
Defined.

(** A build whose owner has no user row is answered as not found, although
    the build row exists; so is an id that no build carries. *)
Theorem get_build_without_owner_row (P : platform) (refuses : db -> sql -> option exn)
    (viewer : Z) (param : string) (d : db) :
  viewer <> 0 ->
  refuses d (SelectBuildJoined param) = None ->
  (forall r, In r (builds d) -> id_is P param (b_id r) = true -> user_of (b_user_id r) d = None) ->
  get_build P refuses viewer param d
  = (inl (json 404 false "Build not found or access denied"), d).
Proof.
  intros Hv Hr Horphan. unfold get_build.
  destruct (Z.eqb_spec viewer 0); [contradiction|].
  unfold serve_data, try_catch, bind, run_sql. cbn [bound existsb andb cur saved].
  rewrite Hr.
  assert (Hnone : joined_builds P param d = []).
  { unfold joined_builds.
    assert (Hin : forall r, In r (filter (fun r => id_is P param (b_id r)) (builds d)) ->
                            user_of (b_user_id r) d = None).
    { intros r Hin. apply filter_In in Hin. now apply Horphan. }
    induction (filter (fun r => id_is P param (b_id r)) (builds d)) as [|r rows IH];
      [reflexivity|].
    cbn [flat_map]. rewrite IH by (intros r' Hr'; apply Hin; now right).
    specialize (Hin r (or_introl eq_refl)). unfold user_of in Hin.
    destruct (filter (fun u => u_id u =? b_user_id r) (users d)); [reflexivity|discriminate]. }
  rewrite Hnone. reflexivity.
Qed.

(** The garage has no user rows: its owner cannot fetch build 1. *)
Lemma get_build_without_owner_row_witness :
  owner_of 1 garage = Some 7 /\
  get_build reference accepts 7 "1" garage
  = (inl (json 404 false "Build not found or access denied"), garage).
Proof.
  split; [reflexivity|].
  apply get_build_without_owner_row; [lia|reflexivity|].
  intros r _ _. reflexivity.
Defined.

(** *** Updating a build: the build row *)

Lemma update_where_twice {A} (p : A -> bool) (f g : A -> A) (l : list A) :
  (forall x, p (f x) = p x) ->
  update_where p g (update_where p f l) = update_where p (fun x => g (f x)) l.
Proof.
  intros Hp. unfold update_where. rewrite map_map. apply map_ext. intros x.
  destruct (p x) eqn:E; [now rewrite Hp, E|now rewrite E].
Qed.

Lemma filter_update_where {A} (p : A -> bool) (f : A -> A) (l : list A) :
  (forall x, p (f x) = p x) ->
  filter p (update_where p f l) = map f (filter p l).
Proof.
  intros Hp. induction l as [|x l IH]; [reflexivity|]. cbn [update_where map filter].
  destruct (p x) eqn:E.
  - rewrite Hp, E. cbn [map]. f_equal. exact IH.
  - rewrite E. exact IH.
Qed.

Lemma map_update_where {A B} (key : A -> B) (p : A -> bool) (f : A -> A) (l : list A) :
  (forall x, key (f x) = key x) -> map key (update_where p f l) = map key l.
Proof.
  intros Hk. unfold update_where. rewrite map_map. apply map_ext. intros x.
  now destruct (p x).
Qed.

Lemma covers_scalar (b : update_build_body) (kc : list jsval) (i : nat) :
  nth i (map Scalar kc
         ++ map (fun f => Scalar (JStr (upload_url f))) (coverImages (ub_files b)))%list
      (Scalar JUndefined)
  = Scalar (nth i (all_covers b kc) JUndefined).
Proof.
  unfold all_covers.
  rewrite <- (map_map (fun f => JStr (upload_url f)) Scalar), <- map_app.
  apply (map_nth Scalar).
Qed.

Lemma update_build_rows (P : platform) (userId buildId : Z)
    (b : update_build_body) (d : db) (f : build_fields) (kc : list jsval) :
  plain b f kc ->
  status (fst (update_build P userId buildId b d)) = 200 ->
  builds (snd (update_build P userId buildId b d))
  = update_where (fun r => b_id r =? buildId) (updated f (all_covers b kc)) (builds d) /\
  event_registrations (snd (update_build P userId buildId b d)) = event_registrations d /\
  registered_cars (snd (update_build P userId buildId b d)) = registered_cars d /\
  business_reviews (snd (update_build P userId buildId b d)) = business_reviews d /\
  follows (snd (update_build P userId buildId b d)) = follows d /\
  users (snd (update_build P userId buildId b d)) = users d.
Proof.
  intros (Hf1 & Hf2 & Hf3 & Hf4 & Hf5 & Hkc). unfold update_build. cbv zeta.
  rewrite Hf1, Hf2, Hf3, Hf4, Hf5, Hkc. rewrite !covers_scalar.
  cbn [value_nullish value_or].
  destruct (ub_keepGallery b) as [kg|]; [|discriminate].
  destruct (ub_mods b) as [ms|]; [|discriminate].
  unfold serve, try_catch.
  match goal with |- context [bind ?m ?k ?c] => destruct (bind m k c) as [c' [e|r]] eqn:H end.
  { unfold bind, rollback, ret. destruct (String.eqb _ _); discriminate. }
  intros _. cbn [fst snd].
  step H. apply beginTransaction_inr in Hs. subst. cbn [cur] in H.
  step H. unfold query in Hs. statement Hs. subst.
  destruct (filter (fun r => b_id r =? buildId) (builds d)) as [|owner others];
    [discriminate|].
  destruct (b_user_id owner =? userId); [|discriminate].
  cbn [negb] in H.
  step H. unfold update_fields, query in Hs. statement Hs. subst.
  step H. unfold update_covers, query in Hs. statement Hs. subst.
  step H. unfold delete_gallery_not_in, query in Hs. statement Hs. subst.
  step H.
  assert (Hgal : builds (cur c)
                 = update_where (fun r => b_id r =? buildId)
                     (updated f (all_covers b kc)) (builds d) /\
                 event_registrations (cur c) = event_registrations d /\
                 registered_cars (cur c) = registered_cars d /\
                 business_reviews (cur c) = business_reviews d /\
                 follows (cur c) = follows d /\ users (cur c) = users d).
  { assert (Hb : update_where (fun r => b_id r =? buildId)
                   (fun r => {| b_id := b_id r; b_user_id := b_user_id r;
                                b_ownership_status := b_ownership_status r;
                                b_car_name := b_car_name r; b_model := b_model r;
                                b_description := b_description r;
                                b_body_style := b_body_style r;
                                b_cover_image :=
                                  or (nth 0 (all_covers b kc) JUndefined) JNull;
                                b_cover_image2 :=
                                  or (nth 1 (all_covers b kc) JUndefined) JNull |})
                   (update_where (fun r => b_id r =? buildId)
                      (fun r => {| b_id := b_id r; b_user_id := b_user_id r;
                                   b_ownership_status := nullish (f_ownership f) (JStr "");
                                   b_car_name := nullish (f_car_name f) (JStr "");
                                   b_model := nullish (f_model f) (JStr "");
                                   b_description := nullish (f_description f) (JStr "");
                                   b_body_style := nullish (f_bodyStyle f) JNull;
                                   b_cover_image := b_cover_image r;
                                   b_cover_image2 := b_cover_image2 r |})
                      (builds d))
                 = update_where (fun r => b_id r =? buildId)
                     (updated f (all_covers b kc)) (builds d)).
    { rewrite update_where_twice by reflexivity. reflexivity. }
    destruct (galleryImages (ub_files b)) as [|g gs].
    - injection Hs as <- _. cbn. repeat split. exact Hb.
    - unfold insert_gallery_rows, query in Hs. statement Hs. subst c.
      cbn. repeat split. exact Hb. }
  clear Hs. destruct Hgal as (Hbuilds & Hreg & Hcars & Hrev & Hfol & Hus).
  step H. unfold delete_mods, query in Hs. statement Hs. subst.
  step H. apply reinsert_mods_inr in Hs. destruct Hs as (entries & -> & ->).
  step H. apply commit_inr in Hs. injection H as <- <-.
  rewrite Hs. cbn. repeat split; assumption.
Qed.

Lemma cover_pair (covers : list jsval) :
  filter truthy [or (nth 0 covers JUndefined) JNull; or (nth 1 covers JUndefined) JNull]
  = filter truthy (firstn 2 covers).
Proof.
  destruct covers as [|x [|y rest]]; cbn [nth firstn]; unfold or; cbn [truthy filter];
    try reflexivity.
  - destruct (truthy x) eqn:Ex; cbn [filter truthy]; now rewrite ?Ex.
  - destruct (truthy x) eqn:Ex, (truthy y) eqn:Ey; cbn [filter truthy];
      now rewrite ?Ex, ?Ey.
Qed.

Lemma recover_plain :
  plain recover recovered [JStr ""; JStr "/uploads/k2.png"; JStr "/uploads/k3.png"].
Proof. repeat split. Defined.

(** A build update that carries no object and no array in its five text
    fields and in its kept covers, and that answers 200: every row of the
    build holds the five fields of the request, an absent or null one as
    the empty string (null for the body style), and as its two cover images
    the first two of the kept covers followed by the uploaded ones, null
    where there is none or an empty one; the rows of the other builds are
    as before. *)
Theorem update_build_fields_and_covers (P : platform) (userId buildId : Z)
    (b : update_build_body) (d : db) (f : build_fields) (kc : list jsval) :
  plain b f kc ->
  status (fst (update_build P userId buildId b d)) = 200 ->
  let d' := snd (update_build P userId buildId b d) in
  builds d'
  = update_where (fun r => b_id r =? buildId) (updated f (all_covers b kc)) (builds d) /\
  (forall r, In r (builds d') -> b_id r = buildId ->
     b_ownership_status r = nullish (f_ownership f) (JStr "") /\
     b_car_name r = nullish (f_car_name f) (JStr "") /\
     b_model r = nullish (f_model f) (JStr "") /\
     b_description r = nullish (f_description f) (JStr "") /\
     b_body_style r = nullish (f_bodyStyle f) JNull /\
     filter truthy [b_cover_image r; b_cover_image2 r]
     = filter truthy (firstn 2 (all_covers b kc))) /\
  (forall r, b_id r <> buildId -> In r (builds d') <-> In r (builds d)).
Proof.
  intros Hplain Hok. cbv zeta.
  destruct (update_build_rows _ _ _ _ _ _ _ Hplain Hok) as (Hb & _). rewrite Hb.
  split; [reflexivity|]. split.
  - intros r Hin Hid. unfold update_where in Hin. apply in_map_iff in Hin.
    destruct Hin as (r0 & Hr & _).
    destruct (Z.eqb_spec (b_id r0) buildId) as [E|E]; [|congruence].
    subst r. cbn [updated b_ownership_status b_car_name b_model b_description
                    b_body_style b_cover_image b_cover_image2].
    repeat split. apply cover_pair.
  - intros r Hne. unfold update_where. rewrite in_map_iff. split.
    + intros (r0 & Hr & Hin).
      destruct (Z.eqb_spec (b_id r0) buildId) as [E|E]; [|now subst].
      subst r. cbn in Hne. contradiction.
    + intros Hin. exists r. split; [|exact Hin].
      destruct (Z.eqb_spec (b_id r) buildId); [contradiction|reflexivity].
Qed.

(** Three kept covers, the first empty, and one upload. *)
Lemma update_build_fields_and_covers_witness :
  builds (snd (update_build reference 7 1 recover garage))
  = [ {| b_id := 1; b_user_id := 7; b_ownership_status := JStr "";
         b_car_name := JStr "FD3S"; b_model := JStr ""; b_description := JStr "";
         b_body_style := JStr "coupe"; b_cover_image := JNull;
         b_cover_image2 := JStr "/uploads/k2.png" |} ].
Proof.
  destruct (update_build_fields_and_covers reference 7 1 recover garage recovered
              [JStr ""; JStr "/uploads/k2.png"; JStr "/uploads/k3.png"]
              recover_plain eq_refl)
    as (Hb & _).
  rewrite Hb. reflexivity.
Defined.

(** A build update that carries no object and no array in its five text
    fields and in its kept covers changes neither the id nor the owner of
    a build row, nor the number of build rows, whatever its outcome. *)
Theorem update_build_keeps_owners (P : platform) (userId buildId : Z)
    (b : update_build_body) (d : db) (f : build_fields) (kc : list jsval) :
  plain b f kc ->
  map b_id (builds (snd (update_build P userId buildId b d))) = map b_id (builds d) /\
  map b_user_id (builds (snd (update_build P userId buildId b d)))
  = map b_user_id (builds d) /\
  forall z, owner_of z (snd (update_build P userId buildId b d)) = owner_of z d.
Proof.
  intros Hplain.
  destruct (Z.eq_dec (status (fst (update_build P userId buildId b d))) 200) as [Hok|Hne].
  - destruct (update_build_rows _ _ _ _ _ _ _ Hplain Hok) as (Hb & _).
    split; [|split].
    + rewrite Hb. now apply map_update_where.
    + rewrite Hb. now apply map_update_where.
    + intros z. unfold owner_of. rewrite Hb. clear Hb. unfold update_where.
      induction (builds d) as [|r rows IH]; [reflexivity|].
      cbn [map filter].
      destruct (Z.eqb_spec (b_id r) buildId) as [E|E].
      * cbn [updated b_id]. destruct (b_id r =? z); [reflexivity|exact IH].
      * destruct (b_id r =? z); [reflexivity|exact IH].
  - rewrite (update_build_rolled_back _ _ _ _ _ Hne). repeat split.
Qed.

(** Build 1 stays the build of user 7. *)
Lemma update_build_keeps_owners_witness :
  map b_user_id (builds (snd (update_build reference 7 1 recover garage))) = [7] /\
  owner_of 1 (snd (update_build reference 7 1 recover garage)) = Some 7.
Proof.
  destruct (update_build_keeps_owners reference 7 1 recover garage recovered
              [JStr ""; JStr "/uploads/k2.png"; JStr "/uploads/k3.png"] recover_plain)
    as (_ & Howners & Hof).
  split; [exact Howners|exact (Hof 1)].
Defined.

(** What a GET returns after a build update that answered 200 and carried
    no object and no array in its five text fields and in its kept covers:
    the cover images are the first two of the kept covers followed by the
    uploaded ones, without the empty ones; the gallery and the mods are
    those the update left; [isOwner] holds for the owner only. *)
Theorem update_then_get (P : platform) (refuses : db -> sql -> option exn)
    (userId viewer buildId : Z) (b : update_build_body) (d : db) (param : string)
    (f : build_fields) (kc : list jsval) :
  willing refuses ->
  viewer <> 0 ->
  id_of (JStr param) = Some buildId ->
  plain b f kc ->
  user_of userId d <> None ->
  status (fst (update_build P userId buildId b d)) = 200 ->
  let d' := snd (update_build P userId buildId b d) in
  exists view,
    get_build P refuses viewer param d' = (inr view, d') /\
    b_id (bv_build view) = buildId /\
    b_car_name (bv_build view) = nullish (f_car_name f) (JStr "") /\
    bv_coverImages view = filter truthy (firstn 2 (all_covers b kc)) /\
    bv_galleryImages view = map g_image_url (gallery_of buildId d') /\
    bv_mods view = mods_of buildId d' /\
    bv_isOwner view = (userId =? viewer).
Proof.
  intros Hw Hv Hid Hplain Hu Hok. cbv zeta.
  destruct (update_build_rows _ _ _ _ _ _ _ Hplain Hok) as (Hb & _ & _ & _ & _ & Hus).
  destruct (update_build_committed _ _ _ _ _ Hok) as (_ & _ & _ & _ & _ & _ & Hown & _).
  assert (Hsel : forall id, id_is P param id = (id =? buildId))
    by (intros id; now apply id_is_spelled).
  unfold owner_of in Hown.
  destruct (filter (fun r => b_id r =? buildId) (builds d)) as [|owner others] eqn:Hrows;
    [discriminate|].
  injection Hown as Hown.
  assert (Hid' : b_id owner = buildId).
  { assert (Hin : In owner (filter (fun r => b_id r =? buildId) (builds d)))
      by (rewrite Hrows; now left).
    apply filter_In in Hin. now apply Z.eqb_eq. }
  unfold user_of in Hu.
  destruct (filter (fun u => u_id u =? userId) (users d)) as [|u us] eqn:Hfound;
    [congruence|].
  assert (Hjoined : exists rest,
             joined_builds P param (snd (update_build P userId buildId b d))
             = updated f (all_covers b kc) owner :: rest).
  { unfold joined_builds. rewrite Hb, Hus.
    rewrite (filter_ext_eq _ _ _ (fun r => Hsel (b_id r))).
    rewrite filter_update_where by reflexivity. rewrite Hrows.
    cbn [map flat_map updated b_user_id]. rewrite Hown, Hfound. cbn [map app]. eauto. }
  destruct Hjoined as (rest & Hjoined).
  eexists. split; [exact (get_build_found P refuses viewer param _ _ _ Hw Hv Hjoined)|].
  cbn [bv_build bv_coverImages bv_galleryImages bv_mods bv_isOwner updated b_id
       b_car_name b_cover_image b_cover_image2 b_user_id].
  rewrite cover_pair, Hown. unfold gallery_of, mods_of.
  rewrite (filter_ext_eq _ _ _ (fun g => Hsel (g_build_id g))).
  rewrite (filter_ext_eq _ _ _ (fun m => Hsel (m_build_id m))).
  repeat split. exact Hid'.
Qed.

(** Joe saves build 1 with three kept covers, the first empty, and one
    upload; he gets the second and the third back. *)
Lemma update_then_get_witness :
  exists view,
    fst (get_build reference accepts 7 "1"
           (snd (update_build reference 7 1 recover (set_users garage [joe]))))
    = inr view /\
    bv_coverImages view = [JStr "/uploads/k2.png"] /\
    bv_galleryImages view = [] /\
    bv_isOwner view = true.
Proof.
  destruct (update_then_get reference accepts 7 7 1 recover (set_users garage [joe]) "1"
              recovered [JStr ""; JStr "/uploads/k2.png"; JStr "/uploads/k3.png"])
    as (view & Hget & _ & _ & Hcovers & Hgallery & _ & Howner);
    [intros d s; reflexivity|lia|reflexivity|exact recover_plain|discriminate|reflexivity|].
  exists view. rewrite Hget. cbn [fst]. split; [reflexivity|].
  split; [exact Hcovers|]. split; [exact Hgallery|exact Howner].
Defined.

(** *** Follow edges: following, the status, unfollowing *)

Lemma match_dup_entry {A} (s : string) (x y : A) :
  match s with "ER_DUP_ENTRY" => x | _ => y end
  = if String.eqb s "ER_DUP_ENTRY" then x else y.
Proof.
  do 12 (destruct s as [|[[] [] [] [] [] [] [] []] s]; try reflexivity).
  destruct s; reflexivity.
Qed.

Lemma follow_created (P : platform) (followerId : Z) (body : jsval) (d : db) :
  status (fst (follow P followerId body d)) = 201 ->
  exists g,
    stored_id P body = Some g /\
    edge_exists followerId g d = false /\
    snd (follow P followerId body d) = set_follows d (follows d ++ [(followerId, g)]).
Proof.
  unfold follow.
  destruct (negb (truthy body)); [discriminate|].
  destruct (strict_eq _ _); [discriminate|].
  unfold serve, try_catch.
  match goal with |- context [bind ?m ?k ?c] => destruct (bind m k c) as [c' [e|r]] eqn:H end.
  { destruct (code e) as [s|]; [rewrite match_dup_entry; destruct (String.eqb _ _)|];
      discriminate. }
  intros _. cbn [fst snd].
  step H. unfold execute in Hs. apply run_statement_inr in Hs.
  destruct Hs as (d1 & He & ->). cbn [cur saved] in He.
  destruct (stored_id P body) as [g|]; [|discriminate].
  destruct (edge_exists followerId g d) eqn:Hedge; [discriminate|].
  injection He as <- _. injection H as <- _. exists g. repeat split. exact Hedge.
Qed.

Lemma unfollow_removed (P : platform) (followerId followedId : Z) (d : db) :
  status (fst (unfollow P followerId followedId d)) = 200 ->
  edge_exists followerId followedId d = true /\
  snd (unfollow P followerId followedId d)
  = set_follows d (filter (fun e => negb (is_edge followerId followedId e)) (follows d)).
Proof.
  unfold unfollow, serve, try_catch.
  match goal with |- context [bind ?m ?k ?c] => destruct (bind m k c) as [c' [e|r]] eqn:H end.
  { discriminate. }
  cbn [fst snd]. step H. unfold execute in Hs. statement Hs. subst c.
  destruct (filter (is_edge followerId followedId) (follows d)) as [|e es] eqn:Hrows;
    cbn [List.length Nat.eqb] in H; injection H as <- <-; [discriminate|].
  intros _. split; [|reflexivity].
  unfold edge_exists. apply existsb_exists. exists e.
  assert (Hin : In e (filter (is_edge followerId followedId) (follows d)))
    by (rewrite Hrows; now left).
  apply filter_In in Hin. exact Hin.
Qed.

Lemma follow_status_reads (P : platform) (refuses : db -> sql -> option exn)
    (followerId g : Z) (param : string) (d : db) :
  willing refuses ->
  id_of (JStr param) = Some g ->
  follow_status P refuses followerId param d = (inr (edge_exists followerId g d), d).
Proof.
  intros Hw Hid. unfold follow_status, serve_data, try_catch, bind, run_sql.
  cbn [bound existsb andb cur saved]. rewrite Hw. cbn [cur saved]. unfold ret.
  do 2 f_equal. unfold edge_exists.
  rewrite (filter_ext_eq _ (is_edge followerId g) (follows d)).
  2:{ intros e. unfold is_edge. now rewrite (id_is_spelled P param g). }
  induction (follows d) as [|e es IH]; [reflexivity|]. cbn [filter existsb].
  fold (is_edge followerId g e). destruct (is_edge followerId g e); [reflexivity|exact IH].
Qed.

Lemma edge_exists_app (f g : Z) (d : db) (rows : list (Z * Z)) :
  edge_exists f g (set_follows d rows) = existsb (is_edge f g) rows.
Proof. reflexivity. Qed.

(** The follow status of a pair is whether the edge is stored: it is true
    after a follow that answered 201 and false after an unfollow that
    answered 200. *)
Theorem follow_status_tracks (P : platform) (refuses : db -> sql -> option exn)
    (followerId g : Z) (param : string) (d : db) :
  willing refuses ->
  id_of (JStr param) = Some g ->
  follow_status P refuses followerId param d = (inr (edge_exists followerId g d), d) /\
  (forall body,
     stored_id P body = Some g ->
     status (fst (follow P followerId body d)) = 201 ->
     fst (follow_status P refuses followerId param (snd (follow P followerId body d)))
     = inr true) /\
  (status (fst (unfollow P followerId g d)) = 200 ->
   fst (follow_status P refuses followerId param (snd (unfollow P followerId g d)))
   = inr false).
Proof.
  intros Hw Hid. split; [now apply follow_status_reads|]. split.
  - intros body Hstored Hok.
    destruct (follow_created _ _ _ _ Hok) as (g' & Hg' & _ & ->).
    rewrite Hstored in Hg'. injection Hg' as <-.
    rewrite (follow_status_reads P refuses followerId g param _ Hw Hid). cbn [fst].
    rewrite edge_exists_app, existsb_app. cbn [existsb]. unfold is_edge at 2.
    cbn [fst snd]. now rewrite !Z.eqb_refl, orb_true_r.
  - intros Hok. destruct (unfollow_removed _ _ _ _ Hok) as (_ & ->).
    rewrite (follow_status_reads P refuses followerId g param _ Hw Hid). cbn [fst].
    rewrite edge_exists_app. f_equal.
    induction (follows d) as [|e es IH]; [reflexivity|]. cbn [filter].
    destruct (is_edge followerId g e) eqn:E; cbn [negb existsb]; [exact IH|].
    now rewrite E.
Qed.

(** User 5 follows user 7 and unfollows user 6. *)
Lemma follow_status_tracks_witness :
  fst (follow_status reference accepts 5 "7" garage) = inr false /\
  fst (follow_status reference accepts 5 "7" (snd (follow reference 5 (num 7) garage)))
  = inr true /\
  fst (follow_status reference accepts 5 "6" garage) = inr true /\
  fst (follow_status reference accepts 5 "6" (snd (unfollow reference 5 6 garage)))
  = inr false.
Proof.
  destruct (follow_status_tracks reference accepts 5 7 "7" garage
              (fun _ _ => eq_refl) eq_refl) as (Hnow & Hafter & _).
  destruct (follow_status_tracks reference accepts 5 6 "6" garage
              (fun _ _ => eq_refl) eq_refl) as (Hnow' & _ & Hafter').
  split; [now rewrite Hnow|]. split; [apply Hafter; reflexivity|].
  split; [now rewrite Hnow'|apply Hafter'; reflexivity].
Defined.

(** Following a user and unfollowing them again gives back the follows as
    they were. *)
Theorem follow_then_unfollow (P : platform) (followerId g : Z) (body : jsval) (d : db) :
  stored_id P body = Some g ->
  status (fst (follow P followerId body d)) = 201 ->
  rejects P (snd (follow P followerId body d)) (DeleteFollow followerId g) = None ->
  unfollow P followerId g (snd (follow P followerId body d))
  = (json 200 true "Successfully unfollowed user.", d).
Proof.
  intros Hstored Hok.
  destruct (follow_created _ _ _ _ Hok) as (g' & Hg' & Hnew & ->).
  rewrite Hstored in Hg'. injection Hg' as <-. intros Hr.
  unfold unfollow, serve, try_catch, bind, execute, run_statement.
  cbn [params existsb andb cur]. rewrite Hr.
  cbn [follows set_follows]. rewrite !filter_app.
  pose proof (edge_exists_filter followerId g d Hnew) as Hnone.
  rewrite Hnone, (filter_none _ _ Hnone). cbn [filter]. unfold is_edge.
  cbn [fst snd]. rewrite !Z.eqb_refl. cbn [andb negb app List.length Nat.eqb].
  rewrite app_nil_r. unfold ret. destruct d; reflexivity.
Qed.

Lemma follow_then_unfollow_witness :
  follows (snd (follow reference 5 (JStr "7") garage)) = [(5, 6); (5, 7)] /\
  unfollow reference 5 7 (snd (follow reference 5 (JStr "7") garage))
  = (json 200 true "Successfully unfollowed user.", garage).
Proof.
  split; [reflexivity|].
  apply (follow_then_unfollow reference 5 7 (JStr "7") garage); reflexivity.
Defined.

(** *** Profile update and profile view *)

Lemma preserves_io (I : conn -> Prop) (P : platform) (op : io_op) : preserves I (io P op).
Proof.
  intros c c' r H Hc. unfold io in H. destruct (io_fails P op); now inversion H; subst.
Qed.

Lemma preserves_select {A} (I : conn -> Prop) (P : platform) (prepared : bool)
    (s : statement) (rows : db -> A) :
  preserves I (run_statement P prepared s (fun d => inr (d, rows d))).
Proof.
  apply preserves_run_statement. intros c d a He Hc. injection He as <- _.
  now rewrite conn_eta.
Qed.

(** Computing the avatar of a profile update changes no row. *)
Lemma final_avatar_reads (I : conn -> Prop) (P : platform) (userId : string) (now : Z)
    (avatar : jsval) :
  preserves I (final_avatar P userId now avatar).
Proof.
  unfold final_avatar.
  destruct (truthy avatar).
  - destruct avatar as [| | | |a]; try apply preserves_throw.
    destruct (starts_with "data:image" a); [|apply preserves_ret].
    destruct (match_data_uri a) as [[extension base64Data]|]; [|apply preserves_ret].
    apply preserves_bind; [apply preserves_io|intros _].
    apply preserves_bind; [apply preserves_select|intros rows].
    apply preserves_bind.
    + destruct rows as [|u rest]; [apply preserves_ret|]. cbv zeta.
      destruct (truthy (u_avatar_url u)); [|apply preserves_ret].
      destruct (u_avatar_url u) as [| | | |existing]; try apply preserves_throw.
      destruct (starts_with avatar_dir existing); [|apply preserves_ret].
      apply preserves_try_catch; [apply preserves_io|intros e; apply preserves_ret].
    + intros _. apply preserves_bind; [apply preserves_io|intros _; apply preserves_ret].
  - destruct (strict_eq avatar (JStr "")); apply preserves_ret.
Qed.




(** A profile update, whatever its request and its outcome, changes no
    table but the users, there no user id, and no row but those the engine
    selects for the text of the URL segment. *)
Theorem update_profile_other_users (P : platform) (u : principal) (userId : string)
    (now : Z) (b : profile_body) (d : db) :
  exists rows,
    snd (update_profile P u userId now b d) = set_users d rows /\
    map u_id rows = map u_id (users d) /\
    filter (fun r => negb (id_is P userId (u_id r))) rows
    = filter (fun r => negb (id_is P userId (u_id r))) (users d).
Proof.
  set (I := fun c : conn =>
              exists rows,
                cur c = set_users d rows /\
                map u_id rows = map u_id (users d) /\
                filter (fun r => negb (id_is P userId (u_id r))) rows
                = filter (fun r => negb (id_is P userId (u_id r))) (users d)).
  assert (Hstart : I {| cur := d; saved := None |}).
  { exists (users d). cbn. repeat split. now destruct d. }
  unfold update_profile.
  destruct (negb (own_profile u userId)).
  { exists (users d). cbn. repeat split. now destruct d. }
  unfold serve.
  match goal with |- context [try_catch ?m ?h ?c] =>
    assert (Hp : preserves I (try_catch m h)); [|destruct (try_catch m h c) as [c' r] eqn:E]
  end.
  - apply preserves_try_catch; [|intros e; apply preserves_ret].
    apply preserves_bind; [apply final_avatar_reads|intros avatar].
    destruct (profile_sets b avatar) as [|s rest] eqn:Hsets; [apply preserves_ret|].
    rewrite <- Hsets.
    apply preserves_bind; [|intros _; apply preserves_bind;
                                      [apply preserves_select|intros _; apply preserves_ret]].
    apply preserves_run_statement. intros c d1 a He (rows & Hc & Hids & Hothers).
    injection He as <- _. rewrite Hc. cbn [cur users set_users].
    exists (update_where (fun r => same_user P (u_id r) (JStr userId))
              (apply_sets (profile_sets b avatar)) rows).
    split; [now destruct d|]. split.
    + rewrite <- Hids. apply map_update_where. intros r.
      rewrite apply_sets_profile. reflexivity.
    + rewrite <- Hothers. clear. unfold id_is.
      induction rows as [|r rs IH]; [reflexivity|].
      cbn [update_where map filter].
      destruct (same_user P (u_id r) (JStr userId)) eqn:E.
      * rewrite apply_sets_profile. cbn [profile_row u_id]. rewrite E. exact IH.
      * rewrite E. cbn [negb]. f_equal. exact IH.
  - assert (Hc' : I c') by (eapply Hp; [exact E|exact Hstart]).
    destruct r; exact Hc'.
Qed.

(** *** Reviews: a second submission, and edits *)






(** A rating that is a number passes the checks when it lies between 1
    and 5. *)
Lemma passes_number (b : review_body) (x : number) :
  rv_rating b = JNum x ->
  passes b = true ->
  exists q, x = Fin q /\ (1 <= q)%Q /\ (q <= 5)%Q.
Proof.
  intros Hx Hpass. unfold passes in Hpass. rewrite Hx in Hpass.
  apply andb_prop in Hpass. destruct Hpass as [Hreq Hrange].
  apply negb_true_iff, orb_false_elim in Hreq. destruct Hreq as [_ Htruthy].
  apply negb_true_iff, orb_false_elim in Hrange. destruct Hrange as [Hlow Hhigh].
  unfold gt, lt, num in Hlow, Hhigh. cbn [ToNumber number_lt] in Hlow, Hhigh.
  destruct x as [|neg|q]; [discriminate|destruct neg; discriminate|].
  exists q. split; [reflexivity|]. unfold Qltb in Hlow, Hhigh.
  apply negb_false_iff, Qle_bool_iff in Hlow, Hhigh. now split.
Qed.

(** An edit whose rating is a number and that answers 200 was sent with
    the author's id as a number and a rating from 1 to 5; it sets the
    rating and the comment of the review with the given id, an empty or
    absent comment as null, and leaves its author, its business and every
    other row as they were. *)
Theorem put_review_updates (P : platform) (reviewId : Z) (b : review_body) (d : db)
    (x : number) :
  rv_rating b = JNum x ->
  status (fst (put_review P reviewId b d)) = 200 ->
  (passes b = true /\ exists q, x = Fin q /\ (1 <= q)%Q /\ (q <= 5)%Q) /\
  (exists author,
     author_of reviewId d = Some author /\
     strict_eq (num author) (rv_userId b) = true) /\
  snd (put_review P reviewId b d)
  = set_business_reviews d
      (update_where (fun r => rev_id r =? reviewId) (rerated b) (business_reviews d)) /\
  map rev_user_id (business_reviews (snd (put_review P reviewId b d)))
  = map rev_user_id (business_reviews d) /\
  (forall r,
     In r (business_reviews (snd (put_review P reviewId b d))) ->
     rev_id r = reviewId ->
     rev_rating r = rv_rating b /\
     rev_comment r = if truthy (rv_comment b) then rv_comment b else JNull).
Proof.
  intros Hx. assert (Hnum := passes_number b x Hx). revert Hnum.
  unfold put_review, passes, serve, try_catch, author_of.
  destruct (orb (negb (truthy (rv_userId b))) (negb (truthy (rv_rating b))));
    [discriminate|].
  destruct (rating_out_of_range (rv_rating b)); [discriminate|].
  match goal with |- context [bind ?m ?k ?c] => destruct (bind m k c) as [c' [e|r]] eqn:H end.
  { discriminate. }
  cbn [fst snd]. step H. unfold execute in Hs. statement Hs. subst c.
  cbn [cur saved] in H.
  destruct (filter _ (business_reviews d)) as [|owner others]; cbv beta iota in H.
  { injection H as _ <-. discriminate. }
  destruct (strict_eq (num (rev_user_id owner)) (rv_userId b)) eqn:Hauthor;
    cbn [negb] in H; cbv beta iota in H.
  2:{ injection H as _ <-. discriminate. }
  step H. unfold execute in Hs. statement Hs. subst c.
  step H. unfold execute in Hs. statement Hs. subst c. injection H as <- _.
  intros Hnum _. cbn [cur]. split; [split; [reflexivity|exact (Hnum eq_refl)]|].
  split; [eauto|]. split; [reflexivity|].
  split.
  - cbn [business_reviews set_business_reviews]. now apply map_update_where.
  - intros row Hin Hrow. cbn [business_reviews set_business_reviews] in Hin.
    unfold update_where in Hin. apply in_map_iff in Hin. destruct Hin as (r0 & Hr0 & _).
    destruct (Z.eqb_spec (rev_id r0) reviewId); [|congruence].
    subst row. split; reflexivity.
Qed.

(** *** Event registration: when it goes through, and when a car stops it *)

Lemma insert_cars_healthy (P : platform) (id : Z) (cs : list car_input) :
  healthy P ->
  forallb whole cs = true ->
  forall c : conn,
    for_each cs (insert_car P id) c
    = ({| cur := set_registered_cars (cur c)
                   (registered_cars (cur c) ++ map (car_row id) cs);
          saved := saved c |}, inr tt).
Proof.
  intros Hh. induction cs as [|x cs IH]; intros Hwhole c.
  - cbn. rewrite app_nil_r. destruct c as [[] ?]; reflexivity.
  - cbn [forallb] in Hwhole. apply andb_prop in Hwhole. destruct Hwhole as [Hx Hcs].
    unfold whole in Hx. apply negb_true_iff in Hx.
    cbn [for_each]. unfold bind, insert_car, execute, run_statement. cbn [params].
    rewrite Hx. cbn [andb]. rewrite Hh, (IH Hcs). cbn. now rewrite <- app_assoc.
Qed.

(** The loop over the cars stops at the first car that lacks a property. *)
Lemma insert_cars_undefined (P : platform) (id : Z) (cs : list car_input) :
  healthy P ->
  forallb whole cs = false ->
  forall c : conn, exists c', for_each cs (insert_car P id) c = (c', inl bind_undefined).
Proof.
  intros Hh. induction cs as [|x cs IH]; intros Hwhole c; [discriminate|].
  cbn [forallb] in Hwhole. cbn [for_each]. unfold bind.
  destruct (whole x) eqn:Hx.
  - cbn [andb] in Hwhole. unfold whole in Hx. apply negb_true_iff in Hx.
    unfold insert_car at 1, execute, run_statement. cbn [params].
    rewrite Hx. cbn [andb]. rewrite Hh. apply (IH Hwhole).
  - unfold whole in Hx. apply negb_false_iff in Hx.
    unfold insert_car at 1, execute, run_statement. cbn [params].
    rewrite Hx. cbn [andb]. eauto.
Qed.

Lemma insert_cars_whole (P : platform) (id : Z) (cs : list car_input) :
  forall (c c' : conn) (u : unit),
    for_each cs (insert_car P id) c = (c', inr u) -> forallb whole cs = true.
Proof.
  induction cs as [|x cs IH]; intros c c' u H; [reflexivity|].
  cbn [for_each] in H. step H. cbn [forallb]. rewrite (IH _ _ _ H), andb_true_r.
  unfold insert_car in Hs. apply execute_inr_defined in Hs. cbn [params] in Hs.
  unfold whole. now rewrite Hs.
Qed.

(** A registration that answers 200 was admissible, every car of the
    request had its six properties, and the store holds the registration
    and the cars. *)
Lemma register_event_committed (P : platform) (b : register_body) (d : db) :
  status (fst (register_event P b d)) = 200 ->
  admissible P b d /\
  forallb whole (cars_of b) = true /\
  snd (register_event P b d) = registered P b d.
Proof.
  unfold register_event, serve, try_catch.
  match goal with |- context [bind ?m ?k ?c] => destruct (bind m k c) as [c' [e|r]] eqn:H end.
  { unfold bind, rollback, ret. discriminate. }
  cbn [fst snd]. step H. apply beginTransaction_inr in Hs. subst. cbn [cur] in H.
  destruct (truthy (rb_userId b)) eqn:Huser; cbn [negb] in H;
    [|injection H as _ <-; discriminate].
  intros _. step H. unfold insert_registration in Hs.
  pose proof (execute_inr_defined _ _ _ _ _ _ Hs) as Hdef.
  unfold execute in Hs. apply run_statement_inr in Hs.
  destruct Hs as (d1 & He & ->). cbn [cur saved] in He.
  destruct (event_email_taken _ _ d) eqn:Htaken; [discriminate|]. injection He as <- <-.
  match type of H with context [?i =? 0] => destruct (Z.eqb_spec i 0) as [|Hid] end;
    [discriminate|].
  step H. pose proof (insert_cars_whole _ _ _ _ _ _ Hs) as Hwhole.
  apply insert_cars_inr in Hs. subst c.
  step H. apply commit_inr in Hs. injection H as <- _.
  split; [|split; [exact Hwhole|rewrite Hs; reflexivity]].
  repeat split; try assumption.
  cbn [params existsb] in Hdef. cbn [existsb].
  destruct (is_undefined (rb_eventId b)); [discriminate|].
  destruct (is_undefined (rb_userId b)); [discriminate|].
  exact Hdef.
Qed.

Lemma register_event_rolled_back (P : platform) (b : register_body) (d : db) :
  status (fst (register_event P b d)) <> 200 -> snd (register_event P b d) = d.
Proof.
  unfold register_event.
  match goal with
  | |- context [try_catch (beginTransaction P ;; ?body) (fun e => rollback ;; @?reply e)] =>
      destruct (transaction_outcome P body reply d) as [Hsame|(c' & Hrun & Hdb)]
  end.
  - destruct (truthy (rb_userId b)); cbn [negb].
    + apply throws_within_bind.
      * apply run_statement_saved.
      * intros id. destruct (id =? 0).
        -- apply preserves_throws_within, preserves_throw.
        -- apply throws_within_bind; [|intros _; apply throws_within_commit].
           apply preserves_for_each. intros x _. apply run_statement_saved.
    + apply preserves_throws_within, preserves_ret.
  - intros e c. eexists. reflexivity.
  - intros _. exact Hsame.
  - intros Hne. rewrite Hdb. clear Hdb.
    match type of Hrun with _ = (_, inr ?r) => remember r as resp eqn:Hresp end.
    destruct (truthy (rb_userId b)); cbn [negb] in Hrun;
      [|injection Hrun as <- _; reflexivity].
    exfalso. apply Hne. clear Hresp Hne.
    step Hrun.
    match type of Hrun with context [?i =? 0] => destruct (i =? 0) end; [discriminate|].
    step Hrun. step Hrun. injection Hrun as _ <-. reflexivity.
Qed.

(** With an engine that refuses nothing, an admissible registration whose
    cars each carry their six properties answers 200 and stores the
    registration row and one car row per car. *)
Theorem register_event_succeeds (P : platform) (b : register_body) (d : db) :
  healthy P ->
  admissible P b d ->
  forallb whole (cars_of b) = true ->
  register_event P b d = (json 200 true "Registration successful!", registered P b d).
Proof.
  intros Hh (Huser & Hdef & Hfree & Hid) Hwhole.
  unfold register_event, serve, try_catch, bind at 1, beginTransaction.
  rewrite Hh. cbn [cur saved]. rewrite Huser. cbn [negb].
  unfold bind at 1, insert_registration, execute, run_statement.
  fold (registrant_name b). fold (registration_insert b).
  cbn [params registration_insert existsb is_undefined cur saved].
  cbn [existsb] in Hdef.
  assert (Hu : is_undefined (rb_userId b) = false)
    by (destruct (rb_userId b); (discriminate || reflexivity)).
  destruct (is_undefined (rb_eventId b)); [discriminate|]. rewrite Hu. cbn [orb] in *.
  rewrite Hdef. cbn [andb]. rewrite Hh, Hfree. cbn [cur saved].
  destruct (Z.eqb_spec (insert_id P d (registration_insert b)) 0) as [|_]; [contradiction|].
  unfold bind at 1. fold (cars_of b). rewrite (insert_cars_healthy P _ _ Hh Hwhole).
  unfold bind, commit. cbn [cur saved]. rewrite Hh. reflexivity.
Qed.

Lemma register_event_succeeds_witness :
  register_event reference ann_registers empty_db
  = (json 200 true "Registration successful!", registered reference ann_registers empty_db) /\
  List.length (registered_cars (registered reference ann_registers empty_db)) = 1%nat.
Proof.
  split; [|reflexivity].
  apply register_event_succeeds; [intros d s; reflexivity| |reflexivity].
  repeat split. discriminate.
Defined.

(** A car that lacks one of its six properties stops the registration: it
    is not answered with 200 and nothing is stored, neither the registration
    nor the cars before that one; with an engine that refuses nothing the
    answer to an otherwise admissible request is the 500 of a server
    error. *)
Theorem register_event_car_undefined (P : platform) (b : register_body) (d : db) :
  forallb whole (cars_of b) = false ->
  status (fst (register_event P b d)) <> 200 /\
  snd (register_event P b d) = d /\
  (healthy P -> admissible P b d ->
   fst (register_event P b d)
   = json 500 false "Registration failed due to a server error.").
Proof.
  intros Hwhole.
  assert (Hne : status (fst (register_event P b d)) <> 200).
  { intros Hok. destruct (register_event_committed _ _ _ Hok) as (_ & Hall & _).
    congruence. }
  split; [exact Hne|]. split; [now apply register_event_rolled_back|].
  intros Hh (Huser & Hdef & Hfree & Hid).
  unfold register_event, serve, try_catch, bind at 1, beginTransaction.
  rewrite Hh. cbn [cur saved]. rewrite Huser. cbn [negb].
  unfold bind at 1, insert_registration, execute, run_statement.
  fold (registrant_name b). fold (registration_insert b).
  cbn [params registration_insert existsb is_undefined cur saved].
  cbn [existsb] in Hdef.
  assert (Hu : is_undefined (rb_userId b) = false)
    by (destruct (rb_userId b); (discriminate || reflexivity)).
  destruct (is_undefined (rb_eventId b)); [discriminate|]. rewrite Hu. cbn [orb] in *.
  rewrite Hdef. cbn [andb]. rewrite Hh, Hfree. cbn [cur saved].
  destruct (Z.eqb_spec (insert_id P d (registration_insert b)) 0) as [|_]; [contradiction|].
  unfold bind at 1. fold (cars_of b).
  match goal with |- context [for_each ?cs ?body ?c] =>
    destruct (insert_cars_undefined P (insert_id P d (registration_insert b)) cs Hh Hwhole c)
      as (c' & ->)
  end.
  reflexivity.
Qed.

(** Ann registers two cars, the second without colour. *)
Lemma register_event_car_undefined_witness :
  register_event reference ann_registers_colourless empty_db
  = (json 500 false "Registration failed due to a server error.", empty_db).
Proof.
  destruct (register_event_car_undefined reference ann_registers_colourless empty_db
              eq_refl) as (_ & Hdb & Hres).
  apply injective_projections; [|exact Hdb].
  apply Hres; [intros d s; reflexivity|]. repeat split. discriminate.
Defined.

(** *** Updating an event registration *)

Lemma update_where_select {A} (p q : A -> bool) (f : A -> A) (l : list A) :
  (forall x, p x = q x) -> update_where p f l = update_where q f l.
Proof.
  intros H. unfold update_where. apply map_ext. intros x. now rewrite H.
Qed.

Lemma update_cars_saved (P : platform) (refuses : db -> sql -> option exn)
    (registrationId : string) (snapshot : option db) (cars : list (option car_input)) :
  preserves (fun c => saved c = snapshot) (update_cars P refuses registrationId cars).
Proof.
  induction cars as [|[c|] rest IH]; cbn [update_cars].
  - apply preserves_ret.
  - apply preserves_bind; [|intros _; exact IH].
    destruct (complete c); [apply run_sql_saved|apply preserves_ret].
  - apply preserves_throw.
Qed.

Lemma update_cars_inr (P : platform) (refuses : db -> sql -> option exn)
    (registrationId : string) (z : Z) (cars : list (option car_input)) :
  id_of (JStr registrationId) = Some z ->
  forall (c c' : conn) (u : unit),
    update_cars P refuses registrationId cars c = (c', inr u) ->
    exists cs,
      cars = map Some cs /\
      forallb whole (filter complete cs) = true /\
      c' = {| cur := set_registered_cars (cur c)
                       (registered_cars (cur c) ++ map (car_row z) (filter complete cs));
              saved := saved c |}.
Proof.
  intros Hid. induction cars as [|[x|] rest IH]; intros c c' u H; cbn [update_cars] in H.
  - exists []. inversion H; subst. repeat split. cbn. rewrite app_nil_r.
    destruct c' as [[] ?]; reflexivity.
  - step H. destruct (complete x) eqn:Hx.
    + unfold insert_car_of in Hs.
      assert (Hdef : whole x = true).
      { unfold whole, run_sql in *. cbn [bound andb] in Hs.
        destruct (existsb is_undefined _); [discriminate|reflexivity]. }
      apply run_sql_inr in Hs. destruct Hs as (d1 & He & ->). cbn [cur saved] in He.
      unfold stored_id in He. rewrite Hid in He. injection He as <- _.
      apply IH in H. destruct H as (cs & -> & Hwhole & ->).
      exists (x :: cs). split; [reflexivity|]. cbn [filter]. rewrite Hx. split.
      * cbn [forallb]. now rewrite Hdef, Hwhole.
      * cbn [cur saved registered_cars set_registered_cars map].
        now rewrite <- app_assoc.
    + injection Hs as <- _. apply IH in H. destruct H as (cs & -> & Hwhole & ->).
      exists (x :: cs). split; [reflexivity|]. cbn [filter]. rewrite Hx.
      split; [exact Hwhole|reflexivity].
  - discriminate.
Qed.

(** Updating a registration is all or nothing: every table is left as it
    was unless the answer is 200. *)
Theorem update_event_registration_all_or_nothing (P : platform)
    (refuses : db -> sql -> option exn) (userId : Z) (registrationId : string)
    (b : update_registration_body) (d : db) :
  snd (update_event_registration P refuses userId registrationId b d) = d \/
  status (fst (update_event_registration P refuses userId registrationId b d)) = 200.
Proof.
  unfold update_event_registration.
  destruct (String.eqb registrationId ""); [now left|].
  destruct (orb _ _); [now left|].
  destruct (ur_cars b) as [cars|]; [|now left].
  match goal with
  | |- context [try_catch (beginTransaction P ;; ?body) (fun e => rollback ;; @?reply e)] =>
      destruct (transaction_outcome P body reply d) as [Hsame|(c' & Hrun & Hdb)]
  end.
  - apply throws_within_bind; [apply run_sql_saved|].
    intros [|existing others].
    { intros c c' e H. discriminate. }
    destruct (negb _).
    { intros c c' e H. discriminate. }
    do 2 (apply throws_within_bind; [apply run_sql_saved|intros _]).
    apply throws_within_bind; [apply update_cars_saved|intros _].
    apply throws_within_commit.
  - intros e c. eexists. reflexivity.
  - now left.
  - rewrite Hdb. clear Hdb.
    match type of Hrun with _ = (_, inr ?r) => remember r as resp eqn:Hresp end.
    clear Hresp. step Hrun. lookup Hs. subst c. cbn [cur saved] in Hrun.
    destruct (filter _ (event_registrations d)) as [|existing others].
    { left. now injection Hrun as <- _. }
    destruct (negb _).
    { left. now injection Hrun as <- _. }
    right. do 4 step Hrun. now injection Hrun as _ <-.
Qed.

(** An update that answers 200 was sent by the user the registration
    belongs to; it renames the registration, keeps its event and its user,
    and replaces its cars by the cars of the request that carry make, model
    and year, in their order: a car without one of the three is left out,
    and every car that is stored had its six properties. The other
    registrations and their cars are as before. *)
Theorem update_event_registration_replaces_cars (P : platform)
    (refuses : db -> sql -> option exn) (userId : Z) (registrationId : string) (z : Z)
    (b : update_registration_body) (d : db) :
  id_of (JStr registrationId) = Some z ->
  status (fst (update_event_registration P refuses userId registrationId b d)) = 200 ->
  exists cars,
    ur_cars b = Some (map Some cars) /\
    forallb whole (filter complete cars) = true /\
    (exists r, registration_of P registrationId d = Some r /\
               registered_by P r userId = true) /\
    snd (update_event_registration P refuses userId registrationId b d)
    = reregistered z b cars d.
Proof.
  intros Hid.
  assert (Hsel : forall id, id_is P registrationId id = (id =? z))
    by (intros id; now apply id_is_spelled).
  unfold update_event_registration, registration_of.
  destruct (String.eqb registrationId ""); [discriminate|].
  destruct (orb _ _); [discriminate|].
  destruct (ur_cars b) as [cars|]; [|discriminate].
  unfold serve, try_catch.
  match goal with |- context [bind ?m ?k ?c] => destruct (bind m k c) as [c' [e|r]] eqn:H end.
  { discriminate. }
  cbn [fst snd].
  step H. apply beginTransaction_inr in Hs. subst. cbn [cur] in H.
  step H. lookup Hs. subst. cbn [cur saved] in H.
  destruct (filter (fun r => id_is P registrationId (reg_id r)) (event_registrations d))
    as [|existing others].
  { step H. injection H as _ <-. discriminate. }
  destruct (registered_by P existing userId) eqn:Hown; cbn [negb] in H.
  2:{ step H. injection H as _ <-. discriminate. }
  step H. lookup Hs. subst.
  step H. lookup Hs. subst.
  step H. apply (update_cars_inr P refuses registrationId z cars Hid) in Hs.
  destruct Hs as (cs & -> & Hwhole & ->).
  step H. apply commit_inr in Hs. injection H as <- _. intros _.
  exists cs. split; [reflexivity|]. split; [exact Hwhole|]. split; [eauto|].
  rewrite Hs. unfold reregistered. cbn.
  rewrite (filter_ext_eq _ _ (registered_cars d)
             (fun x => f_equal negb (Hsel (car_registration_id x)))).
  rewrite (update_where_select _ (fun r => reg_id r =? z)) by (intros x; apply Hsel).
  reflexivity.
Qed.

(** Ann renames herself and replaces her RX-7 by two cars, of which the
    one without year is left out. *)
Lemma update_event_registration_replaces_cars_witness :
  map car_model (registered_cars paddock) = [JStr "RX-7"] /\
  map car_model
    (registered_cars (snd (update_event_registration reference accepts 7 "1" ann_updates
                             paddock)))
  = [JStr "MX-5"] /\
  map reg_name
    (event_registrations (snd (update_event_registration reference accepts 7 "1" ann_updates
                                 paddock)))
  = ["Ann Ray"].
Proof.
  split; [reflexivity|].
  destruct (update_event_registration_replaces_cars reference accepts 7 "1" 1 ann_updates
              paddock eq_refl eq_refl) as (cars & Hcars & _ & _ & ->).
  injection Hcars as Hcars.
  destruct cars as [|x [|y [|]]]; try discriminate. injection Hcars as <- <-.
  split; reflexivity.
Defined.

(** What an update of a registration is refused for, each time leaving the
    store as it was: a missing name, email or phone and cars that are no
    array with 400; then, once the engine has opened the transaction and
    answered the lookup, a registration that does not exist with 404 and a
    registration of another user with 403. *)
Theorem update_event_registration_rejections (P : platform)
    (refuses : db -> sql -> option exn) (userId : Z) (registrationId : string)
    (b : update_registration_body) (d : db) :
  registrationId <> "" ->
  (incomplete b = true ->
   update_event_registration P refuses userId registrationId b d
   = (json 400 false "First name, last name, email, and phone are required.", d)) /\
  (incomplete b = false -> ur_cars b = None ->
   update_event_registration P refuses userId registrationId b d
   = (json 400 false "Cars must be an array.", d)) /\
  (incomplete b = false -> ur_cars b <> None ->
   rejects P d BeginTransaction = None ->
   refuses d (SelectRegistrationOwner registrationId) = None ->
   match registration_of P registrationId d with
   | None =>
       update_event_registration P refuses userId registrationId b d
       = (json 404 false "Registration not found.", d)
   | Some r =>
       registered_by P r userId = false ->
       update_event_registration P refuses userId registrationId b d
       = (json 403 false "You are not authorized to update this registration.", d)
   end).
Proof.
  intros Hparam. apply String.eqb_neq in Hparam.
  unfold update_event_registration, incomplete, registration_of. rewrite Hparam.
  split; [|split].
  - intros ->. reflexivity.
  - intros -> ->. reflexivity.
  - intros -> Hcars Hb Hr. destruct (ur_cars b) as [cars|]; [|congruence].
    unfold serve, try_catch, bind, beginTransaction, run_sql.
    cbn [bound existsb andb cur saved]. rewrite Hb. cbn [cur saved]. rewrite Hr.
    destruct (filter _ (event_registrations d)) as [|r rows]; [reflexivity|].
    intros ->. reflexivity.
Qed.

(** Registration 1 belongs to user 7: user 8 may not update it, and
    registration 5 does not exist. *)
Lemma update_event_registration_rejections_witness :
  update_event_registration reference accepts 8 "1" ann_updates paddock
  = (json 403 false "You are not authorized to update this registration.", paddock) /\
  update_event_registration reference accepts 7 "5" ann_updates paddock
  = (json 404 false "Registration not found.", paddock).
Proof.
  destruct (update_event_registration_rejections reference accepts 8 "1" ann_updates paddock)
    as (_ & _ & Hforeign); [discriminate|].
  destruct (update_event_registration_rejections reference accepts 7 "5" ann_updates paddock)
    as (_ & _ & Hmissing); [discriminate|].
  split.
  - apply (Hforeign eq_refl); [discriminate|reflexivity|reflexivity|reflexivity].
  - apply (Hmissing eq_refl); [discriminate|reflexivity|reflexivity].
Defined.

(** *** The name of a registration, and its two parts *)

Lemma list_ascii_of_string_app (a b : string) :
  list_ascii_of_string (a ++ b) = (list_ascii_of_string a ++ list_ascii_of_string b)%list.
Proof. induction a as [|c a IH]; cbn; [reflexivity|now rewrite IH]. Qed.

Lemma edged_ends (s : string) :
  edged s = true ->
  exists c rest e front,
    list_ascii_of_string s = c :: rest /\ rev (list_ascii_of_string s) = e :: front /\
    is_space c = false /\ is_space e = false.
Proof.
  unfold edged. cbv zeta.
  destruct (list_ascii_of_string s) as [|c rest]; [discriminate|].
  destruct (rev (c :: rest)) as [|e front]; [discriminate|].
  intros H. apply andb_prop in H. destruct H as [Hc He].
  apply negb_true_iff in Hc, He. now exists c, rest, e, front.
Qed.

Lemma trim_chars_ends (l : list ascii) (c : ascii) (rest : list ascii) (e : ascii)
    (front : list ascii) :
  l = c :: rest -> rev l = e :: front -> is_space c = false -> is_space e = false ->
  trim_chars l = l /\ trim_chars (l ++ [" "%char]) = l.
Proof.
  intros Hl Hrev Hc He. unfold trim_chars. split.
  - rewrite Hl at 1. cbn [drop_spaces]. rewrite Hc, <- Hl, Hrev. cbn [drop_spaces].
    rewrite He, <- Hrev. apply rev_involutive.
  - rewrite Hl at 1. cbn [app drop_spaces]. rewrite Hc.
    change (c :: rest ++ [" "%char])%list with ((c :: rest) ++ [" "%char])%list.
    rewrite <- Hl, rev_app_distr, Hrev. cbn [rev app drop_spaces].
    change (is_space " ") with true. cbv iota. rewrite He, <- Hrev.
    apply rev_involutive.
Qed.

Lemma trim_edged (s : string) : edged s = true -> trim s = s /\ trim (s ++ " ") = s.
Proof.
  intros H. destruct (edged_ends s H) as (c & rest & e & front & Hl & Hrev & Hc & He).
  destruct (trim_chars_ends _ c rest e front Hl Hrev Hc He) as [Hsame Hspace].
  unfold trim. split.
  - rewrite Hsame. apply string_of_list_ascii_of_string.
  - rewrite list_ascii_of_string_app. cbn [list_ascii_of_string].
    rewrite Hspace. apply string_of_list_ascii_of_string.
Qed.

Lemma edged_pair (first last : string) :
  edged first = true -> edged last = true -> edged (first ++ " " ++ last) = true.
Proof.
  intros Hf Hl.
  destruct (edged_ends first Hf) as (c & rest & _ & _ & Hfl & _ & Hc & _).
  destruct (edged_ends last Hl) as (_ & _ & e & front & _ & Hrev & _ & He).
  assert (Hr : rev (c :: rest ++ " "%char :: list_ascii_of_string last)
               = (e :: (front ++ [" "%char]) ++ rev (c :: rest))%list).
  { change (c :: rest ++ " "%char :: list_ascii_of_string last)%list
      with ((c :: rest) ++ " "%char :: list_ascii_of_string last)%list.
    rewrite rev_app_distr. cbn [rev]. rewrite Hrev. reflexivity. }
  unfold edged. cbv zeta. rewrite !list_ascii_of_string_app, Hfl.
  cbn [list_ascii_of_string app]. rewrite Hr.
  now rewrite Hc, He.
Qed.

Lemma split_space_nonempty (s : string) : split_space s <> [].
Proof.
  destruct s as [|c s]; cbn [split_space]; [discriminate|].
  destruct (Ascii.eqb c " "); [discriminate|]. destruct (split_space s); discriminate.
Qed.

Lemma join_split_space (s : string) : join_space (split_space s) = s.
Proof.
  induction s as [|c s IH]; [reflexivity|]. cbn [split_space].
  pose proof (split_space_nonempty s) as Hne.
  destruct (Ascii.eqb_spec c " ") as [->|_].
  - destruct (split_space s) as [|piece pieces]; [contradiction|].
    cbn [join_space]. cbn [join_space] in IH. now rewrite IH.
  - destruct (split_space s) as [|piece pieces]; [contradiction|].
    destruct pieces as [|next pieces]; cbn [join_space] in *; now rewrite <- IH.
Qed.

Lemma split_space_first (first rest : string) :
  spaceless first = true ->
  split_space (first ++ " " ++ rest) = first :: split_space rest.
Proof.
  induction first as [|c first IH]; intros H; [reflexivity|].
  cbn [spaceless] in H. apply andb_prop in H. destruct H as [Hc Hrest].
  apply negb_true_iff in Hc.
  change (String c first ++ " " ++ rest) with (String c (first ++ " " ++ rest)).
  cbn [split_space]. now rewrite Hc, (IH Hrest).
Qed.

Lemma split_space_spaceless (s : string) : spaceless s = true -> split_space s = [s].
Proof.
  induction s as [|c s IH]; intros H; [reflexivity|].
  cbn [spaceless] in H. apply andb_prop in H. destruct H as [Hc Hrest].
  apply negb_true_iff in Hc. cbn [split_space]. now rewrite Hc, (IH Hrest).
Qed.

Lemma first_piece_spaceless (s : string) : spaceless (hd "" (split_space s)) = true.
Proof.
  induction s as [|c s IH]; [reflexivity|]. cbn [split_space].
  destruct (Ascii.eqb c " ") eqn:Hc; [reflexivity|].
  destruct (split_space s) as [|piece pieces]; cbn [hd spaceless] in *;
    now rewrite Hc, ?IH.
Qed.

Lemma edged_nonempty (s : string) : edged s = true -> String.eqb s "" = false.
Proof. destruct s; [discriminate|reflexivity]. Qed.

(** The name a registration stores is made of the two names of the request
    ([registrantName]); the registration details split it at its first
    space. For names in ASCII: the two names come back as they were sent
    when neither starts or ends with white space and the first name holds
    no space (the last name may be empty); a first name that holds a space
    does not come back. *)
Theorem name_parts_round_trip (first last : string) :
  ascii_only first = true ->
  ascii_only last = true ->
  edged first = true ->
  last = "" \/ edged last = true ->
  (spaceless first = true ->
   name_parts (trim (first ++ " " ++ last)) = (first, last)) /\
  (spaceless first = false ->
   fst (name_parts (trim (first ++ " " ++ last))) <> first).
Proof.
  intros _ _ Hf Hl. split.
  - intros Hs. destruct Hl as [->|Hl].
    + change (" " ++ "") with " ".
      rewrite (proj2 (trim_edged first Hf)). unfold name_parts.
      rewrite (edged_nonempty first Hf), (split_space_spaceless first Hs). reflexivity.
    + pose proof (edged_pair first last Hf Hl) as Hpair.
      rewrite (proj1 (trim_edged _ Hpair)). unfold name_parts.
      rewrite (edged_nonempty _ Hpair), (split_space_first first last Hs).
      pose proof (split_space_nonempty last) as Hne.
      cbn [hd tl List.length]. destruct (split_space last) as [|piece pieces] eqn:E;
        [contradiction|].
      cbn [List.length Nat.ltb Nat.leb]. rewrite <- E. now rewrite join_split_space.
  - intros Hs Heq. unfold name_parts in Heq. cbn [fst] in Heq.
    destruct (String.eqb _ _).
    + cbn [hd] in Heq. subst first. discriminate.
    + rewrite <- Heq in Hs. rewrite first_piece_spaceless in Hs. discriminate.
Qed.

(** "Ann" and "Lee" come back, "Ann" alone too; "Mary Ann" and "Lee" come
    back as "Mary" and "Ann Lee". *)
Lemma name_parts_round_trip_witness :
  name_parts (trim ("Ann" ++ " " ++ "Lee")) = ("Ann", "Lee") /\
  name_parts (trim ("Ann" ++ " " ++ "")) = ("Ann", "") /\
  name_parts (trim ("Mary Ann" ++ " " ++ "Lee")) = ("Mary", "Ann Lee") /\
  fst (name_parts (trim ("Mary Ann" ++ " " ++ "Lee"))) <> "Mary Ann".
Proof.
  destruct (name_parts_round_trip "Ann" "Lee" eq_refl eq_refl eq_refl (or_intror eq_refl))
    as [Hboth _].
  destruct (name_parts_round_trip "Ann" "" eq_refl eq_refl eq_refl (or_introl eq_refl))
    as [Halone _].
  destruct (name_parts_round_trip "Mary Ann" "Lee" eq_refl eq_refl eq_refl
              (or_intror eq_refl))
    as [_ Hlost].
  split; [exact (Hboth eq_refl)|]. split; [exact (Halone eq_refl)|].
  split; [reflexivity|exact (Hlost eq_refl)].
Defined.

(** *** Session guards *)

(** Without a session, every route behind [ensureAuthenticated] answers
    401 and every route behind [authenticateToken] 401 or 403, whatever the
    request, and none of them reads or writes the store. *)
Theorem routes_need_session (P : platform) (refuses : db -> sql -> option exn)
    (token : option string) (d : db) :
  no_session P token ->
  (exists r,
     status r = 401 /\
     (forall b, route_create_build P token b d = (r, d)) /\
     (forall id b, route_update_build P token id b d = (r, d)) /\
     (forall id, route_delete_build P refuses token id d = (r, d)) /\
     (forall id, route_get_build P refuses token id d = (inl r, d)) /\
     (forall followed, route_follow P token followed d = (r, d)) /\
     (forall followed, route_unfollow P token followed d = (r, d)) /\
     (forall target, route_follow_status P refuses token target d = (inl r, d))) /\
  (exists r,
     (status r = 401 \/ status r = 403) /\
     (forall id now b, route_update_profile P token id now b d = (r, d)) /\
     (forall id b, route_update_event_registration P refuses token id b d = (r, d))).
Proof.
  intros Hno.
  assert (Hensure : exists r, status r = 401 /\ ensureAuthenticated P token = inl r).
  { unfold ensureAuthenticated. destruct token as [[|c t]|]; cbn in Hno;
      try (eexists; split; [|reflexivity]; reflexivity).
    destruct Hno as [Hno|Hno]; [discriminate|]. rewrite Hno.
    eexists; split; [|reflexivity]; reflexivity. }
  assert (Hauth : exists r, (status r = 401 \/ status r = 403) /\
                            authenticateToken P token = inl r).
  { unfold authenticateToken. destruct token as [[|c t]|]; cbn in Hno;
      try (eexists; split; [|reflexivity]; left; reflexivity).
    destruct Hno as [Hno|Hno]; [discriminate|]. rewrite Hno.
    eexists; split; [|reflexivity]; right; reflexivity. }
  destruct Hensure as (r & Hr & He). destruct Hauth as (r' & Hr' & Ha). split.
  - exists r. split; [exact Hr|].
    unfold route_create_build, route_update_build, route_delete_build, route_get_build,
      route_follow, route_unfollow, route_follow_status.
    rewrite He. repeat split.
  - exists r'. split; [exact Hr'|].
    unfold route_update_profile, route_update_event_registration.
    rewrite Ha. repeat split.
Qed.

(** A token that does not verify: the builds and the follows answer 401,
    the profile and the registration update 403. *)
Lemma routes_need_session_witness :
  route_delete_build reference accepts (Some "forged") "1" garage
  = (json 401 false "Invalid or expired token", garage) /\
  route_update_profile reference (Some "forged") "4" 1000 clear_avatar members
  = (json 403 false "Invalid or expired token", members).
Proof.
  destruct (routes_need_session reference accepts (Some "forged") garage
              (or_intror eq_refl)) as ((r & _ & _ & _ & Hdel & _) & _).
  destruct (routes_need_session reference accepts (Some "forged") members
              (or_intror eq_refl)) as (_ & (r' & _ & Hprofile & _)).
  split.
  - rewrite (Hdel "1"). f_equal. specialize (Hdel "1"). now injection Hdel as <-.
  - rewrite (Hprofile "4" 1000 clear_avatar). f_equal.
    specialize (Hprofile "4" 1000 clear_avatar). now injection Hprofile as <-.
Defined.

(** *** The data URI of an avatar *)

Lemma chars_start_with_app (pre s : list ascii) :
  chars_start_with pre s = true -> s = (pre ++ skipn (List.length pre) s)%list.
Proof.
  revert s. induction pre as [|p pre IH]; intros s H; [reflexivity|].
  destruct s as [|c s]; [discriminate|]. cbn [chars_start_with] in H.
  apply andb_prop in H. destruct H as [Hc Hrest]. apply Ascii.eqb_eq in Hc. subst c.
  cbn [List.length skipn app]. f_equal. now apply IH.
Qed.

Lemma split_last_parts (sep whole : list ascii) :
  forall (s before_rev : list ascii) (best : option (list ascii * list ascii))
         (ext data : list ascii),
    (rev before_rev ++ s)%list = whole ->
    (forall e t, best = Some (e, t) -> whole = (e ++ sep ++ t)%list /\ e <> []) ->
    split_last sep before_rev s best = Some (ext, data) ->
    whole = (ext ++ sep ++ data)%list /\ ext <> [].
Proof.
  induction s as [|c s IH]; intros before_rev best ext data Hwhole Hbest H;
    cbn [split_last] in H.
  - now apply Hbest.
  - apply (IH (c :: before_rev) _ ext data) in H; [exact H| |].
    + cbn [rev]. now rewrite <- app_assoc.
    + intros e t. destruct before_rev as [|b before_rev]; [apply Hbest|].
      destruct (chars_start_with sep (c :: s)) eqn:Hsep; [|apply Hbest].
      intros Heq. injection Heq as <- <-. split.
      * rewrite <- Hwhole. f_equal. now apply chars_start_with_app.
      * cbn [rev]. destruct (rev before_rev); discriminate.
Qed.

Lemma chars_start_with_self (sep post : list ascii) :
  chars_start_with sep (sep ++ post) = true.
Proof.
  induction sep as [|c sep IH]; [reflexivity|]. cbn [app chars_start_with].
  now rewrite Ascii.eqb_refl, IH.
Qed.

(** [split_last] stops at the last place where [sep] occurs: no [sep]
    follows it. *)
Lemma split_last_greedy (sep : list ascii) :
  sep <> [] ->
  forall (s before_rev : list ascii) (best : option (list ascii * list ascii))
         (ext data : list ascii),
    (forall e t, best = Some (e, t) ->
       before_rev <> [] /\
       forall pre post, t = (pre ++ sep ++ post)%list ->
                        exists w, s = (w ++ sep ++ post)%list) ->
    split_last sep before_rev s best = Some (ext, data) ->
    forall pre post, data <> (pre ++ sep ++ post)%list.
Proof.
  intros Hsep. induction s as [|c s IH]; intros before_rev best ext data Hbest H;
    cbn [split_last] in H.
  - intros pre post Heq. destruct (Hbest _ _ H) as (_ & Hocc).
    destruct (Hocc pre post Heq) as (w & Hw).
    destruct w; [destruct sep; [contradiction|discriminate]|discriminate].
  - refine (IH (c :: before_rev) _ ext data _ H).
    intros e t Hb. split; [discriminate|].
    destruct before_rev as [|b before_rev].
    { destruct (Hbest _ _ Hb) as (Hne & _). contradiction. }
    destruct (chars_start_with sep (c :: s)) eqn:Hstart.
    + injection Hb as <- <-. intros pre post Heq.
      apply chars_start_with_app in Hstart. rewrite Heq in Hstart.
      destruct sep as [|x sep]; [contradiction|].
      cbn [app] in Hstart. injection Hstart as _ ->.
      exists (sep ++ pre)%list. rewrite <- !app_assoc. reflexivity.
    + destruct (Hbest _ _ Hb) as (_ & Hocc). intros pre post Heq.
      destruct (Hocc pre post Heq) as (w & Hw).
      destruct w as [|x w].
      * cbn [app] in Hw. rewrite Hw, chars_start_with_self in Hstart. discriminate.
      * cbn [app] in Hw. injection Hw as _ ->. now exists w.
Qed.

Lemma string_of_list_ascii_app (a b : list ascii) :
  string_of_list_ascii (a ++ b) = string_of_list_ascii a ++ string_of_list_ascii b.
Proof. induction a as [|c a IH]; cbn; [reflexivity|now rewrite IH]. Qed.

(** What the handler takes from an avatar data URI puts the URI together
    again: the URI is "data:image/", the extension, ";base64," and the
    data. The extension is not empty; nothing else is required of it, and
    it reaches up to the last ";base64," of the URI: the data holds none. *)
Theorem data_uri_parts (s extension base64Data : string) :
  match_data_uri s = Some (extension, base64Data) ->
  s = "data:image/" ++ extension ++ ";base64," ++ base64Data /\
  extension <> "" /\
  (forall before after, base64Data <> before ++ ";base64," ++ after) /\
  starts_with "data:image" s = true.
Proof.
  unfold match_data_uri. cbv zeta.
  destruct (chars_start_with _ _) eqn:Hpre; [|discriminate].
  destruct (negb _); [|discriminate]. cbn [andb].
  destruct (split_last _ _ _ _) as [[ext data]|] eqn:Hsplit; [|discriminate].
  intros H. injection H as <- <-.
  apply chars_start_with_app in Hpre.
  assert (Hlast : forall pre post,
             data <> (pre ++ list_ascii_of_string ";base64," ++ post)%list).
  { refine (split_last_greedy _ _ _ _ _ _ _ _ Hsplit); [discriminate|].
    intros e t Hnone. discriminate. }
  apply (split_last_parts _ (skipn (List.length (list_ascii_of_string "data:image/"))
                               (list_ascii_of_string s))) in Hsplit;
    [|reflexivity|discriminate].
  destruct Hsplit as [Hparts Hext].
  assert (Hs : s = "data:image/" ++ string_of_list_ascii ext ++ ";base64,"
                   ++ string_of_list_ascii data).
  { rewrite <- (string_of_list_ascii_of_string s), Hpre, Hparts.
    rewrite !string_of_list_ascii_app, !string_of_list_ascii_of_string. reflexivity. }
  split; [exact Hs|]. split; [|split].
  - destruct ext; [contradiction|discriminate].
  - intros before after Heq. apply (Hlast (list_ascii_of_string before)
                                          (list_ascii_of_string after)).
    rewrite <- (list_ascii_of_string_of_list_ascii data), Heq.
    now rewrite !list_ascii_of_string_app.
  - rewrite Hs. reflexivity.
Qed.

(** A PNG, and a URI with a path and a second ";base64," in it. *)
Lemma data_uri_parts_witness :
  match_data_uri "data:image/png;base64,iVBORw0KGgo=" = Some ("png", "iVBORw0KGgo=") /\
  match_data_uri "data:image/../../x;base64,AA;base64,BB"
  = Some ("../../x;base64,AA", "BB") /\
  "data:image/../../x;base64,AA;base64,BB"
  = "data:image/" ++ "../../x;base64,AA" ++ ";base64," ++ "BB".
Proof.
  split; [reflexivity|]. split; [reflexivity|].
  exact (proj1 (data_uri_parts "data:image/../../x;base64,AA;base64,BB"
                  "../../x;base64,AA" "BB" eq_refl)).
Defined.

(** User 1 edits the review they wrote, with an empty comment. *)
(** User 1 turns the five stars of review 1 into two. *)
Lemma put_review_updates_witness :
  snd (put_review reference 1
         {| rv_userId := num 1; rv_rating := num 2; rv_comment := JStr "" |} reviewed)
  = rated (num 2).
Proof.
  destruct (put_review_updates reference 1
              {| rv_userId := num 1; rv_rating := num 2; rv_comment := JStr "" |}
              reviewed (Fin (inject_Z 2)) eq_refl eq_refl) as (_ & _ & Hdb & _).
  rewrite Hdb. reflexivity.
Defined.
